(** * The VDC ledger engine and mint/redeem validation pipeline ([vdc.py])

    A shallow embedding of the ledger store ([atomic_write], [init_ledger],
    [load_chain], [get_current_supply], [get_balance], [_hash_block_data],
    [commit]), of the transaction factory ([create_mint_tx],
    [create_burn_tx]), of the physics validator ([compute_joules]) and of the
    redeem handler ([handle_redeem]), followed by the properties the
    specification states about them.

    Python values are modelled as they are at run time: amounts are IEEE 754
    binary64 numbers (Rocq's primitive floats), blocks and transactions are
    insertion-ordered dictionaries, block hashes are SHA-256 digests of the JSON
    text [json.dumps(_, sort_keys=True)] produces. *)

From Stdlib Require Import ZArith List String Ascii Floats Bool Lia.
From Stdlib Require Import DecimalString Sorting.Permutation Sorting.Sorted.
Import ListNotations.

Local Open Scope Z_scope.

(** * Part I: the fragment of the Python runtime the program uses *)

Module Py.

(** ** Exceptions

    [Raise e] is an exception derived from [Exception] (what
    [except Exception] catches). *)

Inductive exn : Set :=
| TypeError | KeyError | IndexError | AttributeError | OverflowError | ValueError
| OSError.

Inductive result (A : Type) : Type :=
| Ok (a : A)
| Raise (e : exn).

Arguments Ok {A} a.
Arguments Raise {A} e.

Definition rbind {A B} (r : result A) (k : A -> result B) : result B :=
  match r with
  | Ok a => k a
  | Raise e => Raise e
  end.

(** ** Floats: [float] is binary64, as CPython's [float] *)

(** [n / d] rounded to the nearest integer, ties to the even one
    ([0 <= n], [0 < d]). *)
Definition div_half_even (n d : Z) : Z :=
  let q := n / d in
  match 2 * (n mod d) ?= d with
  | Lt => q
  | Gt => q + 1
  | Eq => if Z.even q then q else q + 1
  end.

(** The binary64 number nearest to [(-1)^s * n / d], ties to even: what
    [strtod] returns for a decimal string of that value. *)
Definition nearest_float (s : bool) (n d : positive) : float :=
  SF2Prim (SFdiv prec emax (S754_finite s n 0) (S754_finite false d 0)).

(** [round(x, ndigits)] on a float, for [0 <= ndigits]: CPython's
    [double_round] prints [x] with [ndigits] digits after the point, correctly
    rounded (ties to even on the exact binary value), and reads the string
    back.  Zeros, infinities and NaN round to themselves. *)
Definition float_round (x : float) (ndigits : Z) : float :=
  match Prim2SF x with
  | S754_finite s m e =>
      if 0 <=? e then x
      else
        match div_half_even (Zpos m * 10 ^ ndigits) (2 ^ (- e)) with
        | Zpos k => nearest_float s k (Z.to_pos (10 ^ ndigits))
        | _ => if s then neg_zero else zero
        end
  | _ => x
  end.

(** [round(x)] on a float: the nearest [int], ties to even. *)
Definition float_round_int (x : float) : result Z :=
  match Prim2SF x with
  | S754_nan => Raise ValueError
  | S754_infinity _ => Raise OverflowError
  | S754_zero _ => Ok 0
  | S754_finite s m e =>
      let k := if 0 <=? e then Zpos m * 2 ^ e
               else div_half_even (Zpos m) (2 ^ (- e)) in
      Ok (if s then - k else k)
  end.

(** The conversion [int -> float] of mixed arithmetic ([PyLong_AsDouble]):
    correctly rounded, [OverflowError] when the integer is too large. *)
Definition float_of_int (z : Z) : result float :=
  let f := SF2Prim (binary_normalize prec emax z 0 false) in
  if is_infinity f then Raise OverflowError else Ok f.

(** Truth value of a float: [x or 1] takes [1] exactly when [x == 0.0]. *)
Definition float_bool (x : float) : bool := negb (x =? 0)%float.

(** *** [repr] of a float: the shortest decimal string that reads back to it *)

Definition string_of_Z (z : Z) : string := NilZero.string_of_int (Z.to_int z).

Fixpoint ndigits10 (fuel : nat) (z : Z) : Z :=
  match fuel with
  | O => 1
  | S f => if z <? 10 then 1 else 1 + ndigits10 f (z / 10)
  end.

Fixpoint leading_zeros (fuel : nat) (n d : Z) : Z :=
  match fuel with
  | O => 0
  | S f => if d <=? n * 10 then 0 else 1 + leading_zeros f (n * 10) d
  end.

(** The position [p] of the decimal point of [n / d > 0]:
    [10^(p-1) <= n / d < 10^p]. *)
Definition decpt (n d : Z) : Z :=
  if d <=? n then ndigits10 (Z.to_nat (Z.log2 n) + 1) (n / d)
  else - leading_zeros 400 n d.

(** Does the [k]-digit decimal [c * 10^(p-k)] read back as [x]? *)
Definition reads_back (x : float) (c p k : Z) : bool :=
  match c with
  | Zpos c' =>
      let y := if k <=? p then nearest_float false (c' * Z.to_pos (10 ^ (p - k))) 1
               else nearest_float false c' (Z.to_pos (10 ^ (k - p))) in
      PrimFloat.eqb y x
  | _ => false
  end.

(** The shortest digit string [c] (with [k] digits) for [x = n / d > 0]; among
    the two [k]-digit neighbours of [x] the closer one that reads back, and
    the one with the even last digit when both read back and [x] lies half
    way between them. *)
Fixpoint shortest_digits (fuel : nat) (x : float) (n d p k : Z) : Z * Z :=
  let num := if p <=? k then n * 10 ^ (k - p) else n in
  let den := if p <=? k then d else d * 10 ^ (p - k) in
  let lo := num / den in
  let hi := lo + 1 in
  let lo_ok := reads_back x lo p k in
  let hi_ok := reads_back x hi p k in
  let lo_closer := match 2 * (num mod den) ?= den with
                   | Lt => true
                   | Eq => Z.even lo
                   | Gt => false
                   end in
  match fuel with
  | O => (lo, k)
  | S f =>
      if lo_ok && (lo_closer || negb hi_ok) then (lo, k)
      else if hi_ok then (hi, k)
      else shortest_digits f x n d p (k + 1)
  end.

Fixpoint zeros (n : nat) : string :=
  match n with O => EmptyString | S m => String "0" (zeros m) end.

(** [format_float_short] in mode ['r']: exponent notation when
    [decpt <= -4] or [decpt > 16], at least two exponent digits, and [.0]
    added to a digit string without a point. *)
Definition repr_layout (digits : string) (p : Z) : string :=
  let n := Z.of_nat (String.length digits) in
  if (p <=? -4) || (16 <? p) then
    let mant := match digits with
                | String c EmptyString => String c EmptyString
                | String c rest => String c (String "." rest)
                | EmptyString => EmptyString
                end in
    let e := p - 1 in
    let ea := string_of_Z (Z.abs e) in
    mant ++ "e" ++ (if e <? 0 then "-" else "+")
         ++ (if Z.abs e <? 10 then "0" else "") ++ ea
  else if p <=? 0 then "0." ++ zeros (Z.to_nat (- p)) ++ digits
  else if n <=? p then digits ++ zeros (Z.to_nat (p - n)) ++ ".0"
  else substring 0 (Z.to_nat p) digits ++ "."
       ++ substring (Z.to_nat p) (Z.to_nat (n - p)) digits.

Definition float_repr (x : float) : string :=
  match Prim2SF x with
  | S754_nan => "nan"%string
  | S754_infinity s => if s then "-inf"%string else "inf"%string
  | S754_zero s => if s then "-0.0"%string else "0.0"%string
  | S754_finite s m e =>
      let n := if 0 <=? e then Zpos m * 2 ^ e else Zpos m in
      let d := if 0 <=? e then 1 else 2 ^ (- e) in
      let p := decpt n d in
      let '(c, k) := shortest_digits 17 (abs x) n d p 1 in
      let '(c, p) := if c =? 10 ^ k then (1, p + 1) else (c, p) in
      ((if s then "-" else "") ++ repr_layout (string_of_Z c) p)%string
  end.

(** ** Values

    The values the ledger holds: [int], [float], [str], [list] and [dict] with
    string keys (what [json.loads] builds from the ledger file, booleans and
    [null] apart, which the program never writes).  A [str] is a sequence of
    code points below 256.  A [dict] keeps its keys in insertion order. *)

#[local] Set Warnings "-register-all".

Inductive value : Type :=
| VInt (n : Z)
| VFloat (x : float)
| VStr (s : string)
| VList (l : list value)
| VDict (d : list (string * value)).

Definition dict : Type := list (string * value).

(** [d.get(k)]: [None] stands for Python's [None]. *)
Fixpoint dict_get (d : dict) (k : string) : option value :=
  match d with
  | [] => None
  | (k', v) :: d' => if String.eqb k' k then Some v else dict_get d' k
  end.

(** [d.get(k, default)] *)
Definition dict_get_default (d : dict) (k : string) (default : value) : value :=
  match dict_get d k with Some v => v | None => default end.

(** [d[k]] *)
Definition dict_item (d : dict) (k : string) : result value :=
  match dict_get d k with Some v => Ok v | None => Raise KeyError end.

(** [d[k] = v]: an existing key keeps its place, a new one goes last. *)
Fixpoint dict_set (d : dict) (k : string) (v : value) : dict :=
  match d with
  | [] => [(k, v)]
  | (k', v') :: d' =>
      if String.eqb k' k then (k, v) :: d' else (k', v') :: dict_set d' k v
  end.

(** The dictionary without the key [k]. *)
Fixpoint dict_remove (d : dict) (k : string) : dict :=
  match d with
  | [] => []
  | (k', v) :: d' =>
      if String.eqb k' k then dict_remove d' k else (k', v) :: dict_remove d' k
  end.

Definition keys (d : dict) : list string := map fst d.

(** [x == s] for a string [s]: true for the equal [str] only. *)
Definition eq_str (x : option value) (s : string) : bool :=
  match x with
  | Some (VStr s') => String.eqb s' s
  | _ => false
  end.

(** [a + b] and [a - b] where one operand is known to be a number (every use
    below: the other operand then has to be a number too, or Python raises
    [TypeError]).  [int] with [int] is exact; a [float] operand converts the
    other one. *)
Definition py_arith (fi : Z -> Z -> Z) (ff : float -> float -> float)
    (a b : value) : result value :=
  match a, b with
  | VInt x, VInt y => Ok (VInt (fi x y))
  | VInt x, VFloat y => rbind (float_of_int x) (fun x' => Ok (VFloat (ff x' y)))
  | VFloat x, VInt y => rbind (float_of_int y) (fun y' => Ok (VFloat (ff x y')))
  | VFloat x, VFloat y => Ok (VFloat (ff x y))
  | _, _ => Raise TypeError
  end.

Definition py_add : value -> value -> result value := py_arith Z.add PrimFloat.add.
Definition py_sub : value -> value -> result value := py_arith Z.sub PrimFloat.sub.

(** [sum(xs)]: the items added from left to right onto the [int] [0] (for a
    batch of one amount, as the handlers commit, [0 + x]). *)
Fixpoint py_sum_from (acc : value) (xs : list value) : result value :=
  match xs with
  | [] => Ok acc
  | x :: xs' => rbind (py_add acc x) (fun acc' => py_sum_from acc' xs')
  end.

Definition py_sum (xs : list value) : result value := py_sum_from (VInt 0) xs.

(** [round(v, ndigits)]: an [int] is returned as it is (for [0 <= ndigits]). *)
Definition py_round (v : value) (ndigits : Z) : result value :=
  match v with
  | VInt n => Ok (VInt n)
  | VFloat x => Ok (VFloat (float_round x ndigits))
  | _ => Raise TypeError
  end.

(** [for x in v]: the items a loop over [v] visits. *)
Definition py_iter (v : value) : result (list value) :=
  match v with
  | VList l => Ok l
  | VDict d => Ok (map (fun kv => VStr (fst kv)) d)
  | VStr s => Ok (map (fun c => VStr (String c EmptyString)) (list_ascii_of_string s))
  | _ => Raise TypeError
  end.

(** [x.get]: only a [dict] has the method. *)
Definition as_dict (v : value) : result dict :=
  match v with
  | VDict d => Ok d
  | _ => Raise AttributeError
  end.

(** ** [json.dumps(v, sort_keys=True)]

    Default separators [", "] and [": "], [ensure_ascii=True], floats printed
    by [float.__repr__] (and [NaN], [Infinity], [-Infinity]).  An [int] is
    printed in full: CPython 3.11 and later refuses to print one of more
    than 4300 digits ([ValueError]), which is outside this model; no clock
    reading or block index comes near, and the statements about arbitrary
    transactions exclude such an [int]. *)

Definition hex_table : list ascii :=
  list_ascii_of_string "0123456789abcdef".

Definition hex_digit (n : Z) : ascii :=
  nth (Z.to_nat (n mod 16)) hex_table "0"%char.

Definition backslash : ascii := ascii_of_nat 92.
Definition dquote : ascii := ascii_of_nat 34.

Definition escaped (s : string) : string := String backslash s.

Definition json_char (c : ascii) : string :=
  let n := Z.of_N (N_of_ascii c) in
  if n =? 34 then escaped (String dquote EmptyString)
  else if n =? 92 then escaped (String backslash EmptyString)
  else if n =? 10 then escaped "n"
  else if n =? 13 then escaped "r"
  else if n =? 9 then escaped "t"
  else if n =? 8 then escaped "b"
  else if n =? 12 then escaped "f"
  else if (n <? 32) || (126 <? n) then
    escaped ("u00" ++ String (hex_digit (n / 16)) (String (hex_digit n) EmptyString))
  else String c EmptyString.

Fixpoint json_escape (s : string) : string :=
  match s with
  | EmptyString => EmptyString
  | String c s' => (json_char c ++ json_escape s')%string
  end.

Definition json_string (s : string) : string :=
  (String dquote (json_escape s) ++ String dquote EmptyString)%string.

Definition json_float (x : float) : string :=
  match Prim2SF x with
  | S754_nan => "NaN"%string
  | S754_infinity s => if s then "-Infinity"%string else "Infinity"%string
  | _ => float_repr x
  end.

Fixpoint join (sep : string) (l : list string) : string :=
  match l with
  | [] => EmptyString
  | [s] => s
  | s :: l' => (s ++ sep ++ join sep l')%string
  end.

(** [sorted(d.items())] on the serialized items: insertion sort by key. *)
Fixpoint insert_item (kv : string * string) (l : list (string * string))
  : list (string * string) :=
  match l with
  | [] => [kv]
  | kv' :: l' =>
      if String.leb (fst kv) (fst kv') then kv :: l
      else kv' :: insert_item kv l'
  end.

Fixpoint sort_items (l : list (string * string)) : list (string * string) :=
  match l with
  | [] => []
  | kv :: l' => insert_item kv (sort_items l')
  end.

Definition json_item (kv : string * string) : string :=
  (json_string (fst kv) ++ ": " ++ snd kv)%string.

Definition json_object (items : list (string * string)) : string :=
  ("{" ++ join ", " (map json_item (sort_items items)) ++ "}")%string.

Fixpoint json_dumps_sorted (v : value) : string :=
  match v with
  | VInt n => string_of_Z n
  | VFloat x => json_float x
  | VStr s => json_string s
  | VList l => ("[" ++ join ", " (map json_dumps_sorted l) ++ "]")%string
  | VDict d =>
      let fix items (d : list (string * value)) : list (string * string) :=
        match d with
        | [] => []
        | (k, v') :: d' => (k, json_dumps_sorted v') :: items d'
        end in
      json_object (items d)
  end.

(** ** [hashlib.sha256(data).hexdigest()] (FIPS 180-4) *)

(** [s.encode('utf-8')] for code points below 256. *)
Definition utf8_encode (s : string) : list Z :=
  flat_map (fun c => let n := Z.of_N (N_of_ascii c) in
                     if n <? 128 then [n]
                     else [Z.lor 192 (Z.shiftr n 6); Z.lor 128 (Z.land n 63)])
           (list_ascii_of_string s).

Module SHA256.

Definition mask32 (x : Z) : Z := Z.land x 0xffffffff.
Definition add32 (x y : Z) : Z := mask32 (x + y).
Definition rotr (n x : Z) : Z :=
  Z.lor (Z.shiftr x n) (mask32 (Z.shiftl x (32 - n))).
Definition xor3 (x y z : Z) : Z := Z.lxor (Z.lxor x y) z.

Definition Ch (x y z : Z) : Z :=
  Z.lxor (Z.land x y) (Z.land (Z.lxor x 0xffffffff) z).
Definition Maj (x y z : Z) : Z :=
  xor3 (Z.land x y) (Z.land x z) (Z.land y z).
Definition Sigma0 (x : Z) : Z := xor3 (rotr 2 x) (rotr 13 x) (rotr 22 x).
Definition Sigma1 (x : Z) : Z := xor3 (rotr 6 x) (rotr 11 x) (rotr 25 x).
Definition sigma0 (x : Z) : Z := xor3 (rotr 7 x) (rotr 18 x) (Z.shiftr x 3).
Definition sigma1 (x : Z) : Z := xor3 (rotr 17 x) (rotr 19 x) (Z.shiftr x 10).

(** The round constants are the first 32 bits of the fractional parts of the
    cube roots of the first 64 primes; the initial hash value, of the square
    roots of the first 8 primes. *)

Definition is_prime (n : nat) : bool :=
  forallb (fun d => negb (Nat.eqb (n mod d) 0)) (seq 2 (n - 2)).

Definition primes : list Z :=
  Eval vm_compute in map Z.of_nat (filter is_prime (seq 2 310)).

(** The integer cube root, by bisection between [lo] and [hi]. *)
Fixpoint cube_root (fuel : nat) (n lo hi : Z) : Z :=
  match fuel with
  | O => lo
  | S f =>
      if hi - lo <=? 1 then lo
      else
        let mid := (lo + hi) / 2 in
        if mid ^ 3 <=? n then cube_root f n mid hi else cube_root f n lo mid
  end.

Definition K : list Z :=
  Eval vm_compute in
    map (fun p => mask32 (cube_root 64 (p * 2 ^ 96) 0 (2 ^ 36))) primes.

Record state : Set := State { ha : Z; hb : Z; hc : Z; hd : Z; he : Z; hf : Z; hg : Z; hh : Z }.

Definition H0 : state :=
  Eval vm_compute in
    match map (fun p => mask32 (Z.sqrt (p * 2 ^ 64))) (firstn 8 primes) with
    | [a; b; c; d; e; f; g; h] => State a b c d e f g h
    | _ => State 0 0 0 0 0 0 0 0
    end.

(** One round on the working variables, with round constant [k] and schedule
    word [w]. *)
Definition round (s : state) (k w : Z) : state :=
  let t1 := add32 (add32 (add32 (add32 (hh s) (Sigma1 (he s))) (Ch (he s) (hf s) (hg s))) k) w in
  let t2 := add32 (Sigma0 (ha s)) (Maj (ha s) (hb s) (hc s)) in
  State (add32 t1 t2) (ha s) (hb s) (hc s) (add32 (hd s) t1) (he s) (hf s) (hg s).

(** The message schedule as a window of the sixteen latest words, oldest
    first: [W_t = sigma1 W_(t-2) + W_(t-7) + sigma0 W_(t-15) + W_(t-16)]. *)
Definition next_window (w : list Z) : list Z :=
  let x := add32 (add32 (add32 (sigma1 (nth 14 w 0)) (nth 9 w 0)) (sigma0 (nth 1 w 0))) (nth 0 w 0) in
  tl w ++ [x].

Fixpoint rounds (ks : list Z) (w : list Z) (s : state) : state :=
  match ks with
  | [] => s
  | k :: ks' => rounds ks' (next_window w) (round s k (nth 0 w 0))
  end.

Definition compress (h : state) (block : list Z) : state :=
  let s := rounds K block h in
  State (add32 (ha h) (ha s)) (add32 (hb h) (hb s)) (add32 (hc h) (hc s))
        (add32 (hd h) (hd s)) (add32 (he h) (he s)) (add32 (hf h) (hf s))
        (add32 (hg h) (hg s)) (add32 (hh h) (hh s)).

(** Big-endian words of a byte string. *)
Fixpoint words (bytes : list Z) : list Z :=
  match bytes with
  | b0 :: b1 :: b2 :: b3 :: rest =>
      (Z.shiftl b0 24 + Z.shiftl b1 16 + Z.shiftl b2 8 + b3) :: words rest
  | _ => []
  end.

Definition be64 (n : Z) : list Z :=
  map (fun i => Z.land (Z.shiftr n (8 * i)) 255) [7; 6; 5; 4; 3; 2; 1; 0].

(** The message followed by the bit [1], zeros, and its length in bits. *)
Definition pad (msg : list Z) : list Z :=
  let len := Z.of_nat (List.length msg) in
  msg ++ [128] ++ repeat 0 (Z.to_nat ((55 - len) mod 64)) ++ be64 (8 * len).

Fixpoint blocks (fuel : nat) (ws : list Z) (h : state) : state :=
  match fuel, ws with
  | S f, _ :: _ => blocks f (skipn 16 ws) (compress h (firstn 16 ws))
  | _, _ => h
  end.

Definition digest (msg : list Z) : state :=
  let ws := words (pad msg) in
  blocks (List.length ws) ws H0.

Definition hex32 (x : Z) : list ascii :=
  map (fun i => hex_digit (Z.shiftr x (4 * i))) [7; 6; 5; 4; 3; 2; 1; 0].

Definition hexdigest (msg : list Z) : string :=
  let s := digest msg in
  string_of_list_ascii
    (flat_map hex32 [ha s; hb s; hc s; hd s; he s; hf s; hg s; hh s]).

End SHA256.

End Py.

(** * Part II: the world the program runs in

    The working directory holds regular files at the paths the program reads
    and writes (the ledger and its temporary file are never directories); the
    clock answers [int(time.time())].  A file written by [write_text] holds the
    text [json.dumps(chain, indent=2)]; [json.loads] gives the chain back from
    the complete text ([Document]) and raises [JSONDecodeError] on a proper
    prefix of it ([Truncated]: the text of a list is closed by its last
    character). *)

Import Py.

Local Open Scope string_scope.
#[local] Set Warnings "-inexact-float".

Definition path : Set := string.

Inductive content : Type :=
| Document (chain : list dict)
| Truncated (chain : list dict) (written : nat).   (* the first [written] characters only *)

Record world : Type := World {
  files : path -> option content;
  dirs : list path;
  clock : nat -> Z;   (* the successive readings of [int(time.time())] *)
  ticks : nat         (* how many readings were taken *)
}.

Definition set_file (w : world) (p : path) (c : option content) : world :=
  {| files := fun q => if String.eqb q p then c else files w q;
     dirs := dirs w; clock := clock w; ticks := ticks w |}.

(** ** Programs

    A program is the sequence of system calls it makes, each followed by what
    it does with the answer; it ends by returning, by raising an exception or
    by [sys.exit].  [run] executes a program to its end; [moment] (below)
    tells in which worlds a crash can stop it. *)

Inductive io (A : Type) : Type :=
| Ret (a : A)
| Throw (e : exn)
| Exit (code : Z)
| PathExists (p : path) (k : bool -> io A)
| Mkdir (p : path) (k : io A)
| WriteText (p : path) (chain : list dict) (k : io A)
| ReadText (p : path) (k : result content -> io A)
| Replace (src dst : path) (k : result unit -> io A)
| TimeTime (k : Z -> io A).

Arguments Ret {A} a.
Arguments Throw {A} e.
Arguments Exit {A} code.
Arguments PathExists {A} p k.
Arguments Mkdir {A} p k.
Arguments WriteText {A} p chain k.
Arguments ReadText {A} p k.
Arguments Replace {A} src dst k.
Arguments TimeTime {A} k.

Fixpoint bind {A B} (m : io A) (f : A -> io B) : io B :=
  match m with
  | Ret a => f a
  | Throw e => Throw e
  | Exit c => Exit c
  | PathExists p k => PathExists p (fun b => bind (k b) f)
  | Mkdir p k => Mkdir p (bind k f)
  | WriteText p chain k => WriteText p chain (bind k f)
  | ReadText p k => ReadText p (fun c => bind (k c) f)
  | Replace src dst k => Replace src dst (fun r => bind (k r) f)
  | TimeTime k => TimeTime (fun t => bind (k t) f)
  end.

Notation "x <- m ;; k" := (bind m (fun x => k))
  (at level 61, m at next level, right associativity).
Notation "m ;;; k" := (bind m (fun _ => k))
  (at level 61, right associativity).

Definition lift {A} (r : result A) : io A :=
  match r with
  | Ok a => Ret a
  | Raise e => Throw e
  end.

(** [try: body except Exception as e: handler(e)] *)
Fixpoint try_except {A} (body : io A) (handler : exn -> io A) : io A :=
  match body with
  | Ret a => Ret a
  | Throw e => handler e
  | Exit c => Exit c
  | PathExists p k => PathExists p (fun b => try_except (k b) handler)
  | Mkdir p k => Mkdir p (try_except k handler)
  | WriteText p chain k => WriteText p chain (try_except k handler)
  | ReadText p k => ReadText p (fun c => try_except (k c) handler)
  | Replace src dst k => Replace src dst (fun r => try_except (k r) handler)
  | TimeTime k => TimeTime (fun t => try_except (k t) handler)
  end.

(** *** The system calls *)

(** [p.exists()] *)
Definition path_exists (p : path) : io bool := PathExists p Ret.
(** [p.mkdir(exist_ok=True)] *)
Definition mkdir_exist_ok (p : path) : io unit := Mkdir p (Ret tt).
(** [p.write_text(json.dumps(chain, indent=2))] *)
Definition write_text (p : path) (chain : list dict) : io unit :=
  WriteText p chain (Ret tt).
(** [p.read_text()] *)
Definition read_text (p : path) : io content := ReadText p lift.
(** [src.replace(dst)]: [os.replace], one atomic rename. *)
Definition replace (src dst : path) : io unit := Replace src dst lift.
(** [int(time.time())] *)
Definition int_time_time : io Z := TimeTime Ret.
(** [sys.exit(code)] *)
Definition sys_exit {A} (code : Z) : io A := Exit code.

Definition do_mkdir (p : path) (w : world) : world :=
  if existsb (String.eqb p) (dirs w) then w
  else {| files := files w; dirs := p :: dirs w; clock := clock w;
          ticks := ticks w |}.

(** [FileNotFoundError] when there is no such file. *)
Definition do_read (p : path) (w : world) : result content :=
  match files w p with
  | Some c => Ok c
  | None => Raise OSError
  end.

Definition do_replace (src dst : path) (w : world) : result unit * world :=
  match files w src with
  | Some c =>
      (Ok tt, if String.eqb src dst then w
              else set_file (set_file w dst (Some c)) src None)
  | None => (Raise OSError, w)
  end.

Definition do_tick (w : world) : world :=
  {| files := files w; dirs := dirs w; clock := clock w; ticks := S (ticks w) |}.

(** How a program ends: it returns, it raises an exception that nothing
    caught, or it leaves by [sys.exit], which [except Exception] does not
    catch. *)
Inductive outcome (A : Type) : Type :=
| Returns (a : A)
| Raises (e : exn)
| Exits (code : Z).

Arguments Returns {A} a.
Arguments Raises {A} e.
Arguments Exits {A} code.

(** The outcome of a program and the world it leaves, also when it raises. *)
Fixpoint run {A} (m : io A) (w : world) : outcome A * world :=
  match m with
  | Ret a => (Returns a, w)
  | Throw e => (Raises e, w)
  | Exit c => (Exits c, w)
  | PathExists p k =>
      run (k (match files w p with Some _ => true | None => false end)) w
  | Mkdir p k => run k (do_mkdir p w)
  | WriteText p chain k => run k (set_file w p (Some (Document chain)))
  | ReadText p k => run (k (do_read p w)) w
  | Replace src dst k =>
      run (k (fst (do_replace src dst w))) (snd (do_replace src dst w))
  | TimeTime k => run (k (clock w (ticks w))) (do_tick w)
  end.

(** [moment m w w']: the process running [m] from [w] can be stopped in
    [w'].  Every system call is atomic but [write_text], which may have
    written only the first [n] characters of the text. *)
Inductive moment {A} : io A -> world -> world -> Prop :=
| moment_now m w :
    moment m w w
| moment_exists p k w w' :
    moment (k (match files w p with Some _ => true | None => false end)) w w' ->
    moment (PathExists p k) w w'
| moment_mkdir p k w w' :
    moment k (do_mkdir p w) w' ->
    moment (Mkdir p k) w w'
| moment_torn p chain k w n :
    moment (WriteText p chain k) w (set_file w p (Some (Truncated chain n)))
| moment_write p chain k w w' :
    moment k (set_file w p (Some (Document chain))) w' ->
    moment (WriteText p chain k) w w'
| moment_read p k w w' :
    moment (k (do_read p w)) w w' ->
    moment (ReadText p k) w w'
| moment_replace src dst k w w' :
    moment (k (fst (do_replace src dst w))) (snd (do_replace src dst w)) w' ->
    moment (Replace src dst k) w w'
| moment_time k w w' :
    moment (k (clock w (ticks w))) (do_tick w) w' ->
    moment (TimeTime k) w w'.

(** *** [pathlib.PurePath.with_suffix] on plain file names *)

Fixpoint rfind_dot (s : string) (i : nat) (found : option nat) : option nat :=
  match s with
  | EmptyString => found
  | String c s' =>
      rfind_dot s' (S i) (if Ascii.eqb c "."%char then Some i else found)
  end.

(** [PurePath.suffix]: from the last dot on, unless the dot is the first or the
    last character. *)
Definition suffix (name : string) : string :=
  match rfind_dot name 0 None with
  | Some i =>
      if (Nat.ltb 0 i) && (Nat.ltb (S i) (String.length name))
      then substring i (String.length name - i) name
      else EmptyString
  | None => EmptyString
  end.

Definition with_suffix (name suf : string) : path :=
  substring 0 (String.length name - String.length (suffix name)) name ++ suf.

(** * Part III: the program *)

(** ** Protocol constants (class [VDC]) *)

Module VDC.
Definition ALPHA_JOULES_TO_VDC : float := 0.00000095.
Definition JOULES_PER_KCAL : float := 4184.0.
Definition GOLD_G_PER_VDC : float := 0.000011.
Definition SILK_G_PER_VDC : float := 0.0008.
Definition TENCEL_G_PER_VDC : float := 0.012.
Definition GRAVITY : float := 9.81.
Definition DEFAULT_MASS_KG : float := 75.0.
Definition ROLLING_COEFF : float := 0.005.
Definition LEDGER : path := "vdc_chain.json".
Definition PROOFS : path := "vdc_proofs".
End VDC.

(** ** Ledger architecture *)

Definition atomic_write (p : path) (chain : list dict) : io unit :=
  let tmp := with_suffix p ".tmp" in
  write_text tmp chain ;;;
  replace tmp p.

Fixpoint str_repeat (s : string) (n : nat) : string :=
  match n with O => EmptyString | S m => (s ++ str_repeat s m)%string end.

Definition genesis_block : dict :=
  [ ("index", VInt 0);
    ("timestamp", VInt 0);
    ("txs", VList []);
    ("supply", VFloat 0);
    ("prev_hash", VStr (str_repeat "0" 64));
    ("block_hash", VStr "GENESIS_MOONSHOT_NOV2025") ]%string.

Definition init_ledger : io unit :=
  present <- path_exists VDC.LEDGER ;;
  if (present : bool) then Ret tt
  else
    mkdir_exist_ok VDC.PROOFS ;;;
    atomic_write VDC.LEDGER [genesis_block].

Definition load_chain : io (list dict) :=
  present <- path_exists VDC.LEDGER ;;
  (if (present : bool) then Ret tt else init_ledger) ;;;
  text <- read_text VDC.LEDGER ;;
  match text with
  | Document chain => Ret chain
  | Truncated _ _ => sys_exit 1   (* JSONDecodeError: "FATAL: Ledger corrupted." *)
  end.

(** [chain[-1]] *)
Definition last_item (chain : list dict) : result dict :=
  match rev chain with
  | b :: _ => Ok b
  | [] => Raise IndexError
  end.

Definition get_current_supply : io value :=
  chain <- load_chain ;;
  b <- lift (last_item chain) ;;
  Ret (dict_get_default b "supply" (VFloat 0)).

(** [balance += v] and [balance -= v] on the float [balance]. *)
Definition float_iadd (balance : float) (v : value) : result float :=
  match v with
  | VInt n => rbind (float_of_int n) (fun y => Ok (balance + y)%float)
  | VFloat y => Ok (balance + y)%float
  | _ => Raise TypeError
  end.

Definition float_isub (balance : float) (v : value) : result float :=
  match v with
  | VInt n => rbind (float_of_int n) (fun y => Ok (balance - y)%float)
  | VFloat y => Ok (balance - y)%float
  | _ => Raise TypeError
  end.

(** The body of the inner loop of [get_balance]. *)
Definition balance_tx (wallet : string) (balance : float) (tx : value)
  : result float :=
  rbind (as_dict tx) (fun tx =>
  if eq_str (dict_get tx "wallet") wallet then
    if eq_str (dict_get tx "type") "MINT" then
      float_iadd balance (dict_get_default tx "amount" (VInt 0))
    else if eq_str (dict_get tx "type") "BURN" then
      float_isub balance (dict_get_default tx "amount" (VInt 0))
    else Ok balance
  else Ok balance).

Fixpoint balance_txs (wallet : string) (balance : float) (txs : list value)
  : result float :=
  match txs with
  | [] => Ok balance
  | tx :: txs' =>
      rbind (balance_tx wallet balance tx) (fun b => balance_txs wallet b txs')
  end.

(** The body of the outer loop of [get_balance]. *)
Definition balance_block (wallet : string) (balance : float) (block : dict)
  : result float :=
  rbind (py_iter (dict_get_default block "txs" (VList [])))
        (balance_txs wallet balance).

Fixpoint balance_chain (wallet : string) (balance : float) (chain : list dict)
  : result float :=
  match chain with
  | [] => Ok balance
  | block :: chain' =>
      rbind (balance_block wallet balance block)
            (fun b => balance_chain wallet b chain')
  end.

Definition get_balance (wallet : string) : io float :=
  chain <- load_chain ;;
  balance <- lift (balance_chain wallet 0 chain) ;;
  Ret (float_round balance 8).

Definition _hash_block_data (data : dict) : string :=
  let data_string := json_dumps_sorted (VDict data) in
  SHA256.hexdigest (utf8_encode data_string).

(** [sum(t.get('amount', 0) for t in transactions if t.get("type") == kind)] *)
Definition sum_amounts (kind : string) (transactions : list dict) : result value :=
  py_sum (map (fun t => dict_get_default t "amount" (VInt 0))
              (filter (fun t => eq_str (dict_get t "type") kind) transactions)).

Definition commit (transactions : list dict) : io dict :=
  chain <- load_chain ;;
  prev_block <- lift (last_item chain) ;;
  minted_amount <- lift (sum_amounts "MINT" transactions) ;;
  burned_amount <- lift (sum_amounts "BURN" transactions) ;;
  supply <- lift (dict_item prev_block "supply") ;;
  with_minted <- lift (py_add supply minted_amount) ;;
  new_supply <- lift (py_sub with_minted burned_amount) ;;
  prev_hash <- lift (dict_item prev_block "block_hash") ;;
  index <- lift (dict_item prev_block "index") ;;
  index' <- lift (py_add index (VInt 1)) ;;
  now <- int_time_time ;;
  supply' <- lift (py_round new_supply 8) ;;
  let new_block_data : dict :=
    [ ("index", index');
      ("timestamp", VInt now);
      ("txs", VList (map VDict transactions));
      ("supply", supply');
      ("prev_hash", prev_hash) ]%string in
  let block_clone_for_hash := new_block_data in
  let new_block_data :=
    dict_set new_block_data "block_hash"
             (VStr (_hash_block_data block_clone_for_hash)) in
  atomic_write VDC.LEDGER (chain ++ [new_block_data]) ;;;
  Ret new_block_data.

(** ** Transaction creation *)

Definition create_mint_tx (wallet : string) (amount joules : float)
    (ots_txid proof_name : string) : io dict :=
  joules' <- lift (float_round_int joules) ;;
  now <- int_time_time ;;
  Ret [ ("type", VStr "MINT");
        ("wallet", VStr wallet);
        ("amount", VFloat (float_round amount 8));
        ("asset", VStr "VDC");
        ("joules", VInt joules');
        ("timestamp", VInt now);
        ("validation_proof",
          VDict [ ("protocol", VStr "PoM");
                  ("ots_txid", VStr ots_txid);
                  ("proof_folder", VStr proof_name) ]) ]%string.

Definition create_burn_tx (wallet : string) (amount : float) : io dict :=
  now <- int_time_time ;;
  let shipping_txid := ("SHIP-" ++ substring 0 8 wallet ++ "-" ++ string_of_Z now)%string in
  let gold_g := (amount * VDC.GOLD_G_PER_VDC)%float in
  let silk_g := (amount * VDC.SILK_G_PER_VDC)%float in
  let tencel_g := (amount * VDC.TENCEL_G_PER_VDC)%float in
  now' <- int_time_time ;;
  Ret [ ("type", VStr "BURN");
        ("wallet", VStr wallet);
        ("amount", VFloat (float_round amount 8));
        ("asset", VStr "VDC");
        ("commodity_redeemed", VStr "BOUNDED_BASKET");
        ("redemption_basket",
          VDict [ ("gold_grams", VFloat (float_round gold_g 8));
                  ("silk_grams", VFloat (float_round silk_g 8));
                  ("tencel_grams", VFloat (float_round tencel_g 8)) ]);
        ("shipping_txid", VStr shipping_txid);
        ("timestamp", VInt now') ]%string.

(** ** Physics and validation engine *)

(** Mode 2, the kinematic cross-check. *)
Definition kinematic_model (distance_m elevation_m user_mass_kg gravity : float)
  : float :=
  let potential_joules := (user_mass_kg * gravity * elevation_m)%float in
  let friction_force := (user_mass_kg * gravity * VDC.ROLLING_COEFF)%float in
  let friction_joules := (friction_force * distance_m)%float in
  (potential_joules + friction_joules)%float.

(** Check 1: ["ALERT: HK Joules below minimum threshold (100 kJ)."] *)
Definition minimum_work_alert (total_joules : float) : bool :=
  (total_joules <? 100000)%float.

(** Check 2: ["ALERT: Multi-modal physics violation. HK/Kinematic ratio too
    high."]  The divisor is [kinematic_joules or 1]. *)
Definition divergence_alert (total_joules kinematic_joules : float) : bool :=
  let kinematic_ratio :=
    (total_joules / (if float_bool kinematic_joules then kinematic_joules else 1))%float in
  (1000 <? kinematic_ratio)%float && (kinematic_joules <? 10000)%float.

Definition compute_joules
    (distance_m elevation_m user_mass_kg gravity active_kcal : float)
  : float * bool :=
  let total_joules := (active_kcal * VDC.JOULES_PER_KCAL)%float in
  let kinematic_joules :=
    kinematic_model distance_m elevation_m user_mass_kg gravity in
  let is_valid := true in
  let is_valid := if minimum_work_alert total_joules then false else is_valid in
  let is_valid :=
    if divergence_alert total_joules kinematic_joules then false else is_valid in
  (total_joules, is_valid).

(** ** Command handlers *)

(** What [handle_redeem] prints. *)
Inductive redeem_report : Type :=
| BurnRejected (required balance : float)   (* "BURN REJECTED: Insufficient balance." *)
| BurnCommitFailure (e : exn)               (* "CRITICAL FAILURE during burn commit" *)
| Redeemed (burn_tx blk : dict) (basket ship_id : value) (new_balance : float).

Definition handle_redeem (wallet : string) (amount : float) : io redeem_report :=
  balance <- get_balance wallet ;;
  if (balance <? amount)%float then Ret (BurnRejected amount balance)
  else
    committed <-
      try_except
        (burn_tx <- create_burn_tx wallet amount ;;
         blk <- commit [burn_tx] ;;
         Ret (inl (burn_tx, blk)))
        (fun e => Ret (inr e)) ;;
    match committed with
    | inr e => Ret (BurnCommitFailure e)
    | inl (burn_tx, blk) =>
        basket <- lift (dict_item burn_tx "redemption_basket") ;;
        ship_id <- lift (dict_item burn_tx "shipping_txid") ;;
        new_balance <- get_balance wallet ;;
        Ret (Redeemed burn_tx blk basket ship_id new_balance)
    end.

(** What [handle_balance] prints: the balance and the total supply. *)
Definition handle_balance (wallet : string) : io (float * value) :=
  balance <- get_balance wallet ;;
  supply <- get_current_supply ;;
  Ret (balance, supply).

(** What [handle_mint] prints. *)
Inductive mint_report : Type :=
| MintRejected                         (* "MINT REJECTED." *)
| MintCommitFailure (e : exn)          (* "CRITICAL FAILURE during commit" *)
| Minted (mint_tx blk : dict) (vdc_amount new_balance : float) (supply : value).

(** [handle_mint] once its proof stage has succeeded.  [generate_proof_bundle]
    and [stamp_proof] write files below [vdc_proofs] only and [ots_verify] is
    constantly true; the two results the rest of the handler uses, the OTS
    transaction id and the name of the proof folder, are parameters here. *)
Definition handle_mint (wallet : string)
    (kcal distance elevation mass gravity : float)
    (ots_txid proof_name : string) : io mint_report :=
  let (joules, is_valid) := compute_joules distance elevation mass gravity kcal in
  let vdc_amount := (joules * VDC.ALPHA_JOULES_TO_VDC)%float in
  if negb is_valid then Ret MintRejected
  else
    committed <-
      try_except
        (mint_tx <- create_mint_tx wallet vdc_amount joules ots_txid proof_name ;;
         blk <- commit [mint_tx] ;;
         Ret (inl (mint_tx, blk)))
        (fun e => Ret (inr e)) ;;
    match committed with
    | inr e => Ret (MintCommitFailure e)
    | inl (mint_tx, blk) =>
        new_balance <- get_balance wallet ;;
        supply <- get_current_supply ;;
        Ret (Minted mint_tx blk vdc_amount new_balance supply)
    end.

(** * The lifetime extractor ([vdc_extract.py])

    The script has no functions; the part modelled here is the loop over the
    track points of one GPX file and the report it appends.  What the XML
    parser and [float] and [fromisoformat] give for a point is the input. *)

Module Extract.

(** A [datetime]: whether it carries a UTC offset, and its microseconds on
    the UTC time line (on the wall clock when it carries none). *)
Record stamp : Set := Stamp { aware : bool; micros : Z }.

(** A [trkpt] element as the loop reads it. *)
Record trkpt : Type := Trkpt {
  lat : result float;            (* [float(pt.attrib["lat"])] *)
  lon : result float;            (* [float(pt.attrib["lon"])] *)
  time : option (result stamp)   (* [fromisoformat] of the [time] element's
                                    text; [None] without element or text *)
}.

(** [math.sqrt]: [ValueError] below zero. *)
Definition math_sqrt (x : float) : result float :=
  if (x <? 0)%float then Raise ValueError else Ok (PrimFloat.sqrt x).

(** [a - b] on datetimes, in microseconds: [TypeError] between one with an
    offset and one without. *)
Definition stamp_sub (a b : stamp) : result Z :=
  if Bool.eqb (aware a) (aware b) then Ok (micros a - micros b)
  else Raise TypeError.

(** [timedelta.total_seconds()]: the microseconds over [10**6], correctly
    rounded. *)
Definition total_seconds (us : Z) : float :=
  match us with
  | Z0 => 0%float
  | Zpos p => nearest_float false p 1000000
  | Zneg p => nearest_float true p 1000000
  end.

(** [max(a, b)]: [b] when [b > a], else [a]. *)
Definition max (a b : float) : float := if (a <? b)%float then b else a.

(** The variables of the loop. *)
Record track : Type := Track {
  prev : option (float * float * stamp);
  dist_total : float;
  max_spd : float;
  anomalies : Z
}.

Definition start : track := Track None 0 0 0.

(** The body of [if prev:]. *)
Definition leg (st : track) (lat lon : float) (ts : stamp) : result track :=
  match prev st with
  | None => Ok st
  | Some (prev_lat, prev_lon, prev_ts) =>
      let d_lat := (lat - prev_lat)%float in
      let d_lon := (lon - prev_lon)%float in
      rbind (math_sqrt (d_lat * d_lat + d_lon * d_lon)) (fun root =>
      let dist := (root * 111194.9)%float in
      rbind (stamp_sub ts prev_ts) (fun us =>
      let dt := total_seconds us in
      let st :=
        if (0 <? dt)%float then
          let speed := (dist / dt)%float in
          Track (prev st) (dist_total st) (max (max_spd st) speed)
                (if (11.5 <? speed)%float then anomalies st + 1
                 else anomalies st)
        else st in
      Ok (Track (prev st) (dist_total st + dist) (max_spd st) (anomalies st))))
  end.

(** The body of [for pt in trkpts:]. *)
Definition visit (st : track) (pt : trkpt) : result track :=
  rbind (lat pt) (fun lat =>
  rbind (lon pt) (fun lon =>
  match time pt with
  | None => Ok st                                   (* [continue] *)
  | Some parsed =>
      rbind parsed (fun ts =>
      rbind (leg st lat lon ts) (fun st =>
      Ok (Track (Some (lat, lon, ts)) (dist_total st) (max_spd st)
                (anomalies st))))
  end)).

Fixpoint visit_all (st : track) (trkpts : list trkpt) : result track :=
  match trkpts with
  | [] => Ok st
  | pt :: rest => rbind (visit st pt) (fun st' => visit_all st' rest)
  end.

(** What one file adds to [gpx_reports]: nothing when it has no track point
    or when anything raised. *)
Definition gpx_report (name : string) (trkpts : list trkpt) : option dict :=
  match trkpts with
  | [] => None
  | _ =>
      match visit_all start trkpts with
      | Ok st =>
          Some [ ("file", VStr name);
                 ("distance_m", VFloat (float_round (dist_total st) 2));
                 ("max_speed_mps", VFloat (float_round (max_spd st) 3));
                 ("anomalies", VInt (anomalies st)) ]
      | Raise _ => None
      end
  end.

End Extract.

(** * Part IV: vocabulary of the properties *)

(** The world [atomic_write VDC.LEDGER chain] leaves. *)
Definition persisted (w : world) (chain : list dict) : world :=
  snd (run (atomic_write VDC.LEDGER chain) w).

(** The world after the commits of [batches], one after the other (a commit
    that raises appends nothing). *)
Fixpoint run_commits (batches : list (list dict)) (w : world) : world :=
  match batches with
  | [] => w
  | transactions :: rest => run_commits rest (snd (run (commit transactions) w))
  end.

(** The fields of a block before its hash is inserted, as [commit] lays them
    out. *)
Definition block_data (index : Z) (now : Z) (transactions : list dict)
    (supply : float) (prev_hash : string) : dict :=
  [ ("index", VInt index);
    ("timestamp", VInt now);
    ("txs", VList (map VDict transactions));
    ("supply", VFloat supply);
    ("prev_hash", VStr prev_hash) ].

(** [b] is a block that [commit] builds on top of [prev]. *)
Definition successor (prev b : dict) : Prop :=
  exists (i : Z) (s : float) (h : string) (transactions : list dict) (now : Z)
         (minted burned : value) (s' : float),
    dict_get prev "index" = Some (VInt i) /\
    dict_get prev "supply" = Some (VFloat s) /\
    dict_get prev "block_hash" = Some (VStr h) /\
    sum_amounts "MINT" transactions = Ok minted /\
    sum_amounts "BURN" transactions = Ok burned /\
    rbind (py_add (VFloat s) minted) (fun x => py_sub x burned) = Ok (VFloat s') /\
    let data := block_data (i + 1) now transactions (float_round s' 8) h in
    b = (data ++ [("block_hash", VStr (_hash_block_data data))])%list.

(** The unrounded supply [commit] computes from the previous supply [s]:
    [prev_block["supply"] + minted_amount - burned_amount]. *)
Definition next_supply (s : float) (transactions : list dict) : result float :=
  rbind (sum_amounts "MINT" transactions) (fun minted =>
  rbind (sum_amounts "BURN" transactions) (fun burned =>
  rbind (py_add (VFloat s) minted) (fun with_minted =>
  rbind (py_sub with_minted burned) (fun new_supply =>
  match new_supply with
  | VFloat s' => Ok s'
  | _ => Raise TypeError
  end)))).

(** The chains that grow from the genesis block by commits. *)
Inductive valid_chain : list dict -> Prop :=
| valid_genesis : valid_chain [genesis_block]
| valid_commit chain prev b :
    valid_chain chain ->
    last_item chain = Ok prev ->
    successor prev b ->
    valid_chain (chain ++ [b])%list.

(** The ledger file holds a complete chain grown from the genesis block. *)
Definition ledger_ok (w : world) : Prop :=
  exists chain, files w VDC.LEDGER = Some (Document chain) /\ valid_chain chain.

(** The transactions a block holds. *)
Definition block_txs (b : dict) : list dict :=
  match dict_get b "txs" with
  | Some (VList l) =>
      flat_map (fun v => match v with VDict d => [d] | _ => [] end) l
  | _ => []
  end.

(** ** Sample inputs *)

(** An empty working directory; the clock advances by one second a reading,
    up to the eighth. *)
Definition empty_world : world :=
  World (fun _ => None) []
        (fun n => nth n [1700000000; 1700000001; 1700000002; 1700000003;
                         1700000004; 1700000005; 1700000006] 1700000007)
        0.

Definition sample_mint (wallet : string) (amount : float) : dict :=
  [ ("type", VStr "MINT"); ("wallet", VStr wallet); ("amount", VFloat amount) ].

Definition sample_burn (wallet : string) (amount : float) : dict :=
  [ ("type", VStr "BURN"); ("wallet", VStr wallet); ("amount", VFloat amount) ].

(** ** Exact values

    The dyadic rational [m * 2^e] a finite float or an [int] stands for. *)

Definition dyadic : Set := (Z * Z)%type.

Definition dyadic_of_float (x : float) : option dyadic :=
  match Prim2SF x with
  | S754_zero _ => Some (0, 0)
  | S754_finite s m e => Some (if s then Zneg m else Zpos m, e)
  | _ => None
  end.

Definition dyadic_of_value (v : value) : option dyadic :=
  match v with
  | VInt n => Some (n, 0)
  | VFloat x => dyadic_of_float x
  | _ => None
  end.

Definition dyadic_add (a b : dyadic) : dyadic :=
  let e := Z.min (snd a) (snd b) in
  (fst a * 2 ^ (snd a - e) + fst b * 2 ^ (snd b - e), e).

Definition dyadic_opp (a : dyadic) : dyadic := (- fst a, snd a).

Definition dyadic_eqb (a b : dyadic) : bool :=
  let e := Z.min (snd a) (snd b) in
  Z.eqb (fst a * 2 ^ (snd a - e)) (fst b * 2 ^ (snd b - e)).

(** Is [a] a whole multiple of [10^-8]? *)
Definition dyadic_is_8dp (a : dyadic) : bool :=
  if Z.leb 0 (snd a) then true
  else Z.eqb ((fst a * 10 ^ 8) mod 2 ^ (- snd a)) 0.

(** The specification's conservation formula, in exact arithmetic: the sum of
    all MINT amounts minus the sum of all BURN amounts over the transactions
    [txs]. *)
Fixpoint spec_net_amount (txs : list dict) : option dyadic :=
  match txs with
  | [] => Some (0, 0)
  | t :: txs' =>
      match dyadic_of_value (dict_get_default t "amount" (VInt 0)),
            spec_net_amount txs' with
      | Some a, Some rest =>
          if eq_str (dict_get t "type") "MINT" then Some (dyadic_add a rest)
          else if eq_str (dict_get t "type") "BURN"
               then Some (dyadic_add (dyadic_opp a) rest)
               else Some rest
      | _, _ => None
      end
  end.

Definition spec_supply (chain : list dict) : option dyadic :=
  spec_net_amount (flat_map block_txs chain).

(** ** Serialized items in key order *)

Definition key_le (a b : string * string) : Prop :=
  String.leb (fst a) (fst b) = true.

Definition dumps_item (kv : string * value) : string * string :=
  (fst kv, json_dumps_sorted (snd kv)).

(** ** Canonical serialization *)

(** The text of a key that needs no escape, with its quotes. *)
Definition quoted (s : string) : string :=
  (String dquote s ++ String dquote EmptyString)%string.

(** [v'] is [v] with the items of dicts, down to [depth] levels of nesting,
    in another order. *)
Fixpoint same_up_to_key_order (depth : nat) (v v' : value) : Prop :=
  match depth with
  | O => v = v'
  | S d =>
      match v, v' with
      | VList l, VList l' => Forall2 (same_up_to_key_order d) l l'
      | VDict items, VDict items'' =>
          NoDup (keys items) /\
          exists items',
            Forall2 (fun kv kv' =>
                       fst kv = fst kv' /\
                       same_up_to_key_order d (snd kv) (snd kv'))
                    items items' /\
            Permutation items' items''
      | _, _ => v = v'
      end
  end.

(** A block with values of every kind: a float half way between two
    16-digit decimals, floats printed with an exponent, NaN, infinity and
    minus zero, a negative int, nested dicts with their keys out of order,
    empty containers, and a string with a quote, a backslash, control
    characters and a letter outside ASCII. *)
Definition probe_wallet : string :=
  ("a" ++ String dquote "b" ++ String backslash "c"
       ++ String (ascii_of_nat 10) "d" ++ String (ascii_of_nat 9) "e"
       ++ String (ascii_of_nat 1) "f" ++ String (ascii_of_nat 127) "g"
       ++ String (ascii_of_nat 233) "h")%string.

Definition probe_block : dict :=
  [ ("index", VInt 7);
    ("timestamp", VInt 1700000000);
    ("txs", VList [
       VDict [ ("type", VStr "MINT"); ("wallet", VStr probe_wallet);
               ("amount", VFloat 67108864.005859375);
               ("joules", VInt (-105263));
               ("validation_proof",
                 VDict [ ("protocol", VStr "PoM");
                         ("ots_txid", VStr "BTC-OTS-0");
                         ("proof_folder", VStr "a_b") ]) ];
       VDict [ ("type", VStr "BURN"); ("amount", VFloat 1e-07);
               ("redemption_basket",
                 VDict [ ("silk_grams", VFloat 1e22);
                         ("gold_grams", VFloat 0.30000000000000004) ]);
               ("note", VList [ VInt 0; VFloat nan; VFloat infinity;
                                VFloat (-0.0); VStr ""; VList [];
                                VDict [] ]) ] ]);
    ("supply", VFloat 2.38488);
    ("prev_hash", VStr "GENESIS_MOONSHOT_NOV2025") ].

(** ** The divergence gate as the specification words it *)

(** [max(a, b)]: [b] when [b > a], else [a]. *)
Definition py_max (a b : float) : float := if (a <? b)%float then b else a.

(** Reject when [workJoules / max(kinematicJoules, 1)] exceeds 1000 and
    [kinematicJoules < 10_000]. *)
Definition spec_divergence_reject (workJoules kinematicJoules : float) : bool :=
  (1000 <? workJoules / py_max kinematicJoules 1)%float
  && (kinematicJoules <? 10000)%float.

(** The ledger after one commit of a MINT of 2.38488 to [alice]. *)
Definition funded_world : world :=
  run_commits [[sample_mint "alice" 2.38488]] (snd (run init_ledger empty_world)).

(** ** A crash just before the rename

    The world a process leaves when it is stopped at its first
    [replace]: the temporary file is written, the rename has not happened. *)
Fixpoint run_until_replace {A} (m : io A) (w : world) : world :=
  match m with
  | Ret _ | Throw _ | Exit _ => w
  | PathExists p k =>
      run_until_replace
        (k (match files w p with Some _ => true | None => false end)) w
  | Mkdir p k => run_until_replace k (do_mkdir p w)
  | WriteText p chain k =>
      run_until_replace k (set_file w p (Some (Document chain)))
  | ReadText p k => run_until_replace (k (do_read p w)) w
  | Replace _ _ _ => w
  | TimeTime k => run_until_replace (k (clock w (ticks w))) (do_tick w)
  end.

(** The whole number of units of [10^-8] nearest to the exact value [a]: the
    eight-decimal reading of [a]. *)
Definition units8 (a : dyadic) : Z :=
  if Z.leb 0 (snd a) then fst a * 2 ^ snd a * 10 ^ 8
  else if Z.leb 0 (fst a) then div_half_even (fst a * 10 ^ 8) (2 ^ (- snd a))
  else - div_half_even (- fst a * 10 ^ 8) (2 ^ (- snd a)).

(** ** Vocabulary of the further properties *)

(** Is the transaction addressed to [wallet] ([tx.get('wallet') == wallet])? *)
Definition addressed_to (wallet : string) (t : dict) : bool :=
  eq_str (dict_get t "wallet") wallet.

(** The transaction carries a float amount, or none. *)
Definition amount_is_float (t : dict) : bool :=
  match dict_get t "amount" with
  | Some (VFloat _) | None => true
  | Some _ => false
  end.

(** The values [sum] meets on such transactions: a float, or the [int] [0]. *)
Definition float_or_zero (v : value) : bool :=
  match v with
  | VFloat _ | VInt 0 => true
  | _ => false
  end.

(** The timestamps of the blocks are integers that never decrease, start at
    [lo] or later and end at [hi] or earlier. *)
Fixpoint stamps_from (lo : Z) (chain : list dict) (hi : Z) : Prop :=
  match chain with
  | [] => lo <= hi
  | b :: rest =>
      exists t, dict_get b "timestamp" = Some (VInt t) /\ lo <= t /\
                stamps_from t rest hi
  end.

(** The transaction is one [commit] adds to the supply or takes from it:
    its type is ["MINT"] or ["BURN"], spelled so. *)
Definition moves_supply (t : dict) : bool :=
  eq_str (dict_get t "type") "MINT" || eq_str (dict_get t "type") "BURN".

(** The transaction is one [get_balance] counts for the wallet. *)
Definition counts_for (wallet : string) (t : dict) : bool :=
  addressed_to wallet t && moves_supply t.

(** ** Vocabulary of the extractor's properties *)

(** The point has a [time] element with a text. *)
Definition timed (pt : Extract.trkpt) : bool :=
  match Extract.time pt with Some _ => true | None => false end.

(** Both coordinates of the point were read as floats. *)
Definition located (pt : Extract.trkpt) : bool :=
  match Extract.lat pt, Extract.lon pt with
  | Ok _, Ok _ => true
  | _, _ => false
  end.

(** ** Values [json.dumps] accepts

    CPython (3.11 and later, by default) refuses to print an [int] of more
    than 4300 digits: [json.dumps] then raises [ValueError], as it raises
    [RecursionError] on a value nested deeper than the interpreter allows.
    [json_ok depth v]: no [int] in [v] has more than 4300 digits and [v]
    nests lists and dicts at most [depth] levels deep. *)
Fixpoint json_ok (depth : nat) (v : value) : bool :=
  match v with
  | VInt n => Z.ltb (Z.abs n) (10 ^ 4300)
  | VFloat _ | VStr _ => true
  | VList l =>
      match depth with
      | O => false
      | S d => forallb (json_ok d) l
      end
  | VDict items =>
      match depth with
      | O => false
      | S d => forallb (fun kv => json_ok d (snd kv)) items
      end
  end.

(** The transactions are dicts [json.dumps] accepts, nested at most eight
    levels deep (the handlers' own transactions nest two). *)
Definition json_ok_txs (transactions : list dict) : bool :=
  forallb (fun t => json_ok 8 (VDict t)) transactions.

(** * Part V: properties *)

Local Open Scope list_scope.

(** ** The runtime fragment on known values

    [hashlib], [json] and [float] answers of CPython, reproduced. *)

Example sha256_empty :
  SHA256.hexdigest [] =
  "e3b0c44298fc1c149afbf4c8996fb92427ae41e4649b934ca495991b7852b855".
Proof. vm_compute. reflexivity. Qed.

Example sha256_abc :
  SHA256.hexdigest (utf8_encode "abc") =
  "ba7816bf8f01cfea414140de5dae2223b00361a396177a9cb410ff61f20015ad".
Proof. vm_compute. reflexivity. Qed.

Example sha256_two_blocks :
  SHA256.hexdigest
    (utf8_encode "abcdbcdecdefdefgefghfghighijhijkijkljklmklmnlmnomnopnopq") =
  "248d6a61d20638b8e5c026930c3e6039a33ce45964ff2167f6ecedd419db06c1".
Proof. vm_compute. reflexivity. Qed.

Example float_repr_examples :
  map float_repr [0.1; 0.30000000000000004; 2.38488; 1e-07; 1e16; 1e15;
                  123456789.0; 5e-324; 70000000.00000003; -0.024]%float
  = ["0.1"; "0.30000000000000004"; "2.38488"; "1e-07"; "1e+16";
     "1000000000000000.0"; "123456789.0"; "5e-324"; "70000000.00000003";
     "-0.024"].
Proof. vm_compute. reflexivity. Qed.

Example float_round_examples :
  map (fun x => float_round x 8)
      [0.30000000000000004; 2.3848800000000003; 1e-9; 0.000000015; 2.675;
       -1e-9]%float
  = [0.3; 2.38488; 0; 0.00000001; 2.675; -0]%float.
Proof. vm_compute. reflexivity. Qed.

Example json_dumps_sorted_example :
  json_dumps_sorted
    (VDict [ ("type", VStr "MINT"); ("amount", VFloat 0.1);
             ("joules", VInt 105263); ("note", VList [VInt (-2); VDict []]) ])
  = ("{" ++ String dquote "amount" ++ String dquote ": 0.1, "
         ++ String dquote "joules" ++ String dquote ": 105263, "
         ++ String dquote "note" ++ String dquote ": [-2, {}], "
         ++ String dquote "type" ++ String dquote ": "
         ++ String dquote "MINT" ++ String dquote "}")%string.
Proof. vm_compute. reflexivity. Qed.

(** ** Running programs *)

Lemma run_bind {A B} (m : io A) (f : A -> io B) (w : world) :
  run (bind m f) w =
  match run m w with
  | (Returns a, w') => run (f a) w'
  | (Raises e, w') => (Raises e, w')
  | (Exits c, w') => (Exits c, w')
  end.
Proof.
  revert w.
  induction m as [a|e|c|p k IH|p k IH|p chain k IH|p k IH|src dst k IH|k IH];
    intro w; simpl; auto.
Qed.

Lemma run_lift {A} (r : result A) (w : world) :
  run (lift r) w =
  (match r with Ok a => Returns a | Raise e => Raises e end, w).
Proof. destruct r; reflexivity. Qed.

Lemma run_try_except {A} (body : io A) (handler : exn -> io A) (w : world) :
  run (try_except body handler) w =
  match run body w with
  | (Raises e, w') => run (handler e) w'
  | r => r
  end.
Proof.
  revert w.
  induction body as [a|e|c|p k IH|p k IH|p chain k IH|p k IH|src dst k IH|k IH];
    intro w; simpl; auto.
Qed.

(** A crash inside [m ;; f] happens inside [m], or inside [f] after [m]
    returned. *)
Lemma moment_bind {A B} (m : io A) (f : A -> io B) (w w' : world) :
  moment (bind m f) w w' ->
  moment m w w' \/
  exists a w1, run m w = (Returns a, w1) /\ moment (f a) w1 w'.
Proof.
  revert w.
  induction m as [a|e|c|p k IH|p k IH|p chain k IH|p k IH|src dst k IH|k IH];
    intros w H; simpl in H;
    try (right; exists a, w; split; [reflexivity | exact H]);
    inversion H; subst; try (left; constructor; fail);
    match goal with
    | Hm : moment (bind _ _) _ _ |- _ =>
        first [ apply IH in Hm | apply IHm in Hm ];
        destruct Hm as [Hm | (a & w1 & Hr & Hm)];
        [ left; constructor; exact Hm
        | right; exists a, w1; split; [exact Hr | exact Hm] ]
    end.
Qed.

(** ** The ledger file *)

Arguments _hash_block_data : simpl never.
Arguments float_round : simpl never.
Arguments float_of_int : simpl never.
Arguments sum_amounts : simpl never.
Arguments py_add : simpl never.
Arguments py_sub : simpl never.
Arguments py_round : simpl never.

Lemma tmp_path : with_suffix VDC.LEDGER ".tmp" = "vdc_chain.tmp".
Proof. reflexivity. Qed.

Lemma run_atomic_write (chain : list dict) (w : world) :
  run (atomic_write VDC.LEDGER chain) w = (Returns tt, persisted w chain).
Proof.
  unfold persisted, atomic_write. rewrite tmp_path. simpl.
  unfold do_replace. simpl. reflexivity.
Qed.

Lemma persisted_ledger (chain : list dict) (w : world) :
  files (persisted w chain) VDC.LEDGER = Some (Document chain).
Proof.
  unfold persisted, atomic_write. rewrite tmp_path. simpl.
  unfold do_replace. simpl. reflexivity.
Qed.

Lemma load_chain_present (w : world) (chain : list dict) :
  files w VDC.LEDGER = Some (Document chain) ->
  run load_chain w = (Returns chain, w).
Proof.
  intro H. unfold load_chain. simpl. rewrite H. simpl.
  unfold do_read. rewrite H. reflexivity.
Qed.

Lemma load_chain_absent (w : world) :
  files w VDC.LEDGER = None ->
  run load_chain w =
  (Returns [genesis_block], persisted (do_mkdir VDC.PROOFS w) [genesis_block]).
Proof.
  intro H. unfold load_chain. simpl. rewrite H. simpl.
  unfold persisted, atomic_write, init_ledger. rewrite tmp_path. simpl.
  rewrite H. simpl. unfold do_replace, do_read. simpl. reflexivity.
Qed.

(** ** [commit], step by step *)

Ltac run_step H :=
  rewrite run_bind in H;
  match type of H with
  | context [run (lift ?r) ?w] =>
      rewrite (run_lift r w) in H;
      let x := fresh "x" in
      let E := fresh "E" in
      destruct r as [x|] eqn:E; try discriminate H
  end.

Lemma commit_inv (transactions : list dict) (w w' : world) (blk : dict) :
  run (commit transactions) w = (Returns blk, w') ->
  exists chain w1 prev minted burned supply with_minted new_supply
         prev_hash index index' supply',
    run load_chain w = (Returns chain, w1) /\
    last_item chain = Ok prev /\
    sum_amounts "MINT" transactions = Ok minted /\
    sum_amounts "BURN" transactions = Ok burned /\
    dict_item prev "supply" = Ok supply /\
    py_add supply minted = Ok with_minted /\
    py_sub with_minted burned = Ok new_supply /\
    dict_item prev "block_hash" = Ok prev_hash /\
    dict_item prev "index" = Ok index /\
    py_add index (VInt 1) = Ok index' /\
    py_round new_supply 8 = Ok supply' /\
    let data := [ ("index", index');
                  ("timestamp", VInt (clock w1 (ticks w1)));
                  ("txs", VList (map VDict transactions));
                  ("supply", supply');
                  ("prev_hash", prev_hash) ] in
    blk = (data ++ [("block_hash", VStr (_hash_block_data data))])%list /\
    w' = persisted (do_tick w1) (chain ++ [blk]).
Proof.
  unfold commit. intro H.
  rewrite run_bind in H.
  destruct (run load_chain w) as [[chain| |] w1] eqn:Hload; try discriminate H.
  do 9 run_step H.
  rewrite run_bind in H.
  change (run int_time_time w1)
    with (Returns (clock w1 (ticks w1)), do_tick w1) in H.
  cbv iota beta in H.
  run_step H.
  rewrite run_bind, run_atomic_write in H. simpl in H.
  inversion H; subst; clear H.
  exists chain, w1, x, x0, x1, x2, x3, x4, x5, x6, x7, x8.
  repeat (split; [reflexivity || assumption|]).
  split; reflexivity.
Qed.

Lemma last_item_snoc (chain : list dict) (b : dict) :
  last_item (chain ++ [b]) = Ok b.
Proof. unfold last_item. rewrite rev_unit. reflexivity. Qed.

Lemma dict_item_get (d : dict) (k : string) (v : value) :
  dict_item d k = Ok v <-> dict_get d k = Some v.
Proof.
  unfold dict_item. destruct (dict_get d k); split; intro H;
    inversion H; reflexivity.
Qed.

Lemma py_add_float (x : float) (v r : value) :
  py_add (VFloat x) v = Ok r -> exists y, r = VFloat y.
Proof.
  unfold py_add, py_arith. destruct v; try discriminate.
  - destruct (float_of_int n); simpl; try discriminate.
    intro H. inversion H. eauto.
  - intro H. inversion H. eauto.
Qed.

Lemma py_sub_float (x : float) (v r : value) :
  py_sub (VFloat x) v = Ok r -> exists y, r = VFloat y.
Proof.
  unfold py_sub, py_arith. destruct v; try discriminate.
  - destruct (float_of_int n); simpl; try discriminate.
    intro H. inversion H. eauto.
  - intro H. inversion H. eauto.
Qed.

(** The fields a successor block offers to the next commit. *)
Lemma successor_fields (prev b : dict) :
  successor prev b ->
  exists i s h h',
    dict_get prev "index" = Some (VInt i) /\
    dict_get prev "block_hash" = Some (VStr h) /\
    dict_get b "index" = Some (VInt (i + 1)) /\
    dict_get b "supply" = Some (VFloat s) /\
    dict_get b "prev_hash" = Some (VStr h) /\
    dict_get b "block_hash" = Some (VStr h').
Proof.
  intros (i & s & h & txs & now & minted & burned & s' & Hi & Hs & Hh & _ & _ & _ & Hb).
  simpl in Hb. subst b.
  exists i, (float_round s' 8), h.
  eexists. repeat split; try eassumption; reflexivity.
Qed.

Lemma valid_chain_last (chain : list dict) :
  valid_chain chain ->
  exists prev i s h,
    last_item chain = Ok prev /\
    dict_get prev "index" = Some (VInt i) /\
    dict_get prev "supply" = Some (VFloat s) /\
    dict_get prev "block_hash" = Some (VStr h).
Proof.
  intros [|chain' prev b Hv Hl Hs].
  - exists genesis_block, 0, 0%float. eexists. repeat split; reflexivity.
  - destruct (successor_fields _ _ Hs) as (i & s & h & h' & _ & _ & Hi & Hsup & _ & Hh).
    exists b, (i + 1), s, h'. rewrite last_item_snoc. repeat split; assumption.
Qed.

Lemma block_txs_data (i now : Z) (transactions : list dict) (s : float)
    (h hash : string) :
  block_txs (block_data i now transactions s h ++ [("block_hash", VStr hash)])
  = transactions.
Proof.
  unfold block_txs. simpl.
  induction transactions as [|t ts IH]; simpl; [reflexivity | now rewrite IH].
Qed.

(** What a commit does on a ledger whose last block has the fields every
    block of a valid chain has. *)
Lemma commit_run (transactions : list dict) (w : world) (chain : list dict)
    (prev : dict) (i : Z) (s : float) (h : string) :
  files w VDC.LEDGER = Some (Document chain) ->
  last_item chain = Ok prev ->
  dict_get prev "index" = Some (VInt i) ->
  dict_get prev "supply" = Some (VFloat s) ->
  dict_get prev "block_hash" = Some (VStr h) ->
  run (commit transactions) w =
  match next_supply s transactions with
  | Ok s' =>
      let data := block_data (i + 1) (clock w (ticks w)) transactions
                             (float_round s' 8) h in
      let blk := data ++ [("block_hash", VStr (_hash_block_data data))] in
      (Returns blk, persisted (do_tick w) (chain ++ [blk]))
  | Raise e => (Raises e, w)
  end.
Proof.
  intros Hf Hl Hi Hs Hh.
  unfold commit, next_supply.
  rewrite run_bind, (load_chain_present _ _ Hf).
  rewrite run_bind, run_lift, Hl.
  rewrite run_bind, run_lift.
  destruct (sum_amounts "MINT" transactions) as [minted|e]; [|reflexivity].
  rewrite run_bind, run_lift.
  destruct (sum_amounts "BURN" transactions) as [burned|e]; [|reflexivity].
  apply dict_item_get in Hi, Hs, Hh.
  rewrite run_bind, run_lift, Hs.
  rewrite run_bind, run_lift. simpl rbind.
  destruct (py_add (VFloat s) minted) as [with_minted|e] eqn:Ha; [|reflexivity].
  destruct (py_add_float _ _ _ Ha) as [s1 ->].
  rewrite run_bind, run_lift. simpl rbind.
  destruct (py_sub (VFloat s1) burned) as [new_supply|e] eqn:Hsub; [|reflexivity].
  destruct (py_sub_float _ _ _ Hsub) as [s' ->].
  rewrite run_bind, run_lift, Hh.
  rewrite run_bind, run_lift, Hi.
  rewrite run_bind, run_lift.
  change (py_add (VInt i) (VInt 1)) with (Ok (VInt (i + 1))).
  cbv iota beta.
  rewrite run_bind.
  change (run int_time_time w) with (Returns (clock w (ticks w)), do_tick w).
  cbv iota beta.
  rewrite run_bind, run_lift.
  change (py_round (VFloat s') 8) with (Ok (VFloat (float_round s' 8))).
  cbv iota beta.
  rewrite run_bind, run_atomic_write. reflexivity.
Qed.

Lemma next_supply_inv (s s' : float) (transactions : list dict) :
  next_supply s transactions = Ok s' ->
  exists minted burned,
    sum_amounts "MINT" transactions = Ok minted /\
    sum_amounts "BURN" transactions = Ok burned /\
    rbind (py_add (VFloat s) minted) (fun x => py_sub x burned) = Ok (VFloat s').
Proof.
  unfold next_supply.
  destruct (sum_amounts "MINT" transactions) as [minted|]; [|discriminate].
  destruct (sum_amounts "BURN" transactions) as [burned|]; [|discriminate].
  simpl.
  destruct (py_add (VFloat s) minted) as [x|] eqn:Ha; [|discriminate]. simpl.
  destruct (py_sub x burned) as [[| y | | |]|] eqn:Hs; try discriminate.
  intro H. inversion H; subst. exists minted, burned.
  split; [reflexivity|]. split; [reflexivity|]. rewrite Ha. exact Hs.
Qed.

(** A commit on a valid ledger appends a successor of the last block, or
    raises and leaves the world as it was. *)
Lemma commit_valid (transactions : list dict) (w : world) (chain : list dict) :
  files w VDC.LEDGER = Some (Document chain) ->
  valid_chain chain ->
  (exists prev blk,
     last_item chain = Ok prev /\ successor prev blk /\
     dict_get blk "timestamp" = Some (VInt (clock w (ticks w))) /\
     block_txs blk = transactions /\
     run (commit transactions) w =
       (Returns blk, persisted (do_tick w) (chain ++ [blk]))) \/
  (exists e, run (commit transactions) w = (Raises e, w)).
Proof.
  intros Hf Hv.
  destruct (valid_chain_last _ Hv) as (prev & i & s & h & Hl & Hi & Hs & Hh).
  rewrite (commit_run _ _ _ _ _ _ _ Hf Hl Hi Hs Hh).
  destruct (next_supply s transactions) as [s'|e] eqn:E; [left | right; eauto].
  destruct (next_supply_inv _ _ _ E) as (minted & burned & Hm & Hb & Hsum).
  cbv zeta.
  set (data := block_data (i + 1) (clock w (ticks w)) transactions
                          (float_round s' 8) h).
  exists prev, (data ++ [("block_hash", VStr (_hash_block_data data))]).
  split; [exact Hl|].
  split; [| split; [reflexivity | split; [apply block_txs_data | reflexivity]]].
  exists i, s, h, transactions, (clock w (ticks w)), minted, burned, s'.
  repeat (split; [assumption|]). reflexivity.
Qed.

Lemma commit_keeps_ledger_ok (transactions : list dict) (w : world) :
  ledger_ok w -> ledger_ok (snd (run (commit transactions) w)).
Proof.
  intros (chain & Hf & Hv).
  destruct (commit_valid transactions w chain Hf Hv)
    as [(prev & blk & Hl & Hs & _ & _ & Hr) | (e & Hr)]; rewrite Hr; simpl.
  - exists (chain ++ [blk])%list. split; [apply persisted_ledger|].
    econstructor; eassumption.
  - exists chain. split; assumption.
Qed.

Lemma run_commits_ledger_ok (batches : list (list dict)) (w : world) :
  ledger_ok w -> ledger_ok (run_commits batches w).
Proof.
  revert w.
  induction batches as [|transactions rest IH]; intros w H; simpl.
  - exact H.
  - apply IH, commit_keeps_ledger_ok, H.
Qed.

Lemma init_ledger_ok (w : world) :
  files w VDC.LEDGER = None ->
  ledger_ok (snd (run init_ledger w)).
Proof.
  intro H. exists [genesis_block]. split; [|constructor].
  unfold init_ledger. simpl. rewrite H. simpl.
  unfold do_replace. simpl. reflexivity.
Qed.

(** ** Chains grown from the genesis block *)

Lemma last_item_nth (chain : list dict) (prev : dict) :
  last_item chain = Ok prev ->
  exists front, chain = (front ++ [prev])%list.
Proof.
  unfold last_item. intro H.
  destruct (rev chain) as [|b l] eqn:E; [discriminate|].
  inversion H; subst b.
  exists (rev l). rewrite <- (rev_involutive chain), E. reflexivity.
Qed.

Lemma valid_chain_head (chain : list dict) :
  valid_chain chain -> nth_error chain 0 = Some genesis_block.
Proof.
  induction 1 as [|chain prev b Hv IH Hl Hs]; [reflexivity|].
  destruct chain; [discriminate IH | exact IH].
Qed.

Lemma valid_chain_adjacent (chain : list dict) :
  valid_chain chain ->
  forall i prev b,
    nth_error chain i = Some prev -> nth_error chain (S i) = Some b ->
    successor prev b.
Proof.
  induction 1 as [|chain prev0 b0 Hv IH Hl Hs]; intros i prev b Hp Hb.
  - destruct i; discriminate Hb.
  - destruct (last_item_nth _ _ Hl) as [front ->].
    assert (Hlen : (S i < List.length (front ++ [prev0]) + 1)%nat).
    { rewrite <- (length_app _ [b0]). apply nth_error_Some. congruence. }
    rewrite length_app in Hlen. simpl in Hlen.
    destruct (Nat.eq_dec i (List.length front)) as [-> | Hne].
    + rewrite nth_error_app1 in Hp by (rewrite length_app; simpl; lia).
      rewrite nth_error_app2, Nat.sub_diag in Hp by lia.
      rewrite nth_error_app2 in Hb by (rewrite length_app; simpl; lia).
      rewrite length_app in Hb. simpl List.length in Hb.
      replace (S (List.length front) - (List.length front + 1))%nat with 0%nat in Hb by lia.
      simpl in Hp, Hb. inversion Hp; inversion Hb; subst. exact Hs.
    + apply (IH i).
      * rewrite nth_error_app1 in Hp by (rewrite length_app; simpl; lia).
        exact Hp.
      * rewrite nth_error_app1 in Hb by (rewrite length_app; simpl; lia).
        exact Hb.
Qed.

Lemma run_get_current_supply (w : world) (chain : list dict) (b : dict) :
  files w VDC.LEDGER = Some (Document chain) ->
  last_item chain = Ok b ->
  run get_current_supply w =
  (Returns (dict_get_default b "supply" (VFloat 0)), w).
Proof.
  intros Hf Hl. unfold get_current_supply.
  rewrite run_bind, (load_chain_present _ _ Hf), run_bind, run_lift, Hl.
  reflexivity.
Qed.

(** ** Canonical serialization: keys in lexicographic order *)

Lemma string_leb_trans (a b c : string) :
  String.leb a b = true -> String.leb b c = true -> String.leb a c = true.
Proof.
  unfold String.leb. revert b c.
  induction a as [|x a IH]; intros [|y b] [|z c]; simpl; try congruence.
  unfold Ascii.compare.
  destruct (N.compare_spec (N_of_ascii x) (N_of_ascii y)) as [Exy|Lxy|Gxy];
    try congruence;
    destruct (N.compare_spec (N_of_ascii y) (N_of_ascii z)) as [Eyz|Lyz|Gyz];
    try congruence; intros Hab Hbc.
  - rewrite Exy, Eyz, N.compare_refl. exact (IH b c Hab Hbc).
  - rewrite Exy, (proj2 (N.compare_lt_iff _ _) Lyz). reflexivity.
  - rewrite <- Eyz, (proj2 (N.compare_lt_iff _ _) Lxy). reflexivity.
  - rewrite (proj2 (N.compare_lt_iff _ _) (N.lt_trans _ _ _ Lxy Lyz)).
    reflexivity.
Qed.

Lemma insert_item_perm (kv : string * string) (l : list (string * string)) :
  Permutation (insert_item kv l) (kv :: l).
Proof.
  induction l as [|kv' l IH]; simpl; [reflexivity|].
  destruct (String.leb (fst kv) (fst kv')); [reflexivity|].
  rewrite IH. apply perm_swap.
Qed.

Lemma sort_items_perm (l : list (string * string)) :
  Permutation (sort_items l) l.
Proof.
  induction l as [|kv l IH]; simpl; [reflexivity|].
  rewrite insert_item_perm. now constructor.
Qed.

Lemma insert_item_sorted (kv : string * string) (l : list (string * string)) :
  StronglySorted key_le l -> StronglySorted key_le (insert_item kv l).
Proof.
  induction 1 as [|kv' l Hs IH Hall]; simpl.
  - constructor; constructor.
  - destruct (String.leb (fst kv) (fst kv')) eqn:E.
    + constructor; [constructor; assumption|].
      constructor; [exact E|].
      eapply Forall_impl; [|exact Hall].
      intros c Hc. eapply string_leb_trans; eassumption.
    + constructor; [exact IH|].
      apply (Permutation_Forall (Permutation_sym (insert_item_perm kv l))).
      constructor; [|exact Hall].
      destruct (String.leb_total (fst kv) (fst kv')) as [H|H];
        [congruence | exact H].
Qed.

Lemma sort_items_sorted (l : list (string * string)) :
  StronglySorted key_le (sort_items l).
Proof.
  induction l as [|kv l IH]; simpl; [constructor | now apply insert_item_sorted].
Qed.

Lemma unique_key (l : list (string * string)) (a b : string * string) :
  NoDup (map fst l) -> In a l -> In b l -> fst a = fst b -> a = b.
Proof.
  induction l as [|c l IH]; simpl; intros Hnd Ha Hb E; [contradiction|].
  inversion Hnd as [|? ? Hnot Hnd']; subst.
  destruct Ha as [-> | Ha], Hb as [-> | Hb].
  - reflexivity.
  - exfalso. apply Hnot. rewrite E. now apply in_map.
  - exfalso. apply Hnot. rewrite <- E. now apply in_map.
  - now apply IH.
Qed.

(** Two key-sorted lists with the same items, all of different keys, are the
    same list. *)
Lemma sorted_unique (l1 l2 : list (string * string)) :
  StronglySorted key_le l1 -> StronglySorted key_le l2 ->
  Permutation l1 l2 -> NoDup (map fst l1) -> l1 = l2.
Proof.
  intro H1. revert l2.
  induction H1 as [|a t1 Hs1 IH Hall1]; intros l2 H2 Hp Hnd.
  - now apply Permutation_nil in Hp.
  - destruct H2 as [|b t2 Hs2 Hall2].
    + apply Permutation_sym, Permutation_nil in Hp. discriminate.
    + assert (Hab : a = b).
      { assert (Ha : In a (b :: t2))
          by (eapply Permutation_in; [exact Hp | now left]).
        assert (Hb : In b (a :: t1))
          by (eapply Permutation_in; [apply Permutation_sym, Hp | now left]).
        apply (unique_key (a :: t1)); [exact Hnd | now left | exact Hb |].
        apply String.leb_antisym.
        - destruct Hb as [<- | Hb];
            [destruct (String.leb_total (fst a) (fst a)); assumption|].
          exact (proj1 (Forall_forall _ _) Hall1 _ Hb).
        - destruct Ha as [<- | Ha];
            [destruct (String.leb_total (fst b) (fst b)); assumption|].
          exact (proj1 (Forall_forall _ _) Hall2 _ Ha). }
      subst b. f_equal.
      apply IH; [exact Hs2 | eapply Permutation_cons_inv; exact Hp |].
      now inversion Hnd.
Qed.

Lemma sort_items_permutation (l1 l2 : list (string * string)) :
  Permutation l1 l2 -> NoDup (map fst l1) -> sort_items l1 = sort_items l2.
Proof.
  intros Hp Hnd.
  apply sorted_unique; try apply sort_items_sorted.
  - rewrite !sort_items_perm. exact Hp.
  - eapply Permutation_NoDup; [|exact Hnd].
    apply Permutation_map, Permutation_sym, sort_items_perm.
Qed.

Lemma json_dumps_dict (d : dict) :
  json_dumps_sorted (VDict d) = json_object (map dumps_item d).
Proof.
  simpl. f_equal.
  induction d as [|[k v] d IH]; simpl; [reflexivity | now rewrite IH].
Qed.

(** The text does not depend on the order in which the keys were inserted. *)
Lemma json_dumps_sorted_permutation (d d' : dict) :
  NoDup (keys d) -> Permutation d d' ->
  json_dumps_sorted (VDict d) = json_dumps_sorted (VDict d').
Proof.
  intros Hnd Hp. rewrite !json_dumps_dict. unfold json_object.
  rewrite (sort_items_permutation (map dumps_item d) (map dumps_item d')).
  - reflexivity.
  - now apply Permutation_map.
  - rewrite map_map. exact Hnd.
Qed.

(** Every dict is printed with its items in the order of their keys. *)
Lemma json_dumps_dict_sorted (d : dict) :
  exists items,
    json_dumps_sorted (VDict d)
      = ("{" ++ join ", " (map json_item items) ++ "}")%string /\
    Permutation items (map dumps_item d) /\
    StronglySorted key_le items.
Proof.
  exists (sort_items (map dumps_item d)).
  split; [apply json_dumps_dict|].
  split; [apply sort_items_perm | apply sort_items_sorted].
Qed.

Lemma json_dumps_list (l : list value) :
  json_dumps_sorted (VList l)
  = ("[" ++ join ", " (map json_dumps_sorted l) ++ "]")%string.
Proof. reflexivity. Qed.

(** The text does not depend on the order of the keys at any depth. *)
Lemma same_up_to_key_order_dumps (depth : nat) (v v' : value) :
  same_up_to_key_order depth v v' ->
  json_dumps_sorted v = json_dumps_sorted v'.
Proof.
  revert v v'. induction depth as [|d IH]; intros v v' H.
  - simpl in H. rewrite H. reflexivity.
  - destruct v as [n|x|s|l|items], v' as [n'|x'|s'|l'|items''];
      simpl in H; try (rewrite H; reflexivity); try discriminate H.
    + rewrite !json_dumps_list. do 3 f_equal.
      induction H as [|a b l l' Hab Hl IHl]; [reflexivity|].
      cbn [map]. rewrite (IH _ _ Hab), IHl. reflexivity.
    + destruct H as (Hnd & items' & Hall & Hperm).
      assert (Hitems : map dumps_item items = map dumps_item items').
      { clear Hnd Hperm.
        induction Hall as [|[k a] [k' b] l l' [Hk Hab] Hl IHl]; [reflexivity|].
        cbn [map]. unfold dumps_item at 1 3. simpl in Hk, Hab |- *.
        rewrite Hk, (IH _ _ Hab), IHl. reflexivity. }
      assert (Hkeys : keys items' = keys items).
      { assert (Hfst : forall l, map fst (map dumps_item l) = keys l)
          by (intro l; unfold keys; rewrite map_map; reflexivity).
        rewrite <- (Hfst items'), <- Hitems. apply Hfst. }
      rewrite <- (json_dumps_sorted_permutation items' items'');
        [| rewrite Hkeys; exact Hnd | exact Hperm].
      rewrite !json_dumps_dict, Hitems. reflexivity.
Qed.

(** ** The digest is lowercase hexadecimal *)

Lemma hex_digit_lowercase (n : Z) : In (hex_digit n) hex_table.
Proof.
  unfold hex_digit. apply nth_In.
  change (List.length hex_table) with 16%nat.
  assert (0 <= n mod 16 < 16) by (apply Z.mod_pos_bound; lia). lia.
Qed.

Lemma hexdigest_lowercase (msg : list Z) (c : ascii) :
  In c (list_ascii_of_string (SHA256.hexdigest msg)) -> In c hex_table.
Proof.
  unfold SHA256.hexdigest. rewrite list_ascii_of_string_of_list_ascii.
  intro H. apply in_flat_map in H. destruct H as (x & _ & H).
  unfold SHA256.hex32 in H. apply in_map_iff in H.
  destruct H as (i & <- & _). apply hex_digit_lowercase.
Qed.

Lemma hexdigest_length (msg : list Z) :
  String.length (SHA256.hexdigest msg) = 64%nat.
Proof. reflexivity. Qed.

(** ** Balances *)

Lemma run_get_balance (wallet : string) (w : world) (chain : list dict) :
  files w VDC.LEDGER = Some (Document chain) ->
  run (get_balance wallet) w =
  (match balance_chain wallet 0 chain with
   | Ok b => Returns (float_round b 8)
   | Raise e => Raises e
   end, w).
Proof.
  intro Hf. unfold get_balance.
  rewrite run_bind, (load_chain_present _ _ Hf), run_bind, run_lift.
  destruct (balance_chain wallet 0 chain); reflexivity.
Qed.

Lemma balance_chain_app (wallet : string) (b : float) (l1 l2 : list dict) :
  balance_chain wallet b (l1 ++ l2) =
  rbind (balance_chain wallet b l1) (fun b' => balance_chain wallet b' l2).
Proof.
  revert b. induction l1 as [|blk l1 IH]; intro b; simpl; [reflexivity|].
  destruct (balance_block wallet b blk); simpl; [apply IH | reflexivity].
Qed.

Lemma float_of_int_0 : float_of_int 0 = Ok 0%float.
Proof. reflexivity. Qed.

(** ** The BURN transaction of a redemption *)

Lemma run_create_burn_tx (wallet : string) (amount : float) (w : world) :
  exists burn_tx basket ship_id,
    run (create_burn_tx wallet amount) w = (Returns burn_tx, do_tick (do_tick w)) /\
    dict_get burn_tx "type" = Some (VStr "BURN") /\
    dict_get burn_tx "wallet" = Some (VStr wallet) /\
    dict_get burn_tx "amount" = Some (VFloat (float_round amount 8)) /\
    dict_item burn_tx "redemption_basket" = Ok basket /\
    dict_item burn_tx "shipping_txid" = Ok ship_id.
Proof.
  do 3 eexists. split; [reflexivity|]. repeat split; reflexivity.
Qed.

Lemma next_supply_burn (s r : float) (burn_tx : dict) :
  dict_get burn_tx "type" = Some (VStr "BURN") ->
  dict_get burn_tx "amount" = Some (VFloat r) ->
  next_supply s [burn_tx] = Ok (s + 0 - (0 + r))%float.
Proof.
  intros Ht Ha. unfold next_supply, sum_amounts, dict_get_default. simpl.
  rewrite Ht. simpl. rewrite Ha.
  unfold py_sum, py_sum_from, py_add, py_sub, py_arith.
  rewrite float_of_int_0. reflexivity.
Qed.

Lemma balance_block_burn (wallet : string) (b r s : float) (i now : Z)
    (h hash : string) (burn_tx : dict) :
  dict_get burn_tx "type" = Some (VStr "BURN") ->
  dict_get burn_tx "wallet" = Some (VStr wallet) ->
  dict_get burn_tx "amount" = Some (VFloat r) ->
  balance_block wallet b
    (block_data i now [burn_tx] s h ++ [("block_hash", VStr hash)])
  = Ok (b - r)%float.
Proof.
  intros Ht Hw Ha. unfold balance_block, dict_get_default. simpl.
  unfold balance_tx, dict_get_default. simpl.
  rewrite Hw. simpl. rewrite String.eqb_refl, Ht. simpl. rewrite Ha.
  reflexivity.
Qed.

(** ** Crashes *)

Lemma moment_ret {A} (a : A) (w w' : world) : moment (Ret a) w w' -> w' = w.
Proof. inversion 1; reflexivity. Qed.

Lemma moment_lift {A} (r : result A) (w w' : world) :
  moment (lift r) w w' -> w' = w.
Proof. destruct r; inversion 1; reflexivity. Qed.

Lemma run_lift_inv {A} (r : result A) (a : A) (w w1 : world) :
  run (lift r) w = (Returns a, w1) -> r = Ok a /\ w1 = w.
Proof.
  rewrite run_lift. destruct r; intro H; inversion H; split; reflexivity.
Qed.

(** Reading the ledger changes nothing, whenever it stops. *)
Lemma moment_load_chain (w w' : world) (chain : list dict) :
  files w VDC.LEDGER = Some (Document chain) ->
  moment load_chain w w' -> w' = w.
Proof.
  intros Hf H. unfold load_chain in H. simpl in H.
  inversion H as [| ? ? ? ? H1 | | | | | |]; subst; [reflexivity|].
  rewrite Hf in H1. simpl in H1.
  inversion H1 as [| | | | | ? ? ? ? H2 | |]; subst; [reflexivity|].
  unfold do_read in H2. rewrite Hf in H2. simpl in H2.
  inversion H2; reflexivity.
Qed.

Lemma moment_int_time_time (w w' : world) :
  moment int_time_time w w' -> files w' = files w.
Proof.
  unfold int_time_time. inversion 1 as [| | | | | | | ? ? ? H1]; subst;
    [reflexivity|].
  inversion H1; reflexivity.
Qed.

(** While [atomic_write] runs, the ledger file is the old one; when it has
    run, the new one. *)
Lemma moment_atomic_write (chain : list dict) (w w' : world) :
  moment (atomic_write VDC.LEDGER chain) w w' ->
  files w' VDC.LEDGER = files w VDC.LEDGER \/ w' = persisted w chain.
Proof.
  unfold persisted, atomic_write. rewrite tmp_path. simpl. intro H.
  inversion H as [| | | | ? ? ? ? ? H1 | | |]; subst;
    [left; reflexivity | left; reflexivity |].
  inversion H1 as [| | | | | | ? ? ? ? ? H2 |]; subst; [left; reflexivity|].
  unfold do_replace in H2. simpl in H2.
  inversion H2; subst. right. reflexivity.
Qed.

(** One pure step of a program that may be stopped: either it is stopped
    there, with the world untouched, or the step returned. *)
Ltac pure_moment H Hf :=
  apply moment_bind in H;
  let x := fresh "x" in
  let w1 := fresh "w" in
  let E := fresh "E" in
  destruct H as [H | (x & w1 & E & H)];
  [ left; rewrite (moment_lift _ _ _ H); exact Hf
  | apply run_lift_inv in E; destruct E as [E ->] ].

Lemma moment_until_replace {A} (m : io A) (w : world) :
  moment m w (run_until_replace m w).
Proof.
  revert w.
  induction m as [a|e|c|p k IH|p k IH|p chain k IH|p k IH|src dst k IH|k IH];
    intro w; simpl; try apply moment_now; constructor; auto.
Qed.

(** ** The order of floats *)

Ltac order_cases :=
  repeat match goal with
         | |- context [Z.compare ?a ?b] => destruct (Z.compare_spec a b)
         | |- context [Pos.compare_cont Eq ?a ?b] =>
             change (Pos.compare_cont Eq a b) with (Pos.compare a b);
             destruct (Pos.compare_spec a b)
         end;
  simpl; intros; try discriminate; try reflexivity; try (exfalso; lia).

Lemma SFltb_trans (x y z : spec_float) :
  SFltb x y = true -> SFltb y z = true -> SFltb x z = true.
Proof.
  unfold SFltb.
  destruct x as [sx|sx| |sx mx ex], y as [sy|sy| |sy my ey],
           z as [sz|sz| |sz mz ez];
    try destruct sx; try destruct sy; try destruct sz; simpl;
    try discriminate; try reflexivity; order_cases.
Qed.

Lemma SFltb_not_gt_trans (x y z : spec_float) :
  SFltb x y = true -> SFltb z y = false -> z <> S754_nan -> SFltb x z = true.
Proof.
  unfold SFltb.
  destruct x as [sx|sx| |sx mx ex], y as [sy|sy| |sy my ey],
           z as [sz|sz| |sz mz ez];
    try destruct sx; try destruct sy; try destruct sz; simpl;
    try discriminate; try reflexivity; try congruence; order_cases.
Qed.

Lemma float_ltb_trans (a b c : float) :
  (a <? b)%float = true -> (b <? c)%float = true -> (a <? c)%float = true.
Proof. rewrite !ltb_spec. apply SFltb_trans. Qed.

Lemma float_eqb_refl_number (x : float) :
  (x =? x)%float = true <-> Prim2SF x <> S754_nan.
Proof.
  rewrite FloatAxioms.eqb_spec. unfold SFeqb, SFcompare.
  destruct (Prim2SF x) as [s|s| |s m e].
  - split; [discriminate | reflexivity].
  - destruct s; (split; [discriminate | reflexivity]).
  - split; [discriminate | intro H; exfalso; apply H; reflexivity].
  - rewrite Z.compare_refl, Pos.compare_cont_refl.
    destruct s; (split; [discriminate | reflexivity]).
Qed.

Lemma float_ltb_not_gt_trans (a b c : float) :
  (a <? b)%float = true -> (c <? b)%float = false -> (c =? c)%float = true ->
  (a <? c)%float = true.
Proof.
  rewrite !ltb_spec, float_eqb_refl_number. apply SFltb_not_gt_trans.
Qed.

Lemma float_ltb_number (a b : float) :
  (a <? b)%float = true -> (b =? b)%float = true.
Proof.
  rewrite ltb_spec, float_eqb_refl_number. unfold SFltb, SFcompare.
  destruct (Prim2SF a) as [sa|sa| |sa ma ea], (Prim2SF b) as [sb|sb| |sb mb eb];
    intros H; try discriminate H; discriminate.
Qed.

(** ** The sign of a quotient *)

(** A quotient above a positive number has operands of one sign: a negative
    divisor needs a negative dividend. *)
Lemma SFdiv_above_signs (c x y : spec_float) :
  SFltb (S754_zero false) c = true ->
  SFltb c (SFdiv prec emax x y) = true ->
  SFltb y (S754_zero false) = true ->
  SFltb x (S754_zero false) = true.
Proof.
  intros Hc H Hy.
  assert (Hpos : forall r, SFltb c r = true -> SFltb (S754_zero false) r = true).
  { intros r Hr.
    destruct c as [sc|sc| |sc mc ec]; try destruct sc; try discriminate Hc;
      destruct r as [sr|sr| |sr mr er]; try destruct sr; try discriminate Hr;
      reflexivity. }
  apply Hpos in H. clear Hc Hpos c.
  destruct x as [sx|sx| |sx mx ex], y as [sy|sy| |sy my ey];
    try destruct sx; try destruct sy; try discriminate Hy; try discriminate H;
    try reflexivity.
  exfalso.
  unfold SFdiv in H.
  destruct (SFdiv_core_binary prec emax (Z.pos mx) ex (Z.pos my) ey)
    as [[mz ez] lz].
  simpl xorb in H.
  unfold binary_round_aux in H.
  destruct (shr_fexp prec emax mz ez lz) as [mrs' e'].
  destruct (shr_fexp prec emax _ e' loc_Exact) as [mrs'' e''].
  destruct (shr_m mrs'') as [|q|q]; try discriminate.
  destruct (Z.leb e'' (emax - prec)); discriminate.
Qed.

Lemma float_div_above_signs (c x y : float) :
  (0 <? c)%float = true -> (c <? x / y)%float = true ->
  (y <? 0)%float = true -> (x <? 0)%float = true.
Proof.
  rewrite !ltb_spec, div_spec.
  change (Prim2SF 0) with (S754_zero false). apply SFdiv_above_signs.
Qed.


(** * Part VI: the claims of the specification *)

(** ** C1: the supply *)

(** C1 as stated fails.  After the commits of a MINT of [0.1] and of a MINT of
    [0.2] the current supply is the float [0.3]; the sum of the MINT amounts
    is [0.30000000000000004] in float arithmetic, and in exact arithmetic the
    two stored amounts do not add up to the stored supply either: the second
    block's supply is not the first block's supply plus the block's mints. *)
Lemma C1_counterexample :
  exists chain,
    fst (run load_chain
           (run_commits [[sample_mint "alice" 0.1]; [sample_mint "alice" 0.2]]
                        (snd (run init_ledger empty_world))))
      = Returns chain /\
    fst (run get_current_supply
           (run_commits [[sample_mint "alice" 0.1]; [sample_mint "alice" 0.2]]
                        (snd (run init_ledger empty_world))))
      = Returns (VFloat 0x1.3333333333333p-2) /\
    sum_amounts "MINT" (flat_map block_txs chain)
      = Ok (VFloat 0x1.3333333333334p-2) /\
    sum_amounts "BURN" (flat_map block_txs chain) = Ok (VInt 0) /\
    match dyadic_of_float 0x1.3333333333333p-2, spec_supply chain with
    | Some supply, Some net => dyadic_eqb supply net
    | _, _ => true
    end = false.
Proof.
  eexists. split; [vm_compute; reflexivity|].
  repeat split; vm_compute; reflexivity.
Qed.

(** C1, amended.  For every sequence of commits starting from the genesis
    ledger, [get_current_supply] returns the supply field of the last block,
    the genesis supply is [0.0], and each later block's supply is
    [round(prev.supply + minted - burned, 8)] computed in binary64 arithmetic
    from the previous block's supply and the block's own MINT and BURN totals:
    the supply follows the conservation formula up to the rounding of each
    step. *)
Theorem C1_supply_rounded_recurrence (w0 : world) (batches : list (list dict)) :
  files w0 VDC.LEDGER = None ->
  let w := run_commits batches (snd (run init_ledger w0)) in
  exists chain last,
    run load_chain w = (Returns chain, w) /\
    last_item chain = Ok last /\
    run get_current_supply w =
      (Returns (dict_get_default last "supply" (VFloat 0)), w) /\
    (exists g, nth_error chain 0 = Some g /\
               dict_get g "supply" = Some (VFloat 0)) /\
    forall i prev b,
      nth_error chain i = Some prev ->
      nth_error chain (S i) = Some b ->
      exists s minted burned s',
        dict_get prev "supply" = Some (VFloat s) /\
        sum_amounts "MINT" (block_txs b) = Ok minted /\
        sum_amounts "BURN" (block_txs b) = Ok burned /\
        rbind (py_add (VFloat s) minted) (fun x => py_sub x burned)
          = Ok (VFloat s') /\
        dict_get b "supply" = Some (VFloat (float_round s' 8)).
Proof.
  intros H0 w.
  destruct (run_commits_ledger_ok batches _ (init_ledger_ok w0 H0))
    as (chain & Hf & Hv).
  fold w in Hf.
  destruct (valid_chain_last _ Hv) as (last & _ & _ & _ & Hl & _).
  exists chain, last.
  split; [apply load_chain_present, Hf|].
  split; [exact Hl|].
  split; [apply (run_get_current_supply _ chain); assumption|].
  split; [exists genesis_block; split; [apply valid_chain_head, Hv | reflexivity]|].
  intros i prev b Hp Hb.
  destruct (valid_chain_adjacent _ Hv _ _ _ Hp Hb)
    as (n & s & h & txs & now & minted & burned & s' & _ & Hs & _ & Hm & Hbn & Hsum & E).
  cbv zeta in E. subst b.
  exists s, minted, burned, s'.
  rewrite block_txs_data. repeat split; assumption || reflexivity.
Qed.

Lemma C1_supply_rounded_recurrence_witness :
  let w := run_commits [[sample_mint "alice" 0.1]; [sample_mint "alice" 0.2]]
                       (snd (run init_ledger empty_world)) in
  exists chain last,
    run load_chain w = (Returns chain, w) /\
    last_item chain = Ok last /\
    run get_current_supply w =
      (Returns (dict_get_default last "supply" (VFloat 0)), w) /\
    (exists g, nth_error chain 0 = Some g /\
               dict_get g "supply" = Some (VFloat 0)) /\
    forall i prev b,
      nth_error chain i = Some prev ->
      nth_error chain (S i) = Some b ->
      exists s minted burned s',
        dict_get prev "supply" = Some (VFloat s) /\
        sum_amounts "MINT" (block_txs b) = Ok minted /\
        sum_amounts "BURN" (block_txs b) = Ok burned /\
        rbind (py_add (VFloat s) minted) (fun x => py_sub x burned)
          = Ok (VFloat s') /\
        dict_get b "supply" = Some (VFloat (float_round s' 8)).
Proof.
  apply (C1_supply_rounded_recurrence empty_world
           [[sample_mint "alice" 0.1]; [sample_mint "alice" 0.2]]).
  reflexivity.
Defined.

(** ** C2: the chain is hash-linked *)

(** C2.  Every chain produced by initializing the ledger and then performing
    any sequence of commits is hash-linked: block 0 is the fixed genesis block,
    whose [prev_hash] is sixty-four ['0'] characters, and for every [i > 0]
    block [i] carries the [block_hash] of block [i-1] as its [prev_hash] and
    the index of block [i-1] plus one as its [index]. *)
Theorem C2_chain_hash_linked (w0 : world) (batches : list (list dict)) :
  files w0 VDC.LEDGER = None ->
  let w := run_commits batches (snd (run init_ledger w0)) in
  exists chain,
    run load_chain w = (Returns chain, w) /\
    nth_error chain 0 = Some genesis_block /\
    dict_get genesis_block "prev_hash" =
      Some (VStr "0000000000000000000000000000000000000000000000000000000000000000") /\
    forall i prev b,
      nth_error chain i = Some prev ->
      nth_error chain (S i) = Some b ->
      (exists h, dict_get prev "block_hash" = Some (VStr h) /\
                 dict_get b "prev_hash" = Some (VStr h)) /\
      (exists n, dict_get prev "index" = Some (VInt n) /\
                 dict_get b "index" = Some (VInt (n + 1))).
Proof.
  intros H0 w.
  destruct (run_commits_ledger_ok batches _ (init_ledger_ok w0 H0))
    as (chain & Hf & Hv).
  fold w in Hf. exists chain.
  split; [apply load_chain_present, Hf|].
  split; [apply valid_chain_head, Hv|].
  split; [reflexivity|].
  intros i prev b Hp Hb.
  destruct (successor_fields _ _ (valid_chain_adjacent _ Hv _ _ _ Hp Hb))
    as (n & s & h & h' & Hi & Hh & Hi' & _ & Hh' & _).
  split; [exists h | exists n]; split; assumption.
Qed.

Lemma C2_chain_hash_linked_witness :
  let w := run_commits [[sample_mint "alice" 0.1]; [sample_burn "alice" 0.05]]
                       (snd (run init_ledger empty_world)) in
  exists chain,
    run load_chain w = (Returns chain, w) /\
    nth_error chain 0 = Some genesis_block /\
    dict_get genesis_block "prev_hash" =
      Some (VStr "0000000000000000000000000000000000000000000000000000000000000000") /\
    forall i prev b,
      nth_error chain i = Some prev ->
      nth_error chain (S i) = Some b ->
      (exists h, dict_get prev "block_hash" = Some (VStr h) /\
                 dict_get b "prev_hash" = Some (VStr h)) /\
      (exists n, dict_get prev "index" = Some (VInt n) /\
                 dict_get b "index" = Some (VInt (n + 1))).
Proof.
  apply (C2_chain_hash_linked empty_world
           [[sample_mint "alice" 0.1]; [sample_burn "alice" 0.05]]).
  reflexivity.
Defined.

(** ** C3: the block hash *)

(** C3.  For every block appended by [commit], the [block_hash] field is the
    hash of the block's fields without the [block_hash] field itself:
    recomputing [_hash_block_data] over the committed block minus that field
    reproduces it.  The hash is the SHA-256 digest of the UTF-8 bytes of the
    JSON text with sorted keys, printed as 64 lowercase hexadecimal digits,
    and it does not depend on the order in which the fields were inserted.

    The text that is hashed is canonical: it is the five fields of the block
    in the order of their keys, [index], [prev_hash], [supply], [timestamp],
    [txs], each as [key: value] and joined by [", "]; every dict inside,
    at any depth, is printed with its items sorted by key; and the hash is the
    same for a block whose dicts, at any depth, list their items in another
    order.  The digest and the serializer agree with [hashlib] and [json] on
    the test vector [abc] and on a block with values of every kind. *)
Theorem C3_block_hash_recomputes (transactions : list dict) (w w' : world)
    (blk : dict) :
  run (commit transactions) w = (Returns blk, w') ->
  let data := dict_remove blk "block_hash" in
  (exists chain, files w' VDC.LEDGER = Some (Document (chain ++ [blk]))) /\
  dict_get blk "block_hash" = Some (VStr (_hash_block_data data)) /\
  _hash_block_data data =
    SHA256.hexdigest (utf8_encode (json_dumps_sorted (VDict data))) /\
  String.length (_hash_block_data data) = 64%nat /\
  (forall c, In c (list_ascii_of_string (_hash_block_data data)) ->
             In c (list_ascii_of_string "0123456789abcdef")) /\
  (forall data', Permutation data data' ->
                 _hash_block_data data' = _hash_block_data data) /\
  (exists index timestamp supply prev_hash,
     data = [ ("index", index); ("timestamp", VInt timestamp);
              ("txs", VList (map VDict transactions));
              ("supply", supply); ("prev_hash", prev_hash) ] /\
     json_dumps_sorted (VDict data) =
       ("{" ++ join ", "
                 [ quoted "index" ++ ": " ++ json_dumps_sorted index;
                   quoted "prev_hash" ++ ": " ++ json_dumps_sorted prev_hash;
                   quoted "supply" ++ ": " ++ json_dumps_sorted supply;
                   quoted "timestamp" ++ ": " ++ string_of_Z timestamp;
                   quoted "txs" ++ ": "
                     ++ "[" ++ join ", "
                                 (map (fun t => json_dumps_sorted (VDict t))
                                      transactions) ++ "]" ]
            ++ "}")%string) /\
  (forall d : dict,
     exists items,
       json_dumps_sorted (VDict d)
         = ("{" ++ join ", " (map json_item items) ++ "}")%string /\
       Permutation items (map dumps_item d) /\
       StronglySorted key_le items) /\
  (forall depth data',
     same_up_to_key_order depth (VDict data) (VDict data') ->
     _hash_block_data data' = _hash_block_data data) /\
  SHA256.hexdigest (utf8_encode "abc") =
    "ba7816bf8f01cfea414140de5dae2223b00361a396177a9cb410ff61f20015ad" /\
  _hash_block_data probe_block =
    "9d112f439e7c921514ec85543613ca03e122625e64f6d5b1be539fc041ead5ad".
Proof.
  intros H data.
  destruct (commit_inv _ _ _ _ H)
    as (chain & w1 & prev & minted & burned & supply & with_minted & new_supply
        & prev_hash & index & index' & supply' & _ & _ & _ & _ & _ & _ & _ & _
        & _ & _ & _ & Hblk & Hw).
  cbv zeta in Hblk.
  assert (Hdata : data = [ ("index", index');
                           ("timestamp", VInt (clock w1 (ticks w1)));
                           ("txs", VList (map VDict transactions));
                           ("supply", supply');
                           ("prev_hash", prev_hash) ])
    by (unfold data; rewrite Hblk; reflexivity).
  split; [exists chain; rewrite Hw; apply persisted_ledger|].
  split; [rewrite Hdata, Hblk; reflexivity|].
  split; [reflexivity|].
  split; [apply hexdigest_length|].
  split; [intro c; apply hexdigest_lowercase|].
  split.
  { intros data' Hp. unfold _hash_block_data.
    rewrite (json_dumps_sorted_permutation data data');
      [reflexivity | | exact Hp].
    rewrite Hdata. unfold keys. simpl.
    repeat constructor; simpl; intuition discriminate. }
  split.
  { exists index', (clock w1 (ticks w1)), supply', prev_hash.
    split; [exact Hdata|].
    rewrite Hdata, json_dumps_dict. unfold json_object, dumps_item.
    cbn [map fst snd]. rewrite json_dumps_list, map_map.
    change (json_dumps_sorted (VInt (clock w1 (ticks w1))))
      with (string_of_Z (clock w1 (ticks w1))).
    generalize (json_dumps_sorted index') (json_dumps_sorted supply')
               (json_dumps_sorted prev_hash)
               (string_of_Z (clock w1 (ticks w1)))
               ("[" ++ join ", " (map (fun t => json_dumps_sorted (VDict t))
                                      transactions) ++ "]")%string.
    intros ti ts tp tt tx. reflexivity. }
  split; [exact json_dumps_dict_sorted|].
  split.
  { intros depth data' Hsame. unfold _hash_block_data.
    rewrite (same_up_to_key_order_dumps depth _ _ Hsame). reflexivity. }
  split; vm_compute; reflexivity.
Qed.

Lemma C3_block_hash_recomputes_witness :
  exists blk w',
    run (commit [sample_mint "alice" 0.1]) empty_world = (Returns blk, w') /\
    dict_get blk "block_hash" =
      Some (VStr (_hash_block_data (dict_remove blk "block_hash"))).
Proof.
  destruct (run (commit [sample_mint "alice" 0.1]) empty_world)
    as [[blk|e|c] w'] eqn:E.
  - exists blk, w'. split; [reflexivity|].
    exact (proj1 (proj2 (C3_block_hash_recomputes _ _ _ _ E))).
  - apply (f_equal fst) in E. vm_compute in E. discriminate E.
  - apply (f_equal fst) in E. vm_compute in E. discriminate E.
Defined.

(** ** C4: the divergence gate *)

Lemma float_below_zero_not_zero (x : float) :
  (x <? 0)%float = true -> (x =? 0)%float = false.
Proof.
  rewrite ltb_spec, FloatAxioms.eqb_spec.
  change (Prim2SF 0) with (S754_zero false).
  destruct (Prim2SF x) as [s|s| |s m e]; try destruct s; try discriminate;
    reflexivity.
Qed.

(** C4.  The code's gate does not reject as claimed when the kinematic
    estimate is below zero.  The divisor [kinematic_joules or 1] is then the
    negative estimate itself, a ratio above 1000 would need negative work, and
    so the gate never fires: every reading that passes the minimum-work check
    is accepted, however large the claimed energy.  The gate as claimed
    divides by [max(kinematic_joules, 1) = 1] there and rejects, as the code
    does for an estimate of zero or just above. *)
Theorem C4_negative_estimate_bypasses_gate
    (distance_m elevation_m user_mass_kg gravity active_kcal : float) :
  let total_joules := (active_kcal * VDC.JOULES_PER_KCAL)%float in
  let kinematic_joules :=
    kinematic_model distance_m elevation_m user_mass_kg gravity in
  (kinematic_joules <? 0)%float = true ->
  (total_joules <? 100000)%float = false ->
  divergence_alert total_joules kinematic_joules = false /\
  compute_joules distance_m elevation_m user_mass_kg gravity active_kcal
    = (total_joules, true).
Proof.
  intros total_joules kinematic_joules Hneg Hwork.
  assert (Hgate : divergence_alert total_joules kinematic_joules = false).
  { unfold divergence_alert, float_bool.
    rewrite (float_below_zero_not_zero _ Hneg). cbn [negb].
    destruct (1000 <? total_joules / kinematic_joules)%float eqn:Hratio;
      [|reflexivity].
    assert (Hlow : (total_joules <? 0)%float = true)
      by exact (float_div_above_signs 1000 _ _ eq_refl Hratio Hneg).
    rewrite (float_ltb_trans total_joules 0 100000 Hlow eq_refl) in Hwork.
    discriminate Hwork. }
  split; [exact Hgate|].
  unfold compute_joules, minimum_work_alert.
  fold total_joules kinematic_joules. rewrite Hwork, Hgate. reflexivity.
Qed.

(** The failing input: 600 kcal with no distance and a millimetre of descent.
    The estimate is below zero and the reading is accepted; the gate as
    claimed rejects it, and the code rejects the same reading with no climb
    at all and with a millimetre of climb. *)
Lemma C4_negative_estimate_bypasses_gate_witness :
  (kinematic_model 0 (-0.001) 75 9.81 <? 0)%float = true /\
  compute_joules 0 (-0.001) 75 9.81 600 = (2510400%float, true) /\
  spec_divergence_reject 2510400 (kinematic_model 0 (-0.001) 75 9.81) = true /\
  compute_joules 0 0 75 9.81 600 = (2510400%float, false) /\
  compute_joules 0 0.001 75 9.81 600 = (2510400%float, false).
Proof.
  split; [reflexivity|].
  split; [exact (proj2 (C4_negative_estimate_bypasses_gate 0 (-0.001) 75 9.81
                          600 eq_refl eq_refl))|].
  repeat split; vm_compute; reflexivity.
Defined.

(** ** C5: the primary work and the minimum-work gate *)

(** C5.  For every input, [compute_joules] returns the primary work
    [active_kcal * 4184] whichever gate fired, and the accepted flag is false
    whenever that work is below 100,000. *)
Theorem C5_primary_work_and_floor
    (distance_m elevation_m user_mass_kg gravity active_kcal : float) :
  VDC.JOULES_PER_KCAL = 4184%float /\
  fst (compute_joules distance_m elevation_m user_mass_kg gravity active_kcal)
    = (active_kcal * 4184)%float /\
  ((active_kcal * 4184 <? 100000)%float = true ->
   snd (compute_joules distance_m elevation_m user_mass_kg gravity active_kcal)
     = false).
Proof.
  split; [reflexivity|]. split; [reflexivity|].
  intro H. unfold compute_joules, minimum_work_alert.
  change VDC.JOULES_PER_KCAL with 4184%float. rewrite H.
  destruct (divergence_alert _ _); reflexivity.
Qed.

(** The specification's example: 20 kcal is 83,680 J, rejected. *)
Lemma C5_primary_work_and_floor_witness :
  compute_joules 5000 60 75 9.81 20 = (83680%float, false).
Proof.
  destruct (C5_primary_work_and_floor 5000 60 75 9.81 20) as (_ & Hfst & Hsnd).
  rewrite (surjective_pairing (compute_joules 5000 60 75 9.81 20)).
  rewrite Hfst, Hsnd; reflexivity.
Defined.

(** ** C6: eight decimals *)

(** C6 as stated fails: amounts are binary floats.  The amount a MINT of
    [0.1] stores is not a whole multiple of [10^-8]; and after the commits of
    MINTs of 70000000, 0.00000001 and 0.00000001 the supply and the balance
    replayed from the chain read 70000000.00000003, while the three amounts
    add up to 70000000.00000002. *)
Lemma C6_counterexample :
  (exists tx,
     fst (run (create_mint_tx "alice" 0.1 105263.2 "BTC-OTS-00" "alice_00")
              empty_world) = Returns tx /\
     dict_get tx "amount" = Some (VFloat 0x1.999999999999ap-4) /\
     option_map dyadic_is_8dp (dyadic_of_float 0x1.999999999999ap-4)
       = Some false) /\
  (exists chain,
     fst (run load_chain
            (run_commits [[sample_mint "alice" 70000000];
                          [sample_mint "alice" 0.00000001];
                          [sample_mint "alice" 0.00000001]]
                         (snd (run init_ledger empty_world)))) = Returns chain /\
     fst (run get_current_supply
            (run_commits [[sample_mint "alice" 70000000];
                          [sample_mint "alice" 0.00000001];
                          [sample_mint "alice" 0.00000001]]
                         (snd (run init_ledger empty_world))))
       = Returns (VFloat 0x1.0b07600000002p+26) /\
     fst (run (get_balance "alice")
            (run_commits [[sample_mint "alice" 70000000];
                          [sample_mint "alice" 0.00000001];
                          [sample_mint "alice" 0.00000001]]
                         (snd (run init_ledger empty_world))))
       = Returns 0x1.0b07600000002p+26%float /\
     option_map units8 (dyadic_of_float 0x1.0b07600000002p+26)
       = Some 7000000000000003 /\
     option_map units8 (spec_supply chain) = Some 7000000000000002).
Proof.
  split.
  - eexists. split; [vm_compute; reflexivity|].
    split; vm_compute; reflexivity.
  - eexists. split; [vm_compute; reflexivity|].
    repeat split; vm_compute; reflexivity.
Qed.

(** C6, amended.  Amount, supply and basket fields are binary64 floats
    produced by [round(x, 8)]: [create_mint_tx] and [create_burn_tx] store
    [round(amount, 8)], the basket holds [round(amount * rate, 8)] for the
    three rates, [commit] stores [round(new_supply, 8)] and [get_balance]
    returns [round(balance, 8)]; and [round(x, 8)] is [x] itself or the double
    nearest to a whole number of units of [10^-8] (or a zero).  The values are
    the doubles nearest to eight-decimal numbers, not exact decimals. *)
Theorem C6_fields_are_rounded_floats :
  (forall wallet amount joules ots_txid proof_name w tx w1,
     run (create_mint_tx wallet amount joules ots_txid proof_name) w
       = (Returns tx, w1) ->
     dict_get tx "amount" = Some (VFloat (float_round amount 8))) /\
  (forall wallet amount w,
     exists tx w1,
       run (create_burn_tx wallet amount) w = (Returns tx, w1) /\
       dict_get tx "amount" = Some (VFloat (float_round amount 8)) /\
       dict_get tx "redemption_basket" =
         Some (VDict
           [ ("gold_grams",
               VFloat (float_round (amount * VDC.GOLD_G_PER_VDC) 8));
             ("silk_grams",
               VFloat (float_round (amount * VDC.SILK_G_PER_VDC) 8));
             ("tencel_grams",
               VFloat (float_round (amount * VDC.TENCEL_G_PER_VDC) 8)) ])) /\
  (forall transactions w blk w',
     run (commit transactions) w = (Returns blk, w') ->
     exists new_supply supply',
       py_round new_supply 8 = Ok supply' /\
       dict_get blk "supply" = Some supply') /\
  (forall wallet w balance w',
     run (get_balance wallet) w = (Returns balance, w') ->
     exists sum, balance = float_round sum 8) /\
  (forall x,
     float_round x 8 = x \/
     (exists s k, float_round x 8 = nearest_float s k 100000000) \/
     float_round x 8 = zero \/ float_round x 8 = neg_zero).
Proof.
  split; [|split; [|split; [|split]]].
  - intros wallet amount joules ots_txid proof_name w tx w1 H.
    unfold create_mint_tx in H. rewrite run_bind, run_lift in H.
    destruct (float_round_int joules); [|discriminate H].
    simpl in H. inversion H; subst. reflexivity.
  - intros wallet amount w. do 2 eexists.
    split; [reflexivity|]. split; reflexivity.
  - intros transactions w blk w' H.
    destruct (commit_inv _ _ _ _ H)
      as (chain & w1 & prev & minted & burned & supply & with_minted
          & new_supply & prev_hash & index & index' & supply' & _ & _ & _ & _
          & _ & _ & _ & _ & _ & _ & Hround & Hblk & _).
    exists new_supply, supply'. split; [exact Hround|].
    cbv zeta in Hblk. rewrite Hblk. reflexivity.
  - intros wallet w balance w' H.
    unfold get_balance in H. rewrite run_bind in H.
    destruct (run load_chain w) as [[chain|e|c] w1]; try discriminate H.
    rewrite run_bind, run_lift in H.
    destruct (balance_chain wallet 0 chain) as [b|e]; [|discriminate H].
    simpl in H. inversion H; subst. exists b. reflexivity.
  - intro x. unfold float_round.
    destruct (Prim2SF x) as [s| s| |s m e]; try (left; reflexivity).
    destruct (0 <=? e)%Z; [left; reflexivity|].
    destruct (div_half_even _ _) as [|k|k].
    + right. right. destruct s; [right | left]; reflexivity.
    + right. left. exists s, k. reflexivity.
    + right. right. destruct s; [right | left]; reflexivity.
Qed.

(** The amounts of a mint and of a redemption of 2.38488 and 2, as stored. *)
Lemma C6_fields_are_rounded_floats_witness :
  exists tx w1,
    run (create_burn_tx "alice" 2) empty_world = (Returns tx, w1) /\
    dict_get tx "amount" = Some (VFloat 2) /\
    dict_get tx "redemption_basket" =
      Some (VDict [ ("gold_grams", VFloat 0x1.711947cfa26a2p-16);
                    ("silk_grams", VFloat 0x1.a36e2eb1c432dp-10);
                    ("tencel_grams", VFloat 0x1.89374bc6a7efap-6) ]).
Proof.
  destruct (proj1 (proj2 C6_fields_are_rounded_floats) "alice" 2%float empty_world)
    as (tx & w1 & Hr & Ha & Hb).
  exists tx, w1. split; [exact Hr|]. split; [exact Ha|].
  rewrite Hb. vm_compute. reflexivity.
Defined.

(** ** C7: redeem *)

(** C7.  On a ledger grown from the genesis block, for every wallet and
    amount: when the derived balance is strictly less than the requested
    amount, [handle_redeem] reports the rejection and leaves the world (the
    ledger with it) exactly as it was; otherwise it builds one BURN
    transaction for that wallet and amount ([create_burn_tx]) and commits it
    alone in a new block appended to the ledger. *)
Theorem C7_redeem_rejects_or_burns (wallet : string) (amount balance : float)
    (w : world) (chain : list dict) :
  files w VDC.LEDGER = Some (Document chain) ->
  valid_chain chain ->
  run (get_balance wallet) w = (Returns balance, w) ->
  ((balance <? amount)%float = true ->
   run (handle_redeem wallet amount) w
     = (Returns (BurnRejected amount balance), w)) /\
  ((balance <? amount)%float = false ->
   exists burn_tx w1 blk w' basket ship_id new_balance,
     run (create_burn_tx wallet amount) w = (Returns burn_tx, w1) /\
     dict_get burn_tx "type" = Some (VStr "BURN") /\
     dict_get burn_tx "wallet" = Some (VStr wallet) /\
     dict_get burn_tx "amount" = Some (VFloat (float_round amount 8)) /\
     run (commit [burn_tx]) w1 = (Returns blk, w') /\
     block_txs blk = [burn_tx] /\
     files w' VDC.LEDGER = Some (Document (chain ++ [blk])) /\
     run (handle_redeem wallet amount) w
       = (Returns (Redeemed burn_tx blk basket ship_id new_balance), w')).
Proof.
  intros Hf Hv Hbal.
  split; intro Hlt.
  - unfold handle_redeem. rewrite run_bind, Hbal, Hlt. reflexivity.
  - pose proof Hbal as Hbal'.
    rewrite (run_get_balance _ _ _ Hf) in Hbal'.
    destruct (balance_chain wallet 0 chain) as [b0|] eqn:Hb0; [|discriminate].
    destruct (valid_chain_last _ Hv) as (prev & i & s & h & Hl & Hi & Hs & Hh).
    destruct (run_create_burn_tx wallet amount w)
      as (burn_tx & basket & ship_id & Hrun & Ht & Hw & Ha & Hbk & Hsh).
    set (w1 := do_tick (do_tick w)) in *.
    assert (Hf1 : files w1 VDC.LEDGER = Some (Document chain)) by exact Hf.
    pose proof (commit_run [burn_tx] w1 chain prev i s h Hf1 Hl Hi Hs Hh) as Hc.
    rewrite (next_supply_burn s _ burn_tx Ht Ha) in Hc. cbv zeta in Hc.
    set (data := block_data (i + 1) (clock w1 (ticks w1)) [burn_tx] _ h) in Hc.
    set (blk := data ++ [("block_hash", VStr (_hash_block_data data))]) in Hc.
    set (w' := persisted (do_tick w1) (chain ++ [blk])) in Hc.
    assert (Hf' : files w' VDC.LEDGER = Some (Document (chain ++ [blk])))
      by apply persisted_ledger.
    exists burn_tx, w1, blk, w', basket, ship_id,
      (float_round (b0 - float_round amount 8) 8).
    repeat (split; [assumption|]).
    split; [apply block_txs_data|].
    split; [exact Hf'|].
    unfold handle_redeem. rewrite run_bind, Hbal, Hlt.
    rewrite run_bind, run_try_except, run_bind, Hrun, run_bind, Hc.
    change (run (Ret (inl (burn_tx, blk))) w')
      with (Returns (inl (B := exn) (burn_tx, blk)), w').
    cbv iota beta.
    rewrite run_bind, run_lift, Hbk, run_bind, run_lift, Hsh.
    rewrite run_bind, (run_get_balance _ _ _ Hf'), balance_chain_app, Hb0.
    simpl balance_chain.
    unfold blk, data. cbn [rbind].
    rewrite (balance_block_burn wallet b0 _ _ _ _ _ _ burn_tx Ht Hw Ha).
    reflexivity.
Qed.

(** With a balance of 2.38488, a redemption of 1000 is rejected and one of 2
    is committed. *)
Lemma C7_redeem_rejects_or_burns_witness :
  run (handle_redeem "alice" 1000) funded_world
    = (Returns (BurnRejected 1000 2.38488), funded_world) /\
  exists burn_tx blk basket ship_id new_balance w',
    run (handle_redeem "alice" 2) funded_world
      = (Returns (Redeemed burn_tx blk basket ship_id new_balance), w') /\
    block_txs blk = [burn_tx] /\
    dict_get burn_tx "amount" = Some (VFloat 2).
Proof.
  destruct (run_commits_ledger_ok [[sample_mint "alice" 2.38488]] _
              (init_ledger_ok empty_world eq_refl)) as (chain & Hf & Hv).
  fold funded_world in Hf.
  assert (Hbal : run (get_balance "alice") funded_world
                 = (Returns 2.38488%float, funded_world)).
  { rewrite (run_get_balance _ _ _ Hf). f_equal.
    assert (Hc : files funded_world VDC.LEDGER
                 = Some (Document
                           (match files funded_world VDC.LEDGER with
                            | Some (Document c) => c
                            | _ => []
                            end))) by (rewrite Hf; reflexivity).
    rewrite Hf in Hc at 1. injection Hc as ->.
    vm_compute. reflexivity. }
  pose proof (C7_redeem_rejects_or_burns "alice" 1000 _ _ _ Hf Hv Hbal) as H1.
  pose proof (C7_redeem_rejects_or_burns "alice" 2 _ _ _ Hf Hv Hbal) as H2.
  split.
  - apply (proj1 H1). reflexivity.
  - destruct (proj2 H2 eq_refl)
      as (burn_tx & w1 & blk & w' & basket & ship_id & new_balance
          & _ & _ & _ & Ha & _ & Htx & _ & Hr).
    exists burn_tx, blk, basket, ship_id, new_balance, w'.
    split; [exact Hr|]. split; [exact Htx | exact Ha].
Defined.

(** ** C8: atomic persistence *)

(** C8.  [atomic_write] writes the whole chain to the temporary path and then
    replaces the ledger by one rename; so whenever the process running a
    commit stops (a crash in the middle of the temporary file's text, or after
    it and before the rename, included), the ledger file holds the complete
    old chain or the complete new chain, never a truncated text, and
    [load_chain] reads that chain back. *)
Theorem C8_commit_is_atomic (transactions : list dict) (w w' : world)
    (chain : list dict) :
  files w VDC.LEDGER = Some (Document chain) ->
  moment (commit transactions) w w' ->
  (forall c, atomic_write VDC.LEDGER c =
             WriteText "vdc_chain.tmp" c
               (Replace "vdc_chain.tmp" VDC.LEDGER lift)) /\
  (files w' VDC.LEDGER = Some (Document chain) \/
   exists blk w_end,
     run (commit transactions) w = (Returns blk, w_end) /\
     files w' VDC.LEDGER = Some (Document (chain ++ [blk]))) /\
  exists loaded, run load_chain w' = (Returns loaded, w').
Proof.
  intros Hf H.
  split; [reflexivity|].
  assert (Hcases :
    files w' VDC.LEDGER = Some (Document chain) \/
    exists blk w_end,
      run (commit transactions) w = (Returns blk, w_end) /\
      files w' VDC.LEDGER = Some (Document (chain ++ [blk]))).
  2: { split; [exact Hcases|].
       destruct Hcases as [Hc | (blk & _ & _ & Hc)];
         eexists; apply load_chain_present; exact Hc. }
  unfold commit in H.
  apply moment_bind in H.
  destruct H as [H | (chain0 & w1 & Hload & H)];
    [left; rewrite (moment_load_chain _ _ _ Hf H); exact Hf|].
  rewrite (load_chain_present _ _ Hf) in Hload.
  inversion Hload; subst chain0 w1; clear Hload.
  do 9 pure_moment H Hf.
  apply moment_bind in H.
  destruct H as [H | (now & w1 & Hnow & H)];
    [left; rewrite (moment_int_time_time _ _ H); exact Hf|].
  change (run int_time_time w) with (Returns (clock w (ticks w)), do_tick w)
    in Hnow.
  inversion Hnow; subst now w1; clear Hnow.
  assert (Hf1 : files (do_tick w) VDC.LEDGER = Some (Document chain))
    by exact Hf.
  pure_moment H Hf1.
  match type of H with
  | moment (bind (atomic_write _ (_ ++ [?b])) _) _ _ => set (blk := b) in H
  end.
  assert (Hrun : run (commit transactions) w
                 = (Returns blk, persisted (do_tick w) (chain ++ [blk]))).
  { unfold commit. rewrite run_bind, (load_chain_present _ _ Hf).
    rewrite run_bind, run_lift, E.
    rewrite run_bind, run_lift, E0.
    rewrite run_bind, run_lift, E1.
    rewrite run_bind, run_lift, E2.
    rewrite run_bind, run_lift, E3.
    rewrite run_bind, run_lift, E4.
    rewrite run_bind, run_lift, E5.
    rewrite run_bind, run_lift, E6.
    rewrite run_bind, run_lift, E7.
    rewrite run_bind.
    change (run int_time_time w) with (Returns (clock w (ticks w)), do_tick w).
    cbv iota beta.
    rewrite run_bind, run_lift, E8.
    rewrite run_bind, run_atomic_write. reflexivity. }
  apply moment_bind in H.
  destruct H as [H | (u & w1 & Hw & H)].
  - destruct (moment_atomic_write _ _ _ H) as [Hsame | ->].
    + left. rewrite Hsame. exact Hf1.
    + right. exists blk. eexists. split; [exact Hrun | apply persisted_ledger].
  - rewrite run_atomic_write in Hw. inversion Hw; subst w1.
    apply moment_ret in H. subst w'.
    right. exists blk. eexists. split; [exact Hrun | apply persisted_ledger].
Qed.

(** A crash of a commit after the temporary file is written and before the
    rename: the temporary file holds the new three-block chain, the ledger
    still holds the old two-block chain, and [load_chain] reads it. *)
Lemma C8_commit_is_atomic_witness :
  let w' := run_until_replace (commit [sample_burn "alice" 1]) funded_world in
  exists chain,
    files funded_world VDC.LEDGER = Some (Document chain) /\
    (exists new, files w' "vdc_chain.tmp" = Some (Document new) /\
                 List.length new = 3%nat) /\
    (files w' VDC.LEDGER = Some (Document chain) \/
     exists blk w_end,
       run (commit [sample_burn "alice" 1]) funded_world = (Returns blk, w_end) /\
       files w' VDC.LEDGER = Some (Document (chain ++ [blk]))) /\
    exists loaded, run load_chain w' = (Returns loaded, w').
Proof.
  intro w'.
  destruct (run_commits_ledger_ok [[sample_mint "alice" 2.38488]] _
              (init_ledger_ok empty_world eq_refl)) as (chain & Hf & _).
  fold funded_world in Hf.
  exists chain. split; [exact Hf|].
  split; [eexists; split; [vm_compute; reflexivity | reflexivity]|].
  exact (proj2 (C8_commit_is_atomic [sample_burn "alice" 1] funded_world w'
                  chain Hf (moment_until_replace _ _))).
Defined.

(** ** C9: what the hash is computed from *)

(** C9 as stated fails: nothing but the order of the statements of [commit]
    keeps the hash field out of the hashed record.  [_hash_block_data] takes
    any dictionary: applied to a committed block with its [block_hash], or to
    the same fields with an empty placeholder, it returns other digests than
    the one stored, without any error. *)
Lemma C9_counterexample :
  exists blk,
    fst (run (commit [sample_mint "alice" 0.1]) empty_world) = Returns blk /\
    dict_get blk "block_hash" =
      Some (VStr "ab125adc97d3a1efc5620ae58109d87ae84295862d7eed0cfa4d04699797b6d0") /\
    _hash_block_data (dict_remove blk "block_hash") =
      "ab125adc97d3a1efc5620ae58109d87ae84295862d7eed0cfa4d04699797b6d0" /\
    _hash_block_data blk =
      "f2d315ae820c162e6a81c5db738d479f58e409b5b629d0ec3c8edb53d5feef93" /\
    _hash_block_data (dict_set blk "block_hash" (VStr "")) =
      "d84aebedb4e5736f1b5c7fd190228ba310cce19b093ff800a812a734916960dd".
Proof.
  eexists. split; [vm_compute; reflexivity|].
  repeat split; vm_compute; reflexivity.
Qed.

(** C9, amended.  In every commit the hash is computed from the dictionary
    of the five fields [index], [timestamp], [txs], [supply] and [prev_hash],
    as it is before the [block_hash] key is inserted, and the block is that
    dictionary with the hash added last: the record that is hashed holds no
    [block_hash].  This is the order of operations of [commit], not a
    distinction of types. *)
Theorem C9_hash_before_insertion (transactions : list dict) (w w' : world)
    (blk : dict) :
  run (commit transactions) w = (Returns blk, w') ->
  exists data,
    keys data = ["index"; "timestamp"; "txs"; "supply"; "prev_hash"] /\
    dict_get data "block_hash" = None /\
    dict_get data "txs" = Some (VList (map VDict transactions)) /\
    blk = dict_set data "block_hash" (VStr (_hash_block_data data)).
Proof.
  intro H.
  destruct (commit_inv _ _ _ _ H)
    as (chain & w1 & prev & minted & burned & supply & with_minted & new_supply
        & prev_hash & index & index' & supply' & _ & _ & _ & _ & _ & _ & _ & _
        & _ & _ & _ & Hblk & _).
  cbv zeta in Hblk.
  exists [ ("index", index');
           ("timestamp", VInt (clock w1 (ticks w1)));
           ("txs", VList (map VDict transactions));
           ("supply", supply');
           ("prev_hash", prev_hash) ].
  split; [| split; [| split; [| rewrite Hblk]]]; reflexivity.
Qed.

Lemma C9_hash_before_insertion_witness :
  exists blk data,
    fst (run (commit [sample_mint "alice" 0.1]) empty_world) = Returns blk /\
    dict_get data "block_hash" = None /\
    blk = dict_set data "block_hash" (VStr (_hash_block_data data)).
Proof.
  destruct (run (commit [sample_mint "alice" 0.1]) empty_world)
    as [[blk|e|c] w'] eqn:E.
  - destruct (C9_hash_before_insertion _ _ _ _ E) as (data & _ & Hnone & _ & Hblk).
    exists blk, data. split; [reflexivity|]. split; assumption.
  - apply (f_equal fst) in E. vm_compute in E. discriminate E.
  - apply (f_equal fst) in E. vm_compute in E. discriminate E.
Defined.

(** ** C10: the first load *)

(** C10.  When no ledger file exists, [load_chain] does not fail: it writes
    the ledger with the genesis block and returns the one-block genesis chain;
    on such a fresh state [get_balance] returns [0.0] for every wallet and
    [get_current_supply] returns [0.0]. *)
Theorem C10_fresh_ledger_loads (w : world) :
  files w VDC.LEDGER = None ->
  (exists w',
     run load_chain w = (Returns [genesis_block], w') /\
     files w' VDC.LEDGER = Some (Document [genesis_block])) /\
  (forall wallet, fst (run (get_balance wallet) w) = Returns 0%float) /\
  fst (run get_current_supply w) = Returns (VFloat 0).
Proof.
  intro H. pose proof (load_chain_absent w H) as Hl.
  split; [|split].
  - eexists. split; [exact Hl | apply persisted_ledger].
  - intro wallet. unfold get_balance. rewrite run_bind, Hl. reflexivity.
  - unfold get_current_supply. rewrite run_bind, Hl. reflexivity.
Qed.

Lemma C10_fresh_ledger_loads_witness :
  (exists w',
     run load_chain empty_world = (Returns [genesis_block], w') /\
     files w' VDC.LEDGER = Some (Document [genesis_block])) /\
  (forall wallet, fst (run (get_balance wallet) empty_world) = Returns 0%float) /\
  fst (run get_current_supply empty_world) = Returns (VFloat 0).
Proof. apply (C10_fresh_ledger_loads empty_world). reflexivity. Defined.

(** * Part VII: further properties of the ledger and of the validator *)

(** ** [init_ledger] and the read-only queries *)

(** X1.  [init_ledger] never fails, keeps an existing ledger file as it is
    (whatever it holds), creates the genesis ledger when there is none, and a
    second call changes nothing. *)
Theorem X1_init_ledger_idempotent (w : world) :
  fst (run init_ledger w) = Returns tt /\
  files (snd (run init_ledger w)) VDC.LEDGER =
    match files w VDC.LEDGER with
    | Some c => Some c
    | None => Some (Document [genesis_block])
    end /\
  run init_ledger (snd (run init_ledger w))
    = (Returns tt, snd (run init_ledger w)).
Proof.
  unfold init_ledger. simpl.
  destruct (files w VDC.LEDGER) as [c|] eqn:H; simpl.
  - rewrite H. repeat split; reflexivity.
  - unfold do_replace. simpl. repeat split; reflexivity.
Qed.

Lemma run_load_chain_exists (w : world) (c : content) :
  files w VDC.LEDGER = Some c ->
  run load_chain w =
  (match c with Document chain => Returns chain | Truncated _ _ => Exits 1 end,
   w).
Proof.
  intro H. unfold load_chain. simpl. rewrite H. simpl.
  unfold do_read. rewrite H. destruct c; reflexivity.
Qed.

(** X2.  When the ledger file exists, whatever it holds, the queries
    [get_balance], [get_current_supply] and [handle_balance] leave the world
    exactly as it was, whether they return, raise or exit. *)
Theorem X2_queries_are_read_only (wallet : string) (w : world) (c : content) :
  files w VDC.LEDGER = Some c ->
  snd (run (get_balance wallet) w) = w /\
  snd (run get_current_supply w) = w /\
  snd (run (handle_balance wallet) w) = w.
Proof.
  intro H.
  assert (Hb : snd (run (get_balance wallet) w) = w).
  { unfold get_balance. rewrite run_bind, (run_load_chain_exists _ _ H).
    destruct c as [chain|chain n]; [|reflexivity].
    rewrite run_bind, run_lift.
    destruct (balance_chain wallet 0 chain); reflexivity. }
  assert (Hs : snd (run get_current_supply w) = w).
  { unfold get_current_supply. rewrite run_bind, (run_load_chain_exists _ _ H).
    destruct c as [chain|chain n]; [|reflexivity].
    rewrite run_bind, run_lift.
    destruct (last_item chain); reflexivity. }
  split; [exact Hb|]. split; [exact Hs|].
  unfold handle_balance. rewrite run_bind.
  destruct (run (get_balance wallet) w) as [[b|e|code] w1] eqn:E;
    simpl in Hb; subst w1; try reflexivity.
  rewrite run_bind.
  destruct (run get_current_supply w) as [[s|e|code] w1] eqn:E';
    simpl in Hs; subst w1; reflexivity.
Qed.

Lemma X2_queries_are_read_only_witness :
  snd (run (get_balance "alice") funded_world) = funded_world /\
  snd (run get_current_supply funded_world) = funded_world /\
  snd (run (handle_balance "alice") funded_world) = funded_world.
Proof.
  destruct (run_commits_ledger_ok [[sample_mint "alice" 2.38488]] _
              (init_ledger_ok empty_world eq_refl)) as (chain & Hf & _).
  exact (X2_queries_are_read_only "alice" _ _ Hf).
Defined.

(** X3.  On a ledger file that holds a truncated text, [load_chain] leaves by
    [sys.exit(1)], and so do [get_balance], [get_current_supply], [commit]
    and [handle_redeem]: none of them writes anything, and none repairs the
    file. *)
Theorem X3_corrupt_ledger_exits (wallet : string) (amount : float)
    (transactions : list dict) (w : world) (chain : list dict) (n : nat) :
  files w VDC.LEDGER = Some (Truncated chain n) ->
  run load_chain w = (Exits 1, w) /\
  run (get_balance wallet) w = (Exits 1, w) /\
  run get_current_supply w = (Exits 1, w) /\
  run (commit transactions) w = (Exits 1, w) /\
  run (handle_redeem wallet amount) w = (Exits 1, w).
Proof.
  intro H.
  assert (Hl : run load_chain w = (Exits 1, w))
    by (rewrite (run_load_chain_exists _ _ H); reflexivity).
  assert (Hb : run (get_balance wallet) w = (Exits 1, w))
    by (unfold get_balance; rewrite run_bind, Hl; reflexivity).
  split; [exact Hl|]. split; [exact Hb|].
  split; [unfold get_current_supply; rewrite run_bind, Hl; reflexivity|].
  split; [unfold commit; rewrite run_bind, Hl; reflexivity|].
  unfold handle_redeem. rewrite run_bind, Hb. reflexivity.
Qed.

Lemma X3_corrupt_ledger_exits_witness :
  run (handle_redeem "alice" 1)
      (set_file empty_world VDC.LEDGER (Some (Truncated [genesis_block] 10)))
  = (Exits 1,
     set_file empty_world VDC.LEDGER (Some (Truncated [genesis_block] 10))).
Proof.
  apply (X3_corrupt_ledger_exits "alice" 1 []
           (set_file empty_world VDC.LEDGER (Some (Truncated [genesis_block] 10)))
           [genesis_block] 10).
  reflexivity.
Defined.

(** ** Commits on a ledger grown from the genesis block *)

Lemma persisted_tmp (chain : list dict) (w : world) :
  files (persisted w chain) "vdc_chain.tmp" = None.
Proof.
  unfold persisted, atomic_write. rewrite tmp_path. simpl.
  unfold do_replace. simpl. reflexivity.
Qed.

(** X4.  On a ledger grown from the genesis block by any commits, a commit is
    all or nothing: either it returns a block holding exactly the given
    transactions, the ledger file is the old chain with that one block
    appended and no temporary file is left; or it raises and leaves the world
    exactly as it was.  It never exits. *)
Theorem X4_commit_all_or_nothing (w0 : world) (batches : list (list dict))
    (transactions : list dict) :
  files w0 VDC.LEDGER = None ->
  let w := run_commits batches (snd (run init_ledger w0)) in
  exists chain,
    files w VDC.LEDGER = Some (Document chain) /\
    ((exists blk w',
        run (commit transactions) w = (Returns blk, w') /\
        files w' VDC.LEDGER = Some (Document (chain ++ [blk])) /\
        block_txs blk = transactions /\
        files w' "vdc_chain.tmp" = None) \/
     (exists e, run (commit transactions) w = (Raises e, w))).
Proof.
  intros H0 w.
  destruct (run_commits_ledger_ok batches _ (init_ledger_ok w0 H0))
    as (chain & Hf & Hv).
  fold w in Hf. exists chain. split; [exact Hf|].
  destruct (commit_valid transactions w chain Hf Hv)
    as [(prev & blk & _ & _ & _ & Htx & Hr) | Hraise]; [left | right; exact Hraise].
  exists blk. eexists. split; [exact Hr|].
  split; [apply persisted_ledger|]. split; [exact Htx | apply persisted_tmp].
Qed.

Lemma X4_commit_all_or_nothing_witness :
  let w := run_commits [[sample_mint "alice" 0.1]]
                       (snd (run init_ledger empty_world)) in
  exists chain,
    files w VDC.LEDGER = Some (Document chain) /\
    ((exists blk w',
        run (commit [sample_burn "alice" 0.05]) w = (Returns blk, w') /\
        files w' VDC.LEDGER = Some (Document (chain ++ [blk])) /\
        block_txs blk = [sample_burn "alice" 0.05] /\
        files w' "vdc_chain.tmp" = None) \/
     (exists e, run (commit [sample_burn "alice" 0.05]) w = (Raises e, w))).
Proof.
  apply (X4_commit_all_or_nothing empty_world [[sample_mint "alice" 0.1]]
           [sample_burn "alice" 0.05]).
  reflexivity.
Defined.

Lemma run_commits_app (b1 b2 : list (list dict)) (w : world) :
  run_commits (b1 ++ b2) w = run_commits b2 (run_commits b1 w).
Proof.
  revert w. induction b1 as [|t b1 IH]; intro w; simpl; [reflexivity | apply IH].
Qed.

Lemma run_commits_extend (batches : list (list dict)) (w : world)
    (chain : list dict) :
  files w VDC.LEDGER = Some (Document chain) ->
  valid_chain chain ->
  exists added,
    files (run_commits batches w) VDC.LEDGER = Some (Document (chain ++ added)) /\
    (List.length added <= List.length batches)%nat /\
    valid_chain (chain ++ added).
Proof.
  revert w chain.
  induction batches as [|t rest IH]; intros w chain Hf Hv.
  - exists []. rewrite app_nil_r.
    split; [exact Hf | split; [simpl; lia | exact Hv]].
  - cbn [run_commits].
    destruct (commit_valid t w chain Hf Hv)
      as [(prev & blk & Hl & Hs & _ & _ & Hr) | (e & Hr)]; rewrite Hr; cbn [snd].
    + destruct (IH (persisted (do_tick w) (chain ++ [blk])) (chain ++ [blk])
                  (persisted_ledger _ _)
                  (valid_commit _ _ _ Hv Hl Hs)) as (added & Hf' & Hlen & Hv').
      exists (blk :: added). rewrite <- app_assoc in Hf', Hv'.
      split; [exact Hf' | split; [simpl; lia | exact Hv']].
    + destruct (IH w chain Hf Hv) as (added & Hf' & Hlen & Hv').
      exists added. split; [exact Hf' | split; [simpl; lia | exact Hv']].
Qed.

(** X5.  The ledger is append-only: whatever commits follow, the chain read
    before them is a prefix of the chain read after them, and each commit adds
    at most one block. *)
Theorem X5_ledger_is_append_only (w0 : world)
    (earlier later : list (list dict)) :
  files w0 VDC.LEDGER = None ->
  let w1 := run_commits earlier (snd (run init_ledger w0)) in
  let w2 := run_commits (earlier ++ later) (snd (run init_ledger w0)) in
  exists chain added,
    run load_chain w1 = (Returns chain, w1) /\
    run load_chain w2 = (Returns (chain ++ added), w2) /\
    (List.length added <= List.length later)%nat.
Proof.
  intros H0 w1 w2.
  destruct (run_commits_ledger_ok earlier _ (init_ledger_ok w0 H0))
    as (chain & Hf & Hv).
  fold w1 in Hf.
  destruct (run_commits_extend later w1 chain Hf Hv) as (added & Hf' & Hlen & _).
  exists chain, added.
  split; [apply load_chain_present, Hf|].
  split; [|exact Hlen].
  apply load_chain_present. unfold w2. rewrite run_commits_app. exact Hf'.
Qed.

Lemma X5_ledger_is_append_only_witness :
  let w1 := run_commits [[sample_mint "alice" 0.1]]
                        (snd (run init_ledger empty_world)) in
  let w2 := run_commits ([[sample_mint "alice" 0.1]]
                           ++ [[sample_burn "alice" 0.05]])
                        (snd (run init_ledger empty_world)) in
  exists chain added,
    run load_chain w1 = (Returns chain, w1) /\
    run load_chain w2 = (Returns (chain ++ added), w2) /\
    (List.length added <= 1)%nat.
Proof.
  apply (X5_ledger_is_append_only empty_world [[sample_mint "alice" 0.1]]
           [[sample_burn "alice" 0.05]]).
  reflexivity.
Defined.

Lemma valid_chain_index (chain : list dict) :
  valid_chain chain ->
  forall i b, nth_error chain i = Some b ->
              dict_get b "index" = Some (VInt (Z.of_nat i)).
Proof.
  induction 1 as [|chain prev b0 Hv IH Hl Hs]; intros i b Hb.
  - destruct i as [|i]; [inversion Hb; reflexivity | destruct i; discriminate Hb].
  - destruct (last_item_nth _ _ Hl) as [front ->].
    destruct (Nat.lt_ge_cases i (List.length (front ++ [prev]))) as [Hlt | Hge].
    + rewrite nth_error_app1 in Hb by exact Hlt. exact (IH _ _ Hb).
    + rewrite nth_error_app2 in Hb by exact Hge.
      destruct (i - List.length (front ++ [prev]))%nat as [|k] eqn:E;
        [|destruct k; discriminate Hb].
      inversion Hb; subst b.
      destruct (successor_fields _ _ Hs) as (n & _ & _ & _ & Hn & _ & Hi & _).
      assert (Hp : nth_error (front ++ [prev]) (List.length front) = Some prev)
        by (rewrite nth_error_app2, Nat.sub_diag by lia; reflexivity).
      rewrite (IH _ _ Hp) in Hn. inversion Hn; subst n.
      rewrite Hi. rewrite length_app in E, Hge. simpl in E, Hge.
      do 2 f_equal. lia.
Qed.

(** X6.  In every chain grown from the genesis block, the [index] field of a
    block is its position in the chain, and the chain holds at most one block
    per commit besides the genesis block. *)
Theorem X6_index_is_position (w0 : world) (batches : list (list dict)) :
  files w0 VDC.LEDGER = None ->
  let w := run_commits batches (snd (run init_ledger w0)) in
  exists chain,
    run load_chain w = (Returns chain, w) /\
    (1 <= List.length chain <= 1 + List.length batches)%nat /\
    forall i b, nth_error chain i = Some b ->
                dict_get b "index" = Some (VInt (Z.of_nat i)).
Proof.
  intros H0 w.
  assert (Hg : files (snd (run init_ledger w0)) VDC.LEDGER
               = Some (Document [genesis_block])).
  { destruct (X1_init_ledger_idempotent w0) as (_ & Hi & _).
    rewrite Hi, H0. reflexivity. }
  destruct (run_commits_extend batches _ _ Hg valid_genesis)
    as (added & Hf & Hlen & Hv).
  fold w in Hf. exists ([genesis_block] ++ added).
  split; [apply load_chain_present, Hf|].
  split; [simpl; lia | apply valid_chain_index, Hv].
Qed.

Lemma X6_index_is_position_witness :
  let w := run_commits [[sample_mint "alice" 0.1]; [sample_burn "alice" 0.05]]
                       (snd (run init_ledger empty_world)) in
  exists chain,
    run load_chain w = (Returns chain, w) /\
    (1 <= List.length chain <= 1 + 2)%nat /\
    forall i b, nth_error chain i = Some b ->
                dict_get b "index" = Some (VInt (Z.of_nat i)).
Proof.
  apply (X6_index_is_position empty_world
           [[sample_mint "alice" 0.1]; [sample_burn "alice" 0.05]]).
  reflexivity.
Defined.

(** ** Reading after a commit *)

Lemma commit_reads (transactions : list dict) (w w' : world) (blk : dict) :
  run (commit transactions) w = (Returns blk, w') ->
  exists chain w1 supply,
    run load_chain w = (Returns chain, w1) /\
    w' = persisted (do_tick w1) (chain ++ [blk]) /\
    dict_get blk "supply" = Some supply /\
    dict_get_default blk "txs" (VList []) = VList (map VDict transactions).
Proof.
  intro H.
  destruct (commit_inv _ _ _ _ H)
    as (chain & w1 & prev & minted & burned & supply & with_minted & new_supply
        & prev_hash & index & index' & supply' & Hload & _ & _ & _ & _ & _ & _
        & _ & _ & _ & _ & Hblk & Hw).
  cbv zeta in Hblk.
  exists chain, w1, supply'.
  split; [exact Hload|]. split; [exact Hw|].
  rewrite Hblk. split; reflexivity.
Qed.

(** X7.  A commit that returns can be read back: [load_chain] then returns the
    chain it returned before with the new block at its end,
    [get_current_supply] returns the supply stored in the new block, and the
    temporary file is gone.  This holds from any world, also one without a
    ledger file. *)
Theorem X7_commit_then_read (transactions : list dict) (w w' : world)
    (blk : dict) :
  run (commit transactions) w = (Returns blk, w') ->
  exists chain supply,
    fst (run load_chain w) = Returns chain /\
    run load_chain w' = (Returns (chain ++ [blk]), w') /\
    dict_get blk "supply" = Some supply /\
    run get_current_supply w' = (Returns supply, w') /\
    files w' "vdc_chain.tmp" = None.
Proof.
  intro H.
  destruct (commit_reads _ _ _ _ H) as (chain & w1 & supply & Hload & Hw & Hs & _).
  assert (Hf : files w' VDC.LEDGER = Some (Document (chain ++ [blk])))
    by (rewrite Hw; apply persisted_ledger).
  exists chain, supply.
  split; [rewrite Hload; reflexivity|].
  split; [apply load_chain_present, Hf|].
  split; [exact Hs|].
  split; [|rewrite Hw; apply persisted_tmp].
  rewrite (run_get_current_supply w' (chain ++ [blk]) blk Hf).
  - unfold dict_get_default. rewrite Hs. reflexivity.
  - unfold last_item. rewrite rev_app_distr. reflexivity.
Qed.

Lemma X7_commit_then_read_witness :
  exists blk w' chain supply,
    run (commit [sample_mint "alice" 0.1]) empty_world = (Returns blk, w') /\
    fst (run load_chain empty_world) = Returns chain /\
    run load_chain w' = (Returns (chain ++ [blk]), w') /\
    dict_get blk "supply" = Some supply /\
    run get_current_supply w' = (Returns supply, w') /\
    files w' "vdc_chain.tmp" = None.
Proof.
  destruct (run (commit [sample_mint "alice" 0.1]) empty_world)
    as [[blk|e|c] w'] eqn:E.
  - destruct (X7_commit_then_read _ _ _ _ E) as (chain & supply & H).
    exists blk, w', chain, supply. split; [reflexivity | exact H].
  - apply (f_equal fst) in E. vm_compute in E. discriminate E.
  - apply (f_equal fst) in E. vm_compute in E. discriminate E.
Defined.

(** ** Balances *)

Lemma balance_txs_uncounted (wallet : string) (b : float)
    (transactions : list dict) :
  forallb (fun t => negb (counts_for wallet t)) transactions = true ->
  balance_txs wallet b (map VDict transactions) = Ok b.
Proof.
  induction transactions as [|t rest IH]; intro H; [reflexivity|].
  simpl in H. apply andb_prop in H. destruct H as [Ht Hrest].
  apply negb_true_iff in Ht. unfold counts_for, addressed_to, moves_supply in Ht.
  cbn [map balance_txs]. unfold balance_tx at 1. cbn [as_dict rbind].
  destruct (eq_str (dict_get t "wallet") wallet);
    [|cbn [rbind]; exact (IH Hrest)].
  destruct (eq_str (dict_get t "type") "MINT"); [discriminate Ht|].
  destruct (eq_str (dict_get t "type") "BURN"); [discriminate Ht|].
  cbn [rbind]. exact (IH Hrest).
Qed.

(** X8.  A wallet's balance moves only by the MINT and BURN transactions that
    name it: a committed block without such a transaction, whatever else it
    holds, leaves [get_balance] of that wallet with the same outcome as
    before the commit. *)
Theorem X8_uncounted_transactions_keep_balance (wallet : string)
    (transactions : list dict) (w w' : world) (blk : dict) :
  run (commit transactions) w = (Returns blk, w') ->
  forallb (fun t => negb (counts_for wallet t)) transactions = true ->
  fst (run (get_balance wallet) w') = fst (run (get_balance wallet) w).
Proof.
  intros H Hother.
  destruct (commit_reads _ _ _ _ H) as (chain & w1 & supply & Hload & Hw & _ & Htxs).
  assert (Hf : files w' VDC.LEDGER = Some (Document (chain ++ [blk])))
    by (rewrite Hw; apply persisted_ledger).
  rewrite (run_get_balance _ _ _ Hf), balance_chain_app.
  unfold get_balance at 1. rewrite run_bind, Hload, run_bind, run_lift.
  destruct (balance_chain wallet 0 chain) as [b0|e]; [|reflexivity].
  cbn [rbind balance_chain]. unfold balance_block. rewrite Htxs.
  cbn [py_iter rbind]. rewrite (balance_txs_uncounted _ _ _ Hother).
  reflexivity.
Qed.

(** A mint for another wallet and a transfer note naming the wallet. *)
Lemma X8_uncounted_transactions_keep_balance_witness :
  let batch := [ sample_mint "bob" 0.5;
                 [ ("type", VStr "NOTE"); ("wallet", VStr "alice");
                   ("amount", VFloat 7) ] ] in
  exists blk w',
    run (commit batch) funded_world = (Returns blk, w') /\
    fst (run (get_balance "alice") w')
      = fst (run (get_balance "alice") funded_world).
Proof.
  intro batch.
  destruct (run (commit batch) funded_world) as [[blk|e|c] w'] eqn:E.
  - exists blk, w'. split; [reflexivity|].
    apply (X8_uncounted_transactions_keep_balance "alice" batch _ _ _ E).
    reflexivity.
  - apply (f_equal fst) in E. vm_compute in E. discriminate E.
  - apply (f_equal fst) in E. vm_compute in E. discriminate E.
Defined.

(** ** Floats that are not numbers, and signs *)

Lemma float_nan_unique (x : float) : (x =? x)%float = false -> x = nan.
Proof.
  intro H. apply Prim2SF_inj. rewrite FloatAxioms.eqb_spec in H.
  destruct (Prim2SF x) as [s|s| |s m e] eqn:E; simpl in H.
  - destruct s; discriminate H.
  - destruct s; discriminate H.
  - reflexivity.
  - unfold SFeqb, SFcompare in H.
    rewrite Z.compare_refl, Pos.compare_cont_refl in H.
    destruct s; discriminate H.
Qed.

Lemma float_sub_nan (x : float) : (x - nan)%float = nan.
Proof.
  apply Prim2SF_inj. rewrite sub_spec.
  destruct (Prim2SF x) as [s|s| |s m e]; try destruct s; reflexivity.
Qed.

Lemma float_ltb_nan_r (x : float) : (x <? nan)%float = false.
Proof.
  rewrite ltb_spec.
  destruct (Prim2SF x) as [s|s| |s m e]; try destruct s; reflexivity.
Qed.

Lemma float_ltb_nan_l (x : float) : (nan <? x)%float = false.
Proof.
  rewrite ltb_spec.
  destruct (Prim2SF x) as [s|s| |s m e]; try destruct s; reflexivity.
Qed.

Lemma float_div_nan_l (x : float) : (nan / x)%float = nan.
Proof.
  apply Prim2SF_inj. rewrite div_spec.
  destruct (Prim2SF x) as [s|s| |s m e]; try destruct s; reflexivity.
Qed.

Lemma float_negative_below (a b : float) :
  (a <? 0)%float = true -> (0 <=? b)%float = true -> (b <? a)%float = false.
Proof.
  rewrite !ltb_spec, leb_spec.
  change (Prim2SF 0) with (S754_zero false).
  destruct (Prim2SF a) as [sa|sa| |sa ma ea], (Prim2SF b) as [sb|sb| |sb mb eb];
    try destruct sa; try destruct sb; simpl; intros Ha Hb;
    try discriminate Ha; try discriminate Hb; reflexivity.
Qed.

(** ** Redemptions *)

(** The run of a redemption that is not rejected, on a ledger grown from the
    genesis block: [b0] is the sum [get_balance] rounds, [s] the supply of the
    last block. *)
Lemma redeem_run (wallet : string) (amount : float) (w : world)
    (chain : list dict) (b0 : float) :
  files w VDC.LEDGER = Some (Document chain) ->
  valid_chain chain ->
  balance_chain wallet 0 chain = Ok b0 ->
  (float_round b0 8 <? amount)%float = false ->
  exists prev s burn_tx blk basket ship_id,
    last_item chain = Ok prev /\
    dict_get prev "supply" = Some (VFloat s) /\
    successor prev blk /\
    dict_get burn_tx "type" = Some (VStr "BURN") /\
    dict_get burn_tx "wallet" = Some (VStr wallet) /\
    dict_get burn_tx "amount" = Some (VFloat (float_round amount 8)) /\
    block_txs blk = [burn_tx] /\
    dict_get blk "supply" =
      Some (VFloat (float_round (s + 0 - (0 + float_round amount 8)) 8)) /\
    run (handle_redeem wallet amount) w =
      (Returns (Redeemed burn_tx blk basket ship_id
                  (float_round (b0 - float_round amount 8) 8)),
       persisted (do_tick (do_tick (do_tick w))) (chain ++ [blk])) /\
    balance_chain wallet 0 (chain ++ [blk]) = Ok (b0 - float_round amount 8)%float.
Proof.
  intros Hf Hv Hb0 Hlt.
  assert (Hbal : run (get_balance wallet) w = (Returns (float_round b0 8), w))
    by (rewrite (run_get_balance _ _ _ Hf), Hb0; reflexivity).
  destruct (valid_chain_last _ Hv) as (prev & i & s & h & Hl & Hi & Hs & Hh).
  destruct (run_create_burn_tx wallet amount w)
    as (burn_tx & basket & ship_id & Hrun & Ht & Hw & Ha & Hbk & Hsh).
  set (w1 := do_tick (do_tick w)) in *.
  assert (Hf1 : files w1 VDC.LEDGER = Some (Document chain)) by exact Hf.
  pose proof (commit_run [burn_tx] w1 chain prev i s h Hf1 Hl Hi Hs Hh) as Hc.
  pose proof (next_supply_burn s _ burn_tx Ht Ha) as Hn.
  rewrite Hn in Hc. cbv zeta in Hc.
  set (data := block_data (i + 1) (clock w1 (ticks w1)) [burn_tx] _ h) in Hc.
  set (blk := data ++ [("block_hash", VStr (_hash_block_data data))]) in Hc.
  set (w' := persisted (do_tick w1) (chain ++ [blk])) in Hc.
  assert (Hf' : files w' VDC.LEDGER = Some (Document (chain ++ [blk])))
    by apply persisted_ledger.
  assert (Hchain : balance_chain wallet 0 (chain ++ [blk])
                   = Ok (b0 - float_round amount 8)%float).
  { rewrite balance_chain_app, Hb0. simpl balance_chain.
    unfold blk, data. cbn [rbind].
    rewrite (balance_block_burn wallet b0 _ _ _ _ _ _ burn_tx Ht Hw Ha).
    reflexivity. }
  exists prev, s, burn_tx, blk, basket, ship_id.
  split; [exact Hl|]. split; [exact Hs|].
  split.
  { destruct (next_supply_inv _ _ _ Hn) as (minted & burned & Hm & Hbn & Hsum).
    exists i, s, h, [burn_tx], (clock w1 (ticks w1)), minted, burned,
      (s + 0 - (0 + float_round amount 8))%float.
    repeat (split; [assumption|]). reflexivity. }
  repeat (split; [assumption|]).
  split; [apply block_txs_data|].
  split; [reflexivity|].
  split; [|exact Hchain].
  unfold handle_redeem. rewrite run_bind, Hbal, Hlt.
  rewrite run_bind, run_try_except, run_bind, Hrun, run_bind, Hc.
  change (run (Ret (inl (burn_tx, blk))) w')
    with (Returns (inl (B := exn) (burn_tx, blk)), w').
  cbv iota beta.
  rewrite run_bind, run_lift, Hbk, run_bind, run_lift, Hsh.
  rewrite run_bind, (run_get_balance _ _ _ Hf'), Hchain.
  reflexivity.
Qed.

Lemma funded_chain :
  exists chain,
    files funded_world VDC.LEDGER = Some (Document chain) /\
    valid_chain chain /\
    balance_chain "alice" 0 chain = Ok 2.38488%float.
Proof.
  destruct (run_commits_ledger_ok [[sample_mint "alice" 2.38488]] _
              (init_ledger_ok empty_world eq_refl)) as (chain & Hf & Hv).
  fold funded_world in Hf.
  exists chain. split; [exact Hf|]. split; [exact Hv|].
  assert (Hc : files funded_world VDC.LEDGER
               = Some (Document
                         (match files funded_world VDC.LEDGER with
                          | Some (Document c) => c
                          | _ => []
                          end))) by (rewrite Hf; reflexivity).
  rewrite Hf in Hc at 1. injection Hc as ->.
  vm_compute. reflexivity.
Qed.

(** X9.  A redemption that is not rejected burns [round(amount, 8)], not
    [amount]: afterwards the wallet's balance is the old unrounded sum less
    the rounded amount, rounded to 8 places, and the total supply is the old
    supply less the rounded amount, rounded to 8 places.  The balance printed
    by the redemption is the balance a later query returns. *)
Theorem X9_redeem_burns_rounded_amount (wallet : string) (amount : float)
    (w : world) (chain : list dict) (b0 : float) :
  files w VDC.LEDGER = Some (Document chain) ->
  valid_chain chain ->
  balance_chain wallet 0 chain = Ok b0 ->
  (float_round b0 8 <? amount)%float = false ->
  let burned := float_round amount 8 in
  exists s burn_tx blk basket ship_id w',
    run get_current_supply w = (Returns (VFloat s), w) /\
    run (handle_redeem wallet amount) w =
      (Returns (Redeemed burn_tx blk basket ship_id
                  (float_round (b0 - burned) 8)), w') /\
    run (get_balance wallet) w' = (Returns (float_round (b0 - burned) 8), w') /\
    run get_current_supply w' =
      (Returns (VFloat (float_round (s + 0 - (0 + burned)) 8)), w').
Proof.
  intros Hf Hv Hb0 Hlt burned.
  destruct (redeem_run wallet amount w chain b0 Hf Hv Hb0 Hlt)
    as (prev & s & burn_tx & blk & basket & ship_id & Hl & Hs & _ & _ & _ & _
        & _ & Hsup & Hrun & Hchain).
  set (w' := persisted (do_tick (do_tick (do_tick w))) (chain ++ [blk])) in *.
  assert (Hf' : files w' VDC.LEDGER = Some (Document (chain ++ [blk])))
    by apply persisted_ledger.
  exists s, burn_tx, blk, basket, ship_id, w'.
  split.
  { rewrite (run_get_current_supply w chain prev Hf Hl).
    unfold dict_get_default. rewrite Hs. reflexivity. }
  split; [exact Hrun|].
  split; [rewrite (run_get_balance _ _ _ Hf'), Hchain; reflexivity|].
  rewrite (run_get_current_supply w' (chain ++ [blk]) blk Hf').
  - unfold dict_get_default. rewrite Hsup. reflexivity.
  - unfold last_item. rewrite rev_app_distr. reflexivity.
Qed.

Lemma X9_redeem_burns_rounded_amount_witness :
  exists chain s burn_tx blk basket ship_id w',
    files funded_world VDC.LEDGER = Some (Document chain) /\
    run get_current_supply funded_world = (Returns (VFloat s), funded_world) /\
    run (handle_redeem "alice" 2) funded_world =
      (Returns (Redeemed burn_tx blk basket ship_id
                  (float_round (2.38488 - float_round 2 8) 8)), w') /\
    run (get_balance "alice") w' =
      (Returns (float_round (2.38488 - float_round 2 8) 8), w') /\
    run get_current_supply w' =
      (Returns (VFloat (float_round (s + 0 - (0 + float_round 2 8)) 8)), w').
Proof.
  destruct funded_chain as (chain & Hf & Hv & Hb).
  destruct (X9_redeem_burns_rounded_amount "alice" 2 funded_world chain
              2.38488 Hf Hv Hb eq_refl)
    as (s & burn_tx & blk & basket & ship_id & w' & H).
  exists chain, s, burn_tx, blk, basket, ship_id, w'.
  split; [exact Hf | exact H].
Defined.

(** X10.  The sign of the amount is not checked: a redemption of an amount
    below zero is never rejected when the balance is not below zero.  It
    commits a BURN transaction of [round(amount, 8)] in a new block. *)
Theorem X10_redeem_accepts_negative_amount (wallet : string)
    (amount balance : float) (w : world) (chain : list dict) :
  files w VDC.LEDGER = Some (Document chain) ->
  valid_chain chain ->
  run (get_balance wallet) w = (Returns balance, w) ->
  (0 <=? balance)%float = true ->
  (amount <? 0)%float = true ->
  exists burn_tx blk basket ship_id new_balance w',
    run (handle_redeem wallet amount) w =
      (Returns (Redeemed burn_tx blk basket ship_id new_balance), w') /\
    dict_get burn_tx "type" = Some (VStr "BURN") /\
    dict_get burn_tx "amount" = Some (VFloat (float_round amount 8)) /\
    block_txs blk = [burn_tx] /\
    files w' VDC.LEDGER = Some (Document (chain ++ [blk])).
Proof.
  intros Hf Hv Hbal Hpos Hneg.
  rewrite (run_get_balance _ _ _ Hf) in Hbal.
  destruct (balance_chain wallet 0 chain) as [b0|] eqn:Hb0; [|discriminate Hbal].
  injection Hbal as Hbal. subst balance.
  destruct (redeem_run wallet amount w chain b0 Hf Hv Hb0
              (float_negative_below _ _ Hneg Hpos))
    as (prev & s & burn_tx & blk & basket & ship_id & _ & _ & _ & Ht & _ & Ha
        & Htx & _ & Hrun & _).
  exists burn_tx, blk, basket, ship_id, (float_round (b0 - float_round amount 8) 8).
  eexists. split; [exact Hrun|].
  split; [exact Ht|]. split; [exact Ha|]. split; [exact Htx|].
  apply persisted_ledger.
Qed.

(** On a balance of 2.38488 a redemption of -5 is committed. *)
Lemma X10_redeem_accepts_negative_amount_witness :
  exists chain burn_tx blk basket ship_id new_balance w',
    run (handle_redeem "alice" (-5)) funded_world =
      (Returns (Redeemed burn_tx blk basket ship_id new_balance), w') /\
    dict_get burn_tx "type" = Some (VStr "BURN") /\
    dict_get burn_tx "amount" = Some (VFloat (float_round (-5) 8)) /\
    block_txs blk = [burn_tx] /\
    files w' VDC.LEDGER = Some (Document (chain ++ [blk])).
Proof.
  destruct funded_chain as (chain & Hf & Hv & Hb).
  assert (Hbal : run (get_balance "alice") funded_world
                 = (Returns 2.38488%float, funded_world)).
  { rewrite (run_get_balance _ _ _ Hf), Hb. f_equal. }
  destruct (X10_redeem_accepts_negative_amount "alice" (-5) 2.38488
              funded_world chain Hf Hv Hbal eq_refl eq_refl)
    as (burn_tx & blk & basket & ship_id & new_balance & w' & H).
  exists chain, burn_tx, blk, basket, ship_id, new_balance, w'. exact H.
Defined.

(** X11.  An amount that is not a number is never rejected, whatever the
    balance: the redemption is committed, and from then on the total supply
    and the balance of the wallet are not numbers either, so that no later
    redemption from this wallet is rejected. *)
Theorem X11_redeem_nan_poisons_ledger (wallet : string)
    (amount balance : float) (w : world) (chain : list dict) :
  files w VDC.LEDGER = Some (Document chain) ->
  valid_chain chain ->
  run (get_balance wallet) w = (Returns balance, w) ->
  (amount =? amount)%float = false ->
  exists burn_tx blk basket ship_id w',
    run (handle_redeem wallet amount) w =
      (Returns (Redeemed burn_tx blk basket ship_id nan), w') /\
    run get_current_supply w' = (Returns (VFloat nan), w') /\
    run (get_balance wallet) w' = (Returns nan, w') /\
    forall later,
      exists burn_tx' blk' basket' ship_id' w'',
        run (handle_redeem wallet later) w' =
          (Returns (Redeemed burn_tx' blk' basket' ship_id' nan), w'').
Proof.
  intros Hf Hv Hbal Hnan.
  apply float_nan_unique in Hnan. subst amount.
  rewrite (run_get_balance _ _ _ Hf) in Hbal.
  destruct (balance_chain wallet 0 chain) as [b0|] eqn:Hb0; [|discriminate Hbal].
  clear Hbal.
  assert (Hr : float_round nan 8 = nan) by (vm_compute; reflexivity).
  destruct (redeem_run wallet nan w chain b0 Hf Hv Hb0 (float_ltb_nan_r _))
    as (prev & s & burn_tx & blk & basket & ship_id & Hl & _ & Hsucc & _ & _ & _
        & _ & Hsup & Hrun & Hchain).
  rewrite Hr in Hsup, Hrun, Hchain.
  change (0 + nan)%float with nan in Hsup.
  rewrite float_sub_nan in Hsup, Hrun, Hchain. rewrite Hr in Hsup, Hrun.
  set (w' := persisted (do_tick (do_tick (do_tick w))) (chain ++ [blk])) in *.
  assert (Hf' : files w' VDC.LEDGER = Some (Document (chain ++ [blk])))
    by apply persisted_ledger.
  assert (Hv' : valid_chain (chain ++ [blk]))
    by exact (valid_commit _ _ _ Hv Hl Hsucc).
  exists burn_tx, blk, basket, ship_id, w'.
  split; [exact Hrun|].
  split.
  { rewrite (run_get_current_supply w' (chain ++ [blk]) blk Hf').
    - unfold dict_get_default. rewrite Hsup. reflexivity.
    - unfold last_item. rewrite rev_app_distr. reflexivity. }
  split; [rewrite (run_get_balance _ _ _ Hf'), Hchain, Hr; reflexivity|].
  intro later.
  assert (Hlt : (float_round nan 8 <? later)%float = false)
    by (rewrite Hr; apply float_ltb_nan_l).
  destruct (redeem_run wallet later w' (chain ++ [blk]) nan Hf' Hv' Hchain Hlt)
    as (_ & _ & burn_tx' & blk' & basket' & ship_id' & _ & _ & _ & _ & _ & _
        & _ & _ & Hrun' & _).
  assert (Hn : (nan - float_round later 8)%float = nan).
  { apply Prim2SF_inj. rewrite sub_spec. reflexivity. }
  rewrite Hn, Hr in Hrun'.
  exists burn_tx', blk', basket', ship_id'. eexists. exact Hrun'.
Qed.

Lemma X11_redeem_nan_poisons_ledger_witness :
  exists burn_tx blk basket ship_id w',
    run (handle_redeem "alice" nan) funded_world =
      (Returns (Redeemed burn_tx blk basket ship_id nan), w') /\
    run get_current_supply w' = (Returns (VFloat nan), w') /\
    run (get_balance "alice") w' = (Returns nan, w') /\
    forall later,
      exists burn_tx' blk' basket' ship_id' w'',
        run (handle_redeem "alice" later) w' =
          (Returns (Redeemed burn_tx' blk' basket' ship_id' nan), w'').
Proof.
  destruct funded_chain as (chain & Hf & Hv & Hb).
  assert (Hbal : run (get_balance "alice") funded_world
                 = (Returns 2.38488%float, funded_world)).
  { rewrite (run_get_balance _ _ _ Hf), Hb. f_equal. }
  exact (X11_redeem_nan_poisons_ledger "alice" nan 2.38488 funded_world chain
           Hf Hv Hbal eq_refl).
Defined.

(** ** Mints *)






(** X13.  An energy reading that is not a number passes both checks of the
    validator, whatever the other measurements are; the mint then fails in
    [create_mint_tx], where [round(joules)] raises [ValueError], the failure
    is reported and nothing is committed. *)
Theorem X13_nan_reading_is_accepted_not_minted (wallet : string)
    (kcal distance elevation mass gravity : float)
    (ots_txid proof_name : string) (w : world) :
  (kcal =? kcal)%float = false ->
  snd (compute_joules distance elevation mass gravity kcal) = true /\
  run (create_mint_tx wallet
         (fst (compute_joules distance elevation mass gravity kcal)
            * VDC.ALPHA_JOULES_TO_VDC)
         (fst (compute_joules distance elevation mass gravity kcal))
         ots_txid proof_name) w = (Raises ValueError, w) /\
  run (handle_mint wallet kcal distance elevation mass gravity
                   ots_txid proof_name) w
    = (Returns (MintCommitFailure ValueError), w).
Proof.
  intro Hnan. apply float_nan_unique in Hnan. subst kcal.
  assert (Hvalid : snd (compute_joules distance elevation mass gravity nan) = true).
  { unfold compute_joules, minimum_work_alert, divergence_alert.
    change (nan * VDC.JOULES_PER_KCAL)%float with nan.
    rewrite float_div_nan_l. reflexivity. }
  split; [exact Hvalid|].
  assert (Hraise : forall amount,
             run (create_mint_tx wallet amount nan ots_txid proof_name) w
             = (Raises ValueError, w)) by reflexivity.
  split; [apply Hraise|].
  unfold handle_mint.
  rewrite (surjective_pairing (compute_joules distance elevation mass gravity nan)).
  rewrite Hvalid.
  change (fst (compute_joules distance elevation mass gravity nan)) with nan.
  cbn [negb].
  rewrite run_bind, run_try_except, run_bind, Hraise. reflexivity.
Qed.

Lemma X13_nan_reading_is_accepted_not_minted_witness :
  snd (compute_joules 5000 60 75 9.81 nan) = true /\
  run (create_mint_tx "alice"
         (fst (compute_joules 5000 60 75 9.81 nan) * VDC.ALPHA_JOULES_TO_VDC)
         (fst (compute_joules 5000 60 75 9.81 nan))
         "BTC-OTS-0" "alice_0") funded_world = (Raises ValueError, funded_world) /\
  run (handle_mint "alice" nan 5000 60 75 9.81 "BTC-OTS-0" "alice_0") funded_world
    = (Returns (MintCommitFailure ValueError), funded_world).
Proof.
  apply (X13_nan_reading_is_accepted_not_minted "alice" nan 5000 60 75 9.81
           "BTC-OTS-0" "alice_0" funded_world).
  reflexivity.
Defined.

(** ** Commits that cannot fail *)

Lemma py_add_float_or_zero (a b : value) :
  float_or_zero a = true -> float_or_zero b = true ->
  exists r, py_add a b = Ok r /\ float_or_zero r = true.
Proof.
  destruct a as [[| |]|x| | |], b as [[| |]|y| | |]; try discriminate;
    intros _ _; unfold py_add, py_arith; try rewrite float_of_int_0;
    eexists; (split; [reflexivity|reflexivity]).
Qed.

Lemma py_sum_from_float_or_zero (xs : list value) (acc : value) :
  float_or_zero acc = true ->
  forallb float_or_zero xs = true ->
  exists r, py_sum_from acc xs = Ok r /\ float_or_zero r = true.
Proof.
  revert acc. induction xs as [|x xs IH]; intros acc Hacc Hxs.
  - exists acc. split; [reflexivity | exact Hacc].
  - simpl in Hxs. apply andb_prop in Hxs. destruct Hxs as [Hx Hxs].
    destruct (py_add_float_or_zero acc x Hacc Hx) as (r & Hr & Hsmall).
    cbn [py_sum_from]. rewrite Hr. cbn [rbind]. exact (IH r Hsmall Hxs).
Qed.

Lemma sum_amounts_float_or_zero (kind : string) (transactions : list dict) :
  forallb amount_is_float transactions = true ->
  exists r, sum_amounts kind transactions = Ok r /\ float_or_zero r = true.
Proof.
  intro H. unfold sum_amounts, py_sum.
  apply py_sum_from_float_or_zero; [reflexivity|].
  induction transactions as [|t rest IH]; [reflexivity|].
  simpl in H. apply andb_prop in H. destruct H as [Ht Hrest].
  cbn [filter]. destruct (eq_str (dict_get t "type") kind); [|exact (IH Hrest)].
  cbn [map forallb]. rewrite (IH Hrest), andb_true_r.
  unfold amount_is_float in Ht. unfold dict_get_default.
  destruct (dict_get t "amount") as [[n|x|s|l|d]|]; try discriminate Ht;
    reflexivity.
Qed.

Lemma next_supply_float_amounts (s : float) (transactions : list dict) :
  forallb amount_is_float transactions = true ->
  exists s', next_supply s transactions = Ok s'.
Proof.
  intro H. unfold next_supply.
  destruct (sum_amounts_float_or_zero "MINT" transactions H) as (m & -> & Hm).
  destruct (sum_amounts_float_or_zero "BURN" transactions H) as (b & -> & Hb).
  cbn [rbind].
  destruct m as [[| |]|x| | |]; try discriminate Hm;
    destruct b as [[| |]|y| | |]; try discriminate Hb;
    unfold py_add, py_sub, py_arith; try rewrite float_of_int_0;
    cbn [rbind]; try rewrite float_of_int_0; cbn [rbind];
    eexists; reflexivity.
Qed.

(** X14.  On a ledger grown from the genesis block, a commit cannot fail when
    every transaction carries a float amount or no amount at all and is a
    dict [json.dumps] accepts (no [int] of more than 4300 digits, nested at
    most eight levels deep), whatever its other fields are: it returns a
    block with exactly these transactions.  In particular a commit of no
    transactions appends an empty block. *)
Theorem X14_commit_of_float_amounts_succeeds (w0 : world)
    (batches : list (list dict)) (transactions : list dict) :
  files w0 VDC.LEDGER = None ->
  forallb amount_is_float transactions = true ->
  json_ok_txs transactions = true ->
  let w := run_commits batches (snd (run init_ledger w0)) in
  exists chain blk w',
    files w VDC.LEDGER = Some (Document chain) /\
    run (commit transactions) w = (Returns blk, w') /\
    block_txs blk = transactions /\
    files w' VDC.LEDGER = Some (Document (chain ++ [blk])).
Proof.
  intros H0 Hfloat _ w.
  destruct (run_commits_ledger_ok batches _ (init_ledger_ok w0 H0))
    as (chain & Hf & Hv).
  fold w in Hf.
  destruct (valid_chain_last _ Hv) as (prev & i & s & h & Hl & Hi & Hs & Hh).
  pose proof (commit_run transactions w chain prev i s h Hf Hl Hi Hs Hh) as Hc.
  destruct (next_supply_float_amounts s transactions Hfloat) as (s' & Hn).
  rewrite Hn in Hc. cbv zeta in Hc.
  exists chain. do 2 eexists.
  split; [exact Hf|]. split; [exact Hc|].
  split; [apply block_txs_data | apply persisted_ledger].
Qed.

(** A mint whose other fields hold a string, a negative int and a nested
    dict, and a commit of no transactions. *)
Lemma X14_commit_of_float_amounts_succeeds_witness :
  let w := run_commits [[sample_mint "alice" 0.1]]
                       (snd (run init_ledger empty_world)) in
  let tx := [ ("type", VStr "MINT"); ("wallet", VStr "bob");
              ("amount", VFloat 0.5); ("joules", VInt (-7));
              ("validation_proof", VDict [("protocol", VStr "PoM")]) ] in
  (exists chain blk w',
     files w VDC.LEDGER = Some (Document chain) /\
     run (commit [tx]) w = (Returns blk, w') /\
     block_txs blk = [tx] /\
     files w' VDC.LEDGER = Some (Document (chain ++ [blk]))) /\
  (exists chain blk w',
     files w VDC.LEDGER = Some (Document chain) /\
     run (commit []) w = (Returns blk, w') /\
     block_txs blk = [] /\
     files w' VDC.LEDGER = Some (Document (chain ++ [blk]))).
Proof.
  intros w tx. split.
  - apply (X14_commit_of_float_amounts_succeeds empty_world
             [[sample_mint "alice" 0.1]] [tx]);
      [reflexivity | reflexivity | vm_compute; reflexivity].
  - apply (X14_commit_of_float_amounts_succeeds empty_world
             [[sample_mint "alice" 0.1]] []); reflexivity.
Defined.

(** ** Ledger files no commit could have written *)

(** X15.  When the ledger file holds the empty list, the balance of every
    wallet is 0.0 while [get_current_supply] and [commit] raise [IndexError]
    and change nothing; a redemption of an amount above zero is rejected, and
    any other redemption reports the failure of its commit and leaves the
    ledger file as it was. *)
Theorem X15_empty_chain (wallet : string) (amount : float)
    (transactions : list dict) (w : world) :
  files w VDC.LEDGER = Some (Document []) ->
  run (get_balance wallet) w = (Returns 0%float, w) /\
  run get_current_supply w = (Raises IndexError, w) /\
  run (handle_balance wallet) w = (Raises IndexError, w) /\
  run (commit transactions) w = (Raises IndexError, w) /\
  fst (run (handle_redeem wallet amount) w) =
    Returns (if (0 <? amount)%float then BurnRejected amount 0
             else BurnCommitFailure IndexError) /\
  files (snd (run (handle_redeem wallet amount) w)) VDC.LEDGER
    = Some (Document []).
Proof.
  intro Hf.
  assert (Hload : forall w1, files w1 VDC.LEDGER = Some (Document []) ->
                             run load_chain w1 = (Returns [], w1))
    by (intros w1 H1; apply load_chain_present, H1).
  assert (Hbal : run (get_balance wallet) w = (Returns 0%float, w))
    by (rewrite (run_get_balance _ _ _ Hf); reflexivity).
  assert (Hsup : run get_current_supply w = (Raises IndexError, w))
    by (unfold get_current_supply; rewrite run_bind, (Hload w Hf); reflexivity).
  assert (Hcommit : forall txs w1, files w1 VDC.LEDGER = Some (Document []) ->
                                   run (commit txs) w1 = (Raises IndexError, w1))
    by (intros txs w1 H1; unfold commit; rewrite run_bind, (Hload w1 H1);
        reflexivity).
  split; [exact Hbal|]. split; [exact Hsup|].
  split; [unfold handle_balance; rewrite run_bind, Hbal, run_bind, Hsup;
          reflexivity|].
  split; [apply Hcommit, Hf|].
  unfold handle_redeem. rewrite run_bind, Hbal.
  destruct (0 <? amount)%float; [split; [reflexivity | exact Hf]|].
  destruct (run_create_burn_tx wallet amount w)
    as (burn_tx & basket & ship_id & Hrun & _).
  rewrite run_bind, run_try_except, run_bind, Hrun, run_bind.
  rewrite (Hcommit [burn_tx] (do_tick (do_tick w)) Hf).
  split; [reflexivity | exact Hf].
Qed.

Lemma X15_empty_chain_witness :
  let w := set_file empty_world VDC.LEDGER (Some (Document [])) in
  run (get_balance "alice") w = (Returns 0%float, w) /\
  run get_current_supply w = (Raises IndexError, w) /\
  run (handle_balance "alice") w = (Raises IndexError, w) /\
  run (commit [sample_mint "alice" 0.1]) w = (Raises IndexError, w) /\
  fst (run (handle_redeem "alice" 0) w) =
    Returns (if (0 <? 0)%float then BurnRejected 0 0
             else BurnCommitFailure IndexError) /\
  files (snd (run (handle_redeem "alice" 0) w)) VDC.LEDGER
    = Some (Document []).
Proof.
  apply (X15_empty_chain "alice" 0 [sample_mint "alice" 0.1]
           (set_file empty_world VDC.LEDGER (Some (Document [])))).
  reflexivity.
Defined.

(** X16.  When the last block of the ledger file has no [supply] field,
    [get_current_supply] answers 0.0 but no commit can succeed: every commit
    raises and changes nothing.  It raises [KeyError] whenever both sums of
    amounts can be computed, whatever the amounts are, and otherwise the
    exception of the first sum that fails. *)
Theorem X16_missing_supply (transactions : list dict) (w : world)
    (chain : list dict) (last : dict) :
  files w VDC.LEDGER = Some (Document chain) ->
  last_item chain = Ok last ->
  dict_get last "supply" = None ->
  run get_current_supply w = (Returns (VFloat 0), w) /\
  run (commit transactions) w =
    (Raises (match sum_amounts "MINT" transactions with
             | Raise e => e
             | Ok _ => match sum_amounts "BURN" transactions with
                       | Raise e => e
                       | Ok _ => KeyError
                       end
             end), w) /\
  (forall minted burned,
     sum_amounts "MINT" transactions = Ok minted ->
     sum_amounts "BURN" transactions = Ok burned ->
     run (commit transactions) w = (Raises KeyError, w)).
Proof.
  intros Hf Hl Hs.
  split.
  { rewrite (run_get_current_supply w chain last Hf Hl).
    unfold dict_get_default. rewrite Hs. reflexivity. }
  assert (Hrun : run (commit transactions) w =
                 (Raises (match sum_amounts "MINT" transactions with
                          | Raise e => e
                          | Ok _ => match sum_amounts "BURN" transactions with
                                    | Raise e => e
                                    | Ok _ => KeyError
                                    end
                          end), w)).
  { unfold commit. rewrite run_bind, (load_chain_present _ _ Hf).
    rewrite run_bind, run_lift, Hl, run_bind, run_lift.
    destruct (sum_amounts "MINT" transactions); [|reflexivity].
    rewrite run_bind, run_lift.
    destruct (sum_amounts "BURN" transactions); [|reflexivity].
    rewrite run_bind, run_lift. unfold dict_item. rewrite Hs. reflexivity. }
  split; [exact Hrun|].
  intros minted burned Hm Hb. rewrite Hrun, Hm, Hb. reflexivity.
Qed.

(** A mint of the [int] amount 5, and a mint whose amount is a string. *)
Lemma X16_missing_supply_witness :
  let w := set_file empty_world VDC.LEDGER
             (Some (Document [[("index", VInt 0); ("block_hash", VStr "h")]])) in
  let five := [ ("type", VStr "MINT"); ("wallet", VStr "alice");
                ("amount", VInt 5) ] in
  let text := [ ("type", VStr "MINT"); ("wallet", VStr "alice");
                ("amount", VStr "five") ] in
  run get_current_supply w = (Returns (VFloat 0), w) /\
  run (commit [five]) w = (Raises KeyError, w) /\
  run (commit [text]) w = (Raises TypeError, w).
Proof.
  intros w five text.
  assert (Hfive := X16_missing_supply [five] w
            [[("index", VInt 0); ("block_hash", VStr "h")]]
            [("index", VInt 0); ("block_hash", VStr "h")]
            eq_refl eq_refl eq_refl).
  assert (Htext := X16_missing_supply [text] w
            [[("index", VInt 0); ("block_hash", VStr "h")]]
            [("index", VInt 0); ("block_hash", VStr "h")]
            eq_refl eq_refl eq_refl).
  split; [exact (proj1 Hfive)|].
  split; [exact (proj1 (proj2 Hfive)) | exact (proj1 (proj2 Htext))].
Defined.

(** ** The first start *)

Lemma moment_init_ledger (w w' : world) :
  files w VDC.LEDGER = None ->
  moment init_ledger w w' ->
  files w' VDC.LEDGER = None \/
  w' = persisted (do_mkdir VDC.PROOFS w) [genesis_block].
Proof.
  intros Hf H.
  assert (Hd : files (do_mkdir VDC.PROOFS w) VDC.LEDGER = None)
    by (unfold do_mkdir; destruct (existsb _ _); exact Hf).
  unfold init_ledger in H. simpl in H.
  inversion H as [| ? ? ? ? H1 | | | | | |]; subst; [left; exact Hf|].
  rewrite Hf in H1. simpl in H1.
  inversion H1 as [| | ? ? ? ? H2 | | | | |]; subst; [left; exact Hf|].
  destruct (moment_atomic_write [genesis_block] _ _ H2) as [Hsame | ->].
  - left. rewrite Hsame. exact Hd.
  - right. reflexivity.
Qed.

(** X17.  The first start is safe against a crash too: wherever
    [init_ledger] or [load_chain] is stopped in a directory without a ledger
    file, that file is still absent or holds the complete genesis chain, never
    a part of it, and the next [load_chain] returns the genesis chain. *)
Theorem X17_first_start_is_crash_safe (w w' : world) :
  files w VDC.LEDGER = None ->
  moment init_ledger w w' \/ moment load_chain w w' ->
  (files w' VDC.LEDGER = None \/
   files w' VDC.LEDGER = Some (Document [genesis_block])) /\
  fst (run load_chain w') = Returns [genesis_block].
Proof.
  intros Hf H.
  assert (Hcases : files w' VDC.LEDGER = None \/
                   files w' VDC.LEDGER = Some (Document [genesis_block])).
  2: { split; [exact Hcases|].
       destruct Hcases as [Hc | Hc].
       - rewrite (load_chain_absent _ Hc). reflexivity.
       - rewrite (load_chain_present _ _ Hc). reflexivity. }
  assert (Hinit : forall w1, moment init_ledger w w1 ->
                    files w1 VDC.LEDGER = None \/
                    files w1 VDC.LEDGER = Some (Document [genesis_block])).
  { intros w1 H1. destruct (moment_init_ledger _ _ Hf H1) as [Hn | ->];
      [left; exact Hn | right; apply persisted_ledger]. }
  destruct H as [H | H]; [exact (Hinit _ H)|].
  unfold load_chain in H.
  apply moment_bind in H. destruct H as [H | (present & w1 & Hp & H)].
  { left. unfold path_exists in H.
    inversion H as [| ? ? ? ? H1 | | | | | |]; subst; [exact Hf|].
    apply moment_ret in H1. subst w'. exact Hf. }
  unfold path_exists in Hp. simpl in Hp. rewrite Hf in Hp.
  inversion Hp; subst present w1; clear Hp.
  apply moment_bind in H. destruct H as [H | (u & w1 & Hrun & H)];
    [exact (Hinit _ H)|].
  assert (Hw1 : w1 = persisted (do_mkdir VDC.PROOFS w) [genesis_block]).
  { unfold init_ledger in Hrun. simpl in Hrun. rewrite Hf in Hrun.
    simpl in Hrun. inversion Hrun. reflexivity. }
  assert (Hf1 : files w1 VDC.LEDGER = Some (Document [genesis_block]))
    by (rewrite Hw1; apply persisted_ledger).
  right.
  inversion H as [| | | | | ? ? ? ? H2 | |]; subst w'; [exact Hf1|].
  unfold do_read in H2. rewrite Hf1 in H2. simpl in H2.
  inversion H2; subst; exact Hf1.
Qed.

(** A crash after ten characters of the temporary file were written. *)
Lemma X17_first_start_is_crash_safe_witness :
  let w' := set_file (do_mkdir VDC.PROOFS empty_world) "vdc_chain.tmp"
              (Some (Truncated [genesis_block] 10)) in
  (files w' VDC.LEDGER = None \/
   files w' VDC.LEDGER = Some (Document [genesis_block])) /\
  fst (run load_chain w') = Returns [genesis_block].
Proof.
  intro w'.
  apply (X17_first_start_is_crash_safe empty_world w'); [reflexivity|].
  left. unfold init_ledger, path_exists.
  apply moment_exists. apply moment_mkdir. apply moment_torn.
Defined.

(** ** Timestamps *)

Lemma stamps_from_snoc (chain : list dict) (lo hi t hi' : Z) (b : dict) :
  stamps_from lo chain hi ->
  dict_get b "timestamp" = Some (VInt t) ->
  hi <= t -> t <= hi' ->
  stamps_from lo (chain ++ [b]) hi'.
Proof.
  revert lo. induction chain as [|c chain IH]; intros lo H Hb Hlo Hhi.
  - simpl in H. exists t. split; [exact Hb|]. split; [lia | exact Hhi].
  - destruct H as (tc & Hc & Hle & Hrest).
    exists tc. split; [exact Hc|]. split; [exact Hle|].
    exact (IH tc Hrest Hb Hlo Hhi).
Qed.

Lemma stamps_from_adjacent (chain : list dict) (lo hi : Z) :
  stamps_from lo chain hi ->
  forall i prev b,
    nth_error chain i = Some prev ->
    nth_error chain (S i) = Some b ->
    exists t t',
      dict_get prev "timestamp" = Some (VInt t) /\
      dict_get b "timestamp" = Some (VInt t') /\ t <= t'.
Proof.
  revert lo. induction chain as [|c chain IH]; intros lo H i prev b Hp Hb.
  - destruct i; discriminate Hp.
  - destruct H as (tc & Hc & _ & Hrest).
    destruct i as [|i].
    + inversion Hp; subst c.
      destruct chain as [|d chain]; [discriminate Hb|].
      inversion Hb; subst d.
      destruct Hrest as (td & Hd & Hle & _).
      exists tc, td. split; [exact Hc|]. split; [exact Hd | exact Hle].
    + exact (IH tc Hrest i prev b Hp Hb).
Qed.

Lemma persisted_clock (chain : list dict) (w : world) :
  clock (persisted w chain) = clock w /\ ticks (persisted w chain) = ticks w.
Proof.
  unfold persisted, atomic_write. rewrite tmp_path. simpl.
  unfold do_replace. simpl. split; reflexivity.
Qed.

Lemma run_commits_stamps (batches : list (list dict)) (w : world)
    (chain : list dict) :
  files w VDC.LEDGER = Some (Document chain) ->
  valid_chain chain ->
  (forall n, clock w n <= clock w (S n)) ->
  stamps_from 0 chain (clock w (ticks w)) ->
  exists chain' hi,
    files (run_commits batches w) VDC.LEDGER = Some (Document chain') /\
    stamps_from 0 chain' hi.
Proof.
  revert w chain.
  induction batches as [|t rest IH]; intros w chain Hf Hv Hmono Hst.
  - exists chain, (clock w (ticks w)). split; [exact Hf | exact Hst].
  - cbn [run_commits].
    destruct (commit_valid t w chain Hf Hv)
      as [(prev & blk & Hl & Hs & Ht & _ & Hr) | (e & Hr)]; rewrite Hr; cbn [snd].
    + destruct (persisted_clock (chain ++ [blk]) (do_tick w)) as [Hc Hk].
      apply (IH (persisted (do_tick w) (chain ++ [blk])) (chain ++ [blk])).
      * apply persisted_ledger.
      * exact (valid_commit _ _ _ Hv Hl Hs).
      * rewrite Hc. exact Hmono.
      * rewrite Hc, Hk.
        apply (stamps_from_snoc chain 0 (clock w (ticks w)) (clock w (ticks w))
                 _ blk Hst Ht); [lia | apply Hmono].
    + exact (IH w chain Hf Hv Hmono Hst).
Qed.

(** X18.  Block timestamps never go backwards while the clock does not: on a
    ledger grown from the genesis block under a clock that is never negative
    and never decreases, every block carries an integer timestamp that is at
    least the timestamp of the block before it. *)
Theorem X18_timestamps_never_decrease (w0 : world)
    (batches : list (list dict)) :
  files w0 VDC.LEDGER = None ->
  (forall n, 0 <= clock w0 n) ->
  (forall n, clock w0 n <= clock w0 (S n)) ->
  let w := run_commits batches (snd (run init_ledger w0)) in
  exists chain,
    run load_chain w = (Returns chain, w) /\
    forall i prev b,
      nth_error chain i = Some prev ->
      nth_error chain (S i) = Some b ->
      exists t t',
        dict_get prev "timestamp" = Some (VInt t) /\
        dict_get b "timestamp" = Some (VInt t') /\ t <= t'.
Proof.
  intros H0 Hpos Hmono w.
  assert (Hw : snd (run init_ledger w0)
               = persisted (do_mkdir VDC.PROOFS w0) [genesis_block]).
  { unfold init_ledger. simpl. rewrite H0. reflexivity. }
  destruct (persisted_clock [genesis_block] (do_mkdir VDC.PROOFS w0)) as [Hc Hk].
  assert (Hd : clock (do_mkdir VDC.PROOFS w0) = clock w0 /\
               ticks (do_mkdir VDC.PROOFS w0) = ticks w0)
    by (unfold do_mkdir; destruct (existsb _ _); split; reflexivity).
  destruct Hd as [Hdc Hdk].
  destruct (run_commits_stamps batches (snd (run init_ledger w0)) [genesis_block])
    as (chain & hi & Hf & Hst).
  - rewrite Hw. apply persisted_ledger.
  - constructor.
  - rewrite Hw, Hc, Hdc. exact Hmono.
  - rewrite Hw, Hc, Hk, Hdc, Hdk.
    exists 0. split; [reflexivity|]. split; [lia | apply Hpos].
  - fold w in Hf. exists chain.
    split; [apply load_chain_present, Hf | exact (stamps_from_adjacent _ _ _ Hst)].
Qed.

Lemma X18_timestamps_never_decrease_witness :
  let w := run_commits [[sample_mint "alice" 0.1]; [sample_burn "alice" 0.05]]
                       (snd (run init_ledger empty_world)) in
  exists chain,
    run load_chain w = (Returns chain, w) /\
    forall i prev b,
      nth_error chain i = Some prev ->
      nth_error chain (S i) = Some b ->
      exists t t',
        dict_get prev "timestamp" = Some (VInt t) /\
        dict_get b "timestamp" = Some (VInt t') /\ t <= t'.
Proof.
  apply (X18_timestamps_never_decrease empty_world
           [[sample_mint "alice" 0.1]; [sample_burn "alice" 0.05]]).
  - reflexivity.
  - intro n. do 8 (destruct n as [|n]; [simpl; lia|]). simpl. lia.
  - intro n. do 8 (destruct n as [|n]; [simpl; lia|]). simpl. lia.
Defined.

(** ** Transactions of other types *)

Lemma sum_amounts_none (kind : string) (transactions : list dict) :
  forallb (fun t => negb (eq_str (dict_get t "type") kind)) transactions = true ->
  sum_amounts kind transactions = Ok (VInt 0).
Proof.
  intro H. unfold sum_amounts.
  replace (filter (fun t => eq_str (dict_get t "type") kind) transactions)
    with (@nil dict); [reflexivity|].
  induction transactions as [|t rest IH]; [reflexivity|].
  simpl in H. apply andb_prop in H. destruct H as [Ht Hrest].
  apply negb_true_iff in Ht. cbn [filter]. rewrite Ht. exact (IH Hrest).
Qed.

(** X19.  Transactions whose type is neither ["MINT"] nor ["BURN"] are stored
    but move nothing: on a ledger grown from the genesis block a commit of
    such transactions cannot fail when they are dicts [json.dumps] accepts
    (no [int] of more than 4300 digits, nested at most eight levels deep);
    their amounts need not be numbers.  The block holds them, and the supply
    it records is [round(s + 0 - 0, 8)] for the supply [s] before. *)
Theorem X19_other_types_move_nothing (w0 : world)
    (batches : list (list dict)) (transactions : list dict) :
  files w0 VDC.LEDGER = None ->
  forallb (fun t => negb (moves_supply t)) transactions = true ->
  json_ok_txs transactions = true ->
  let w := run_commits batches (snd (run init_ledger w0)) in
  exists s blk w',
    run get_current_supply w = (Returns (VFloat s), w) /\
    run (commit transactions) w = (Returns blk, w') /\
    block_txs blk = transactions /\
    run get_current_supply w' =
      (Returns (VFloat (float_round (s + 0 - 0) 8)), w').
Proof.
  intros H0 Hother _ w.
  destruct (run_commits_ledger_ok batches _ (init_ledger_ok w0 H0))
    as (chain & Hf & Hv).
  fold w in Hf.
  destruct (valid_chain_last _ Hv) as (prev & i & s & h & Hl & Hi & Hs & Hh).
  pose proof (commit_run transactions w chain prev i s h Hf Hl Hi Hs Hh) as Hc.
  assert (Hn : next_supply s transactions = Ok (s + 0 - 0)%float).
  { unfold next_supply.
    rewrite (sum_amounts_none "MINT"), (sum_amounts_none "BURN").
    - unfold py_add, py_sub, py_arith. cbn [rbind].
      rewrite float_of_int_0. reflexivity.
    - rewrite forallb_forall in Hother |- *. intros t Ht.
      specialize (Hother t Ht). unfold moves_supply in Hother.
      rewrite negb_orb in Hother. apply andb_prop in Hother. apply Hother.
    - rewrite forallb_forall in Hother |- *. intros t Ht.
      specialize (Hother t Ht). unfold moves_supply in Hother.
      rewrite negb_orb in Hother. apply andb_prop in Hother. apply Hother. }
  rewrite Hn in Hc. cbv zeta in Hc.
  set (data := block_data (i + 1) (clock w (ticks w)) transactions _ h) in Hc.
  set (blk := data ++ [("block_hash", VStr (_hash_block_data data))]) in Hc.
  set (w' := persisted (do_tick w) (chain ++ [blk])) in Hc.
  exists s, blk, w'.
  split.
  { rewrite (run_get_current_supply w chain prev Hf Hl).
    unfold dict_get_default. rewrite Hs. reflexivity. }
  split; [exact Hc|]. split; [apply block_txs_data|].
  rewrite (run_get_current_supply w' (chain ++ [blk]) blk).
  - reflexivity.
  - apply persisted_ledger.
  - unfold last_item. rewrite rev_app_distr. reflexivity.
Qed.

(** A note with a string for an amount. *)
Lemma X19_other_types_move_nothing_witness :
  let note := [ ("type", VStr "NOTE"); ("wallet", VStr "alice");
                ("amount", VStr "seven") ] in
  let w := run_commits [[sample_mint "alice" 0.1]]
                       (snd (run init_ledger empty_world)) in
  exists s blk w',
    run get_current_supply w = (Returns (VFloat s), w) /\
    run (commit [note]) w = (Returns blk, w') /\
    block_txs blk = [note] /\
    run get_current_supply w' =
      (Returns (VFloat (float_round (s + 0 - 0) 8)), w').
Proof.
  intros note.
  apply (X19_other_types_move_nothing empty_world [[sample_mint "alice" 0.1]]
           [note]); [reflexivity | reflexivity | vm_compute; reflexivity].
Defined.

(** ** Checking a stored chain *)

Lemma valid_chain_successors (chain : list dict) :
  valid_chain chain ->
  forall i b, nth_error chain (S i) = Some b -> exists prev, successor prev b.
Proof.
  induction 1 as [|chain prev b0 Hv IH Hl Hs]; intros i b Hb.
  - destruct i; discriminate Hb.
  - destruct (Nat.lt_ge_cases (S i) (List.length chain)) as [Hlt | Hge].
    + rewrite nth_error_app1 in Hb by exact Hlt. exact (IH _ _ Hb).
    + rewrite nth_error_app2 in Hb by exact Hge.
      destruct (S i - List.length chain)%nat as [|k];
        [|destruct k; discriminate Hb].
      inversion Hb; subst b. exists prev. exact Hs.
Qed.

(** X20.  A stored chain can be checked block by block, the genesis block
    apart: in every chain grown from the genesis block, each later block's
    [block_hash] is the 64-character hash of the block without that field,
    while the genesis block's [block_hash] is a fixed label that is not the
    hash of its other fields. *)
Theorem X20_stored_blocks_recompute (w0 : world) (batches : list (list dict)) :
  files w0 VDC.LEDGER = None ->
  let w := run_commits batches (snd (run init_ledger w0)) in
  exists chain g,
    run load_chain w = (Returns chain, w) /\
    nth_error chain 0 = Some g /\
    dict_get g "block_hash" = Some (VStr "GENESIS_MOONSHOT_NOV2025") /\
    dict_get g "block_hash" <>
      Some (VStr (_hash_block_data (dict_remove g "block_hash"))) /\
    forall i b,
      nth_error chain (S i) = Some b ->
      dict_get b "block_hash" =
        Some (VStr (_hash_block_data (dict_remove b "block_hash"))) /\
      String.length (_hash_block_data (dict_remove b "block_hash")) = 64%nat.
Proof.
  intros H0 w.
  destruct (run_commits_ledger_ok batches _ (init_ledger_ok w0 H0))
    as (chain & Hf & Hv).
  fold w in Hf.
  exists chain, genesis_block.
  split; [apply load_chain_present, Hf|].
  split; [apply valid_chain_head, Hv|].
  split; [reflexivity|].
  split.
  { pose proof (hexdigest_length
                  (utf8_encode
                     (json_dumps_sorted
                        (VDict (dict_remove genesis_block "block_hash")))))
      as Hlen.
    fold (_hash_block_data (dict_remove genesis_block "block_hash")) in Hlen.
    generalize dependent (_hash_block_data
                            (dict_remove genesis_block "block_hash")).
    intros h Hlen Heq.
    change (dict_get genesis_block "block_hash")
      with (Some (VStr "GENESIS_MOONSHOT_NOV2025")) in Heq.
    injection Heq as Heq. subst h. discriminate Hlen. }
  intros i b Hb.
  destruct (valid_chain_successors _ Hv _ _ Hb) as (prev & Hs).
  destruct Hs as (j & s & h & txs & now & minted & burned & s' & _ & _ & _ & _
                  & _ & _ & Hblk).
  cbv zeta in Hblk.
  assert (Hdata : dict_remove b "block_hash"
                  = block_data (j + 1) now txs (float_round s' 8) h)
    by (rewrite Hblk; reflexivity).
  rewrite Hdata. split; [rewrite Hblk; reflexivity | apply hexdigest_length].
Qed.

Lemma X20_stored_blocks_recompute_witness :
  let w := run_commits [[sample_mint "alice" 0.1]; [sample_burn "alice" 0.05]]
                       (snd (run init_ledger empty_world)) in
  exists chain g,
    run load_chain w = (Returns chain, w) /\
    nth_error chain 0 = Some g /\
    dict_get g "block_hash" = Some (VStr "GENESIS_MOONSHOT_NOV2025") /\
    dict_get g "block_hash" <>
      Some (VStr (_hash_block_data (dict_remove g "block_hash"))) /\
    forall i b,
      nth_error chain (S i) = Some b ->
      dict_get b "block_hash" =
        Some (VStr (_hash_block_data (dict_remove b "block_hash"))) /\
      String.length (_hash_block_data (dict_remove b "block_hash")) = 64%nat.
Proof.
  apply (X20_stored_blocks_recompute empty_world
           [[sample_mint "alice" 0.1]; [sample_burn "alice" 0.05]]).
  reflexivity.
Defined.

(** * Part VIII: the track loop of the extractor *)

Lemma visit_untimed (st : Extract.track) (pt : Extract.trkpt) :
  located pt = true -> timed pt = false -> Extract.visit st pt = Ok st.
Proof.
  unfold located, timed, Extract.visit.
  destruct (Extract.lat pt) as [la|]; [|discriminate].
  destruct (Extract.lon pt) as [lo|]; [|discriminate].
  destruct (Extract.time pt); [discriminate|]. reflexivity.
Qed.

(** X21.  Track points without a time are skipped altogether, provided their
    coordinates can be read: the loop ends in the same state as on the track
    with these points left out, so they neither add distance nor serve as the
    previous point.  A track that has points, none with a time, is still
    reported, with distance 0.0, speed 0.0 and no anomaly, whereas a track
    without points is not reported. *)
Theorem X21_untimed_points_are_skipped (name : string)
    (trkpts : list Extract.trkpt) :
  forallb located trkpts = true ->
  (forall st, Extract.visit_all st trkpts
              = Extract.visit_all st (filter timed trkpts)) /\
  (filter timed trkpts <> [] ->
   Extract.gpx_report name trkpts
     = Extract.gpx_report name (filter timed trkpts)) /\
  (trkpts <> [] -> filter timed trkpts = [] ->
   Extract.gpx_report name trkpts
     = Some [ ("file", VStr name); ("distance_m", VFloat 0);
              ("max_speed_mps", VFloat 0); ("anomalies", VInt 0) ]) /\
  Extract.gpx_report name [] = None.
Proof.
  intro Hloc.
  assert (Hall : forall st, Extract.visit_all st trkpts
                            = Extract.visit_all st (filter timed trkpts)).
  { induction trkpts as [|pt rest IH]; intro st; [reflexivity|].
    simpl in Hloc. apply andb_prop in Hloc. destruct Hloc as [Hpt Hrest].
    cbn [filter Extract.visit_all].
    destruct (timed pt) eqn:Ht.
    - cbn [Extract.visit_all].
      destruct (Extract.visit st pt) as [st'|e]; [|reflexivity].
      cbn [rbind]. exact (IH Hrest st').
    - rewrite (visit_untimed st pt Hpt Ht). cbn [rbind]. exact (IH Hrest st). }
  split; [exact Hall|].
  split; [|split; [|reflexivity]].
  - intro Hne. unfold Extract.gpx_report. rewrite Hall.
    destruct trkpts as [|pt rest]; [exfalso; apply Hne; reflexivity|].
    destruct (filter timed (pt :: rest)); [exfalso; apply Hne|]; reflexivity.
  - intros Hne Hnil. unfold Extract.gpx_report. rewrite Hall, Hnil.
    destruct trkpts as [|pt rest]; [exfalso; apply Hne|]; reflexivity.
Qed.

Lemma X21_untimed_points_are_skipped_witness :
  let a := Extract.Trkpt (Ok 48%float) (Ok 11%float) (Some (Ok (Extract.Stamp true 0))) in
  let b := Extract.Trkpt (Ok 50%float) (Ok 12%float) None in
  let c := Extract.Trkpt (Ok 49%float) (Ok 11%float)
             (Some (Ok (Extract.Stamp true 3600000000))) in
  Extract.gpx_report "a.gpx" [a; b; c] = Extract.gpx_report "a.gpx" [a; c] /\
  Extract.gpx_report "a.gpx" [b]
    = Some [ ("file", VStr "a.gpx"); ("distance_m", VFloat 0);
             ("max_speed_mps", VFloat 0); ("anomalies", VInt 0) ].
Proof.
  intros a b c.
  split.
  - apply (X21_untimed_points_are_skipped "a.gpx" [a; b; c] eq_refl).
    discriminate.
  - apply (X21_untimed_points_are_skipped "a.gpx" [b] eq_refl);
      [discriminate | reflexivity].
Defined.

Lemma visit_timed (st st' : Extract.track) (pt : Extract.trkpt) :
  timed pt = true ->
  Extract.visit st pt = Ok st' ->
  Extract.prev st' <> None /\
  Extract.anomalies st <= Extract.anomalies st' <= Extract.anomalies st + 1 /\
  (Extract.prev st = None -> Extract.anomalies st' = Extract.anomalies st).
Proof.
  unfold timed, Extract.visit, Extract.leg.
  destruct (Extract.lat pt) as [la|]; [|discriminate 2].
  destruct (Extract.lon pt) as [lo|]; [|discriminate 2].
  destruct (Extract.time pt) as [[ts|]|]; try discriminate.
  intros _. cbn [rbind].
  destruct (Extract.prev st) as [[[pla plo] pts]|].
  - destruct (Extract.math_sqrt _) as [root|]; [|discriminate].
    cbn [rbind].
    destruct (Extract.stamp_sub ts pts) as [us|]; [|discriminate].
    cbn [rbind].
    destruct (0 <? Extract.total_seconds us)%float.
    + destruct (11.5 <? _)%float; intro H; inversion H; subst st'; simpl;
        (split; [discriminate|]); (split; [lia|]); discriminate.
    + intro H; inversion H; subst st'; simpl.
      split; [discriminate|]. split; [lia|]. discriminate.
  - cbn [rbind]. intro H; inversion H; subst st'; simpl.
    split; [discriminate|]. split; [lia|]. reflexivity.
Qed.

Lemma visit_all_anomalies (trkpts : list Extract.trkpt) (st st' : Extract.track) :
  Extract.visit_all st trkpts = Ok st' ->
  let n := Z.of_nat (List.length (filter timed trkpts)) in
  Extract.anomalies st <= Extract.anomalies st' /\
  Extract.anomalies st' <=
    Extract.anomalies st + n
    - (match Extract.prev st with
       | None => if Z.ltb 0 n then 1 else 0
       | Some _ => 0
       end).
Proof.
  revert st. induction trkpts as [|pt rest IH]; intros st H n.
  - cbn [Extract.visit_all] in H. injection H as <-. subst n. simpl.
    destruct (Extract.prev st); lia.
  - cbn [Extract.visit_all] in H.
    destruct (Extract.visit st pt) as [st1|e] eqn:Hv; [|discriminate H].
    cbn [rbind] in H. specialize (IH st1 H). cbv zeta in IH.
    subst n. cbn [filter].
    destruct (timed pt) eqn:Ht.
    + destruct (visit_timed st st1 pt Ht Hv) as (Hp & Ha & Hnone).
      destruct (Extract.prev st1) as [p1|]; [|exfalso; apply Hp; reflexivity].
      cbn [List.length]. rewrite Nat2Z.inj_succ.
      set (m := Z.of_nat (List.length (filter timed rest))) in *.
      assert (Hm : 0 <= m) by apply Nat2Z.is_nonneg.
      destruct (Extract.prev st) as [p0|].
      * lia.
      * specialize (Hnone eq_refl).
        assert (Hpos : Z.ltb 0 (Z.succ m) = true) by (apply Z.ltb_lt; lia).
        rewrite Hpos. lia.
    + assert (Hst : st1 = st).
      { unfold timed in Ht. unfold Extract.visit in Hv.
        destruct (Extract.lat pt); [|discriminate Hv].
        destruct (Extract.lon pt); [|discriminate Hv].
        cbn [rbind] in Hv.
        destruct (Extract.time pt); [discriminate Ht|].
        inversion Hv; reflexivity. }
      subst st1. exact IH.
Qed.

(** X22.  A track cannot have more anomalies than legs: when the loop ends
    without an exception, the anomaly count is not negative and is below the
    number of points that carry a time, or is zero when no point does. *)
Theorem X22_anomalies_bounded_by_legs (trkpts : list Extract.trkpt)
    (st : Extract.track) :
  Extract.visit_all Extract.start trkpts = Ok st ->
  let timed_points := Z.of_nat (List.length (filter timed trkpts)) in
  0 <= Extract.anomalies st /\
  (Extract.anomalies st < timed_points \/
   (timed_points = 0 /\ Extract.anomalies st = 0)).
Proof.
  intros H n.
  pose proof (visit_all_anomalies trkpts Extract.start st H) as Hb.
  cbv zeta in Hb. fold n in Hb. simpl in Hb.
  assert (Hn : 0 <= n) by apply Nat2Z.is_nonneg.
  destruct (Z.ltb 0 n) eqn:Hpos.
  - apply Z.ltb_lt in Hpos. split; [lia|]. left. lia.
  - apply Z.ltb_ge in Hpos. split; [lia|]. right. lia.
Qed.

(** Two timed points one degree and one hour apart: one leg, at 30.9 m/s. *)
Lemma X22_anomalies_bounded_by_legs_witness :
  let a := Extract.Trkpt (Ok 48%float) (Ok 11%float) (Some (Ok (Extract.Stamp true 0))) in
  let c := Extract.Trkpt (Ok 49%float) (Ok 11%float)
             (Some (Ok (Extract.Stamp true 3600000000))) in
  exists st,
    Extract.visit_all Extract.start [a; c] = Ok st /\
    0 <= Extract.anomalies st /\
    (Extract.anomalies st < 2 \/ (2 = 0 /\ Extract.anomalies st = 0)).
Proof.
  intros a c.
  destruct (Extract.visit_all Extract.start [a; c]) as [st|e] eqn:E.
  - exists st. split; [reflexivity|].
    exact (X22_anomalies_bounded_by_legs [a; c] st E).
  - vm_compute in E. discriminate E.
Defined.

(** ** Anomalies and the top speed *)

Lemma visit_speed (st st' : Extract.track) (pt : Extract.trkpt) :
  Extract.visit st pt = Ok st' ->
  (11.5 <? Extract.max_spd st)%float = Z.ltb 0 (Extract.anomalies st) /\
  0 <= Extract.anomalies st /\
  (Extract.max_spd st =? Extract.max_spd st)%float = true ->
  (11.5 <? Extract.max_spd st')%float = Z.ltb 0 (Extract.anomalies st') /\
  0 <= Extract.anomalies st' /\
  (Extract.max_spd st' =? Extract.max_spd st')%float = true.
Proof.
  unfold Extract.visit, Extract.leg.
  destruct (Extract.lat pt) as [la|]; [|discriminate 1].
  destruct (Extract.lon pt) as [lo|]; [|discriminate 1].
  cbn [rbind].
  destruct (Extract.time pt) as [[ts|]|];
    [| discriminate 1 | intro H; injection H as <-; exact (fun I => I)].
  cbn [rbind].
  destruct (Extract.prev st) as [[[pla plo] pts]|];
    [| cbn [rbind]; intro H; injection H as <-; exact (fun I => I)].
  destruct (Extract.math_sqrt _) as [root|]; [|discriminate 1].
  cbn [rbind].
  destruct (Extract.stamp_sub ts pts) as [us|]; [|discriminate 1].
  cbn [rbind].
  destruct (0 <? Extract.total_seconds us)%float;
    [| intro H; injection H as <-; exact (fun I => I)].
  set (speed := (root * 111194.9 / Extract.total_seconds us)%float).
  intro H. injection H as <-. cbn [Extract.max_spd Extract.anomalies].
  intros (Hiff & Hpos & Hnum).
  unfold Extract.max.
  destruct (Extract.max_spd st <? speed)%float eqn:Hlt;
    destruct (11.5 <? speed)%float eqn:Hfast.
  - split; [symmetry; apply Z.ltb_lt; lia|].
    split; [lia | exact (float_ltb_number _ _ Hlt)].
  - split; [|split; [exact Hpos | exact (float_ltb_number _ _ Hlt)]].
    rewrite <- Hiff.
    destruct (11.5 <? Extract.max_spd st)%float eqn:Hm; [|reflexivity].
    rewrite (float_ltb_trans _ _ _ Hm Hlt) in Hfast. discriminate Hfast.
  - split; [|split; [lia | exact Hnum]].
    rewrite (float_ltb_not_gt_trans _ _ _ Hfast Hlt Hnum).
    symmetry. apply Z.ltb_lt. lia.
  - split; [exact Hiff|]. split; [exact Hpos | exact Hnum].
Qed.

(** X23.  Anomalies and the top speed agree: when the loop ends without an
    exception, it has counted an anomaly exactly when the top speed it holds,
    before rounding, is above 11.5 m/s. *)
Theorem X23_anomalies_iff_top_speed (trkpts : list Extract.trkpt)
    (st : Extract.track) :
  Extract.visit_all Extract.start trkpts = Ok st ->
  (0 < Extract.anomalies st <-> (11.5 <? Extract.max_spd st)%float = true).
Proof.
  intro H.
  assert (Hinv : (11.5 <? Extract.max_spd st)%float
                   = Z.ltb 0 (Extract.anomalies st) /\
                 0 <= Extract.anomalies st /\
                 (Extract.max_spd st =? Extract.max_spd st)%float = true).
  { assert (Hstart : (11.5 <? Extract.max_spd Extract.start)%float
                       = Z.ltb 0 (Extract.anomalies Extract.start) /\
                     0 <= Extract.anomalies Extract.start /\
                     (Extract.max_spd Extract.start
                        =? Extract.max_spd Extract.start)%float = true)
      by (split; [reflexivity | split; [simpl; lia | reflexivity]]).
    revert H Hstart. generalize Extract.start.
    induction trkpts as [|pt rest IH]; intros st0 H Hst0.
    - cbn [Extract.visit_all] in H. injection H as <-. exact Hst0.
    - cbn [Extract.visit_all] in H.
      destruct (Extract.visit st0 pt) as [st1|e] eqn:Hv; [|discriminate H].
      cbn [rbind] in H. exact (IH st1 H (visit_speed _ _ _ Hv Hst0)). }
  destruct Hinv as (Hiff & _ & _). rewrite Hiff. symmetry. apply Z.ltb_lt.
Qed.

Lemma X23_anomalies_iff_top_speed_witness :
  let a := Extract.Trkpt (Ok 48%float) (Ok 11%float)
             (Some (Ok (Extract.Stamp true 0))) in
  let c := Extract.Trkpt (Ok 49%float) (Ok 11%float)
             (Some (Ok (Extract.Stamp true 3600000000))) in
  exists st,
    Extract.visit_all Extract.start [a; c] = Ok st /\
    (0 < Extract.anomalies st <-> (11.5 <? Extract.max_spd st)%float = true).
Proof.
  intros a c.
  destruct (Extract.visit_all Extract.start [a; c]) as [st|e] eqn:E.
  - exists st. split; [reflexivity|].
    exact (X23_anomalies_iff_top_speed [a; c] st E).
  - vm_compute in E. discriminate E.
Defined.
